(** * Tensor utilities of ttnn: shard division, reshape inference, host-side
      layout conversions of convolution weights and biases.

    Shallow embedding of [ttnn/cpp/ttnn/tensor/tensor_utils.cpp].

    Conventions.
    - Machine integers are [Z] with the wrap-around written out
      ([u32], [u64], [i32], [i64]).
    - Code that can throw returns a [Result]; the four ways the source leaves
      a function abnormally are kept apart in [Failure].
    - A host buffer is the list of its elements (each element is the bit
      pattern of a [bfloat16], [float], [uint32_t], ...; the all-zero pattern
      is the value a freshly created buffer holds). *)

From Stdlib Require Import ZArith List Lia Bool DecimalString.
From stdpp Require Import base list strings.

Local Open Scope Z_scope.

(* ===================================================================== *)
(** ** Machine integers *)
(* ===================================================================== *)

Definition u32 (z : Z) : Z := z mod 2 ^ 32.
Definition u64 (z : Z) : Z := z mod 2 ^ 64.
Definition i32 (z : Z) : Z := (z + 2 ^ 31) mod 2 ^ 32 - 2 ^ 31.
Definition i64 (z : Z) : Z := (z + 2 ^ 63) mod 2 ^ 64 - 2 ^ 63.

(* ===================================================================== *)
(** ** Failures *)
(* ===================================================================== *)

(** [Thrown] is [TT_THROW], [Fatal] is a failed [TT_FATAL], [AssertFailed] a
    failed [TT_ASSERT] (the string is the asserted condition), and
    [Undefined] is an operation C++ leaves undefined (integer division by
    zero, an access outside a buffer). *)
Inductive Failure : Type :=
  | Thrown (msg : string)
  | Fatal (msg : string)
  | AssertFailed (cond : string)
  | Undefined (what : string).

Inductive Result (A : Type) : Type :=
  | Ok (a : A)
  | Fail (f : Failure).
Arguments Ok {A} a.
Arguments Fail {A} f.

Definition bind {A B : Type} (c : Result A) (k : A -> Result B) : Result B :=
  match c with
  | Ok a => k a
  | Fail f => Fail f
  end.

Notation "'let*' x ':=' c 'in' k" := (bind c (fun x => k))
  (at level 10, x name, c at level 100, k at level 200).
Notation "'let*' ( x , y ) ':=' c 'in' k" :=
  (bind c (fun xy => let (x, y) := xy in k))
  (at level 10, x name, y name, c at level 100, k at level 200).

Definition is_ok {A : Type} (r : Result A) : bool :=
  match r with Ok _ => true | Fail _ => false end.

(** [TT_FATAL(cond, msg)]: checked in every build. *)
Definition TT_FATAL (cond : bool) (msg : string) : Result unit :=
  if cond then Ok tt else Fail (Fatal msg).

(** [TT_ASSERT(cond)]: the macro is declared outside this translation unit;
    it is checked only when assertions are compiled in, which the flag
    [assertions] records. *)
Definition TT_ASSERT (assertions : bool) (cond : bool) (text : string) : Result unit :=
  if assertions && negb cond then Fail (AssertFailed text) else Ok tt.

(* ===================================================================== *)
(** ** Shard division *)
(* ===================================================================== *)

(** [Size]: a height and a width, both [size_t]. *)
Record Size : Type := mkSize { height : Z; width : Z }.

Record ShardDivisionSpec : Type := mkShardDivisionSpec {
  num_shards_height : Z;
  last_shard_height : Z;
  num_shards_width : Z;
  last_shard_width : Z
}.

(** Modelled from the spec: [tt::div_up] is declared in a header that is not
    part of the sources at hand.  The specification gives its result as the
    ceiling of the quotient, [ceil(a / b)]: the quotient, plus one when the
    division leaves a remainder. *)
Definition div_up (a b : Z) : Z :=
  if a mod b =? 0 then a / b else a / b + 1.

(** [compute_shard_division_spec].  The extents of the shard shape are
    positive wherever the function is used below; a zero extent, for which
    the remainder is undefined in C++, is outside what the definition
    describes. *)
Definition compute_shard_division_spec (shape shard_shape : Size) : ShardDivisionSpec :=
  let num_shards_height := div_up (height shape) (height shard_shape) in
  let last_shard_height :=
    if height shape mod height shard_shape >? 0
    then height shape mod height shard_shape
    else height shard_shape in
  let num_shards_width := div_up (width shape) (width shard_shape) in
  let last_shard_width :=
    if width shape mod width shard_shape >? 0
    then width shape mod width shard_shape
    else width shard_shape in
  mkShardDivisionSpec num_shards_height last_shard_height num_shards_width last_shard_width.

(** [n] is the ceiling of [a / b]: the least number of pieces of size [b]
    that cover [a]. *)
Definition is_ceil_div (a b n : Z) : Prop :=
  a <= n * b /\ (n - 1) * b < a.

(** What the claim says about one axis. *)
Definition axis_ok (len shard n last : Z) : Prop :=
  is_ceil_div len shard n /\
  (len mod shard <> 0 -> last = len mod shard) /\
  (len mod shard = 0 -> last = shard) /\
  0 < last <= shard /\
  (n - 1) * shard + last = len.

(* ===================================================================== *)
(** ** Data model: data types, layouts, storages, tensors *)
(* ===================================================================== *)

Inductive DataType : Type :=
  | BFLOAT16 | FLOAT32 | UINT32 | BFLOAT8_B | BFLOAT4_B
  | UINT8 | UINT16 | INT32 | INVALID.

Inductive Layout : Type := ROW_MAJOR | TILE | INVALID_LAYOUT.

Inductive StorageType : Type :=
  | OWNED | DEVICE | BORROWED | MULTI_DEVICE | MULTI_DEVICE_HOST.

Inductive WorkExecutorMode : Type := SYNCHRONOUS | ASYNCHRONOUS.

(** How the shards of a multi-device tensor relate to the logical tensor. *)
Inductive DistributedTensorConfig : Type :=
  | ReplicateTensor (replication_factor : Z)
  | ShardTensor (shard_dimension : Z)
  | ShardTensor2D (mesh_y mesh_x : Z)
  | AllGatherTensor.

#[global] Instance DataType_eq_dec : EqDecision DataType.
Proof. solve_decision. Defined.
#[global] Instance Layout_eq_dec : EqDecision Layout.
Proof. solve_decision. Defined.
#[global] Instance StorageType_eq_dec : EqDecision StorageType.
Proof. solve_decision. Defined.
#[global] Instance WorkExecutorMode_eq_dec : EqDecision WorkExecutorMode.
Proof. solve_decision. Defined.

(** A shape is the sequence of its dimensions ([uint32_t] each). *)
Definition Shape : Type := list Z.

(** The elements of a host buffer. *)
Definition Buffer : Type := list Z.

(** Borrowed storage does not hold elements: it points into memory that the
    caller owns and may overwrite at any time.  [Memory] is that memory: what
    is found behind each address at a given moment. *)
Definition Address : Type := nat.
Definition Memory : Type := Address -> Buffer.

(** The caller overwrites the region behind [a]. *)
Definition overwrite (mem : Memory) (a : Address) (data : Buffer) : Memory :=
  fun a' => if decide (a' = a) then data else mem a'.

(** A buffer on an accelerator: only its identity matters here. *)
Record DeviceBuffer : Type := mkDeviceBuffer {
  buffer_device_id : Z;
  buffer_address : Z
}.

Inductive Storage : Type :=
  | OwnedStorage (buffer : Buffer)
  | DeviceStorage (buffer : DeviceBuffer)
  | BorrowedStorage (buffer : Address)
  | MultiDeviceStorage
      (strategy : DistributedTensorConfig)
      (ordered_device_ids : list Z)
      (buffers : list (Z * DeviceBuffer))
      (shapes : list (Z * Shape))
  | MultiDeviceHostStorage
      (strategy : DistributedTensorConfig)
      (buffers : list Buffer)
      (shapes : list Shape).

Record TensorSpec : Type := mkTensorSpec {
  spec_shape : Shape;
  spec_dtype : DataType;
  spec_layout : Layout
}.

(** [Tensor]: the fields of [tensor_attributes] that the functions below
    read. *)
Record Tensor : Type := mkTensor {
  get_storage : Storage;
  get_tensor_spec : TensorSpec;
  num_shards_to_be_populated : Z
}.

Record Device : Type := mkDevice {
  device_id : Z;
  get_worker_mode : WorkExecutorMode
}.

Definition get_dtype (t : Tensor) : DataType := spec_dtype (get_tensor_spec t).
Definition get_layout (t : Tensor) : Layout := spec_layout (get_tensor_spec t).
Definition get_shape (t : Tensor) : Shape := spec_shape (get_tensor_spec t).
(** Host tensors in row-major layout carry no padding, so the legacy
    (padded) shape read by the conversions is the shape itself. *)
Definition get_legacy_shape (t : Tensor) : Shape := get_shape t.

Definition storage_type_of (s : Storage) : StorageType :=
  match s with
  | OwnedStorage _ => OWNED
  | DeviceStorage _ => DEVICE
  | BorrowedStorage _ => BORROWED
  | MultiDeviceStorage _ _ _ _ => MULTI_DEVICE
  | MultiDeviceHostStorage _ _ _ => MULTI_DEVICE_HOST
  end.

Definition storage_type (t : Tensor) : StorageType := storage_type_of (get_storage t).

(** [shape.volume()]: the product of the dimensions, a [uint64_t]. *)
Definition product (dims : list Z) : Z := fold_right Z.mul 1 dims.
Definition volume (shape : Shape) : Z := u64 (product shape).
Definition get_logical_volume (t : Tensor) : Z := volume (get_shape t).

(** [shape[i]]: the dimension at index [i] (0 outside, which none of the
    callers below reaches on a rank-4 shape). *)
Definition dim (shape : Shape) (i : nat) : Z := nth i shape 0.

(** Number of buffers a storage holds. *)
Definition num_buffers (s : Storage) : Z :=
  match s with
  | MultiDeviceStorage _ _ buffers _ => Z.of_nat (length buffers)
  | MultiDeviceHostStorage _ buffers _ => Z.of_nat (length buffers)
  | _ => 1
  end.

(** Modelled from the spec: the [Tensor] constructors are defined outside the
    sources at hand.  A tensor is built from its storage and its
    specification; the shard count it declares is the buffer count of the
    storage ("buffer count consistent with the device/shard count declared
    at creation"). *)
Definition Tensor_with_spec (s : Storage) (spec : TensorSpec) : Tensor :=
  mkTensor s spec (num_buffers s).

Definition Tensor_of (s : Storage) (shape : Shape) (dtype : DataType) (layout : Layout) : Tensor :=
  Tensor_with_spec s (mkTensorSpec shape dtype layout).

Definition is_cpu_tensor (t : Tensor) : bool :=
  bool_decide (storage_type t = OWNED) || bool_decide (storage_type t = BORROWED).

Definition is_device_tensor (t : Tensor) : bool :=
  bool_decide (storage_type t = DEVICE).

(** Modelled from the spec: [ttnn::distributed::is_multi_device_tensor] lives
    in the distribution layer, outside the sources at hand; the two
    multi-device storage kinds are the multi-device tensors. *)
Definition is_multi_device_tensor (t : Tensor) : bool :=
  bool_decide (storage_type t = MULTI_DEVICE) ||
  bool_decide (storage_type t = MULTI_DEVICE_HOST).

(** The elements a host tensor holds at the moment the memory is [mem]. *)
Definition host_elements (mem : Memory) (t : Tensor) : option Buffer :=
  match get_storage t with
  | OwnedStorage b => Some b
  | BorrowedStorage a => Some (mem a)
  | _ => None
  end.

(* ===================================================================== *)
(** ** Borrowed storage and asynchronous workers *)
(* ===================================================================== *)

(** [copy_borrowed_tensor_in_async_mode].  The function reads the caller's
    memory and returns a tensor; the memory is passed through so that what it
    leaves behind can be stated. *)
Definition copy_borrowed_tensor_in_async_mode
    (worker : Device) (tensor : Tensor) (mem : Memory) : Tensor * Memory :=
  if bool_decide (get_worker_mode worker = SYNCHRONOUS) ||
     (num_shards_to_be_populated tensor >? 1)
  then (tensor, mem)
  else
    match get_storage tensor with
    | BorrowedStorage borrowed_buffer =>
        let owned_buf := mem borrowed_buffer in
        (Tensor_with_spec (OwnedStorage owned_buf) (get_tensor_spec tensor), mem)
    | _ => (tensor, mem)
    end.

(* ===================================================================== *)
(** ** Reshape: resolving the inferred dimension *)
(* ===================================================================== *)

(** [std::to_string] on an [int32_t]. *)
Definition to_string (z : Z) : string := NilZero.string_of_int (Z.to_int z).

(** The loop [for (auto& s : shape) error_msg += std::to_string(s) + ","]. *)
Definition append_dims (shape : list Z) (error_msg : string) : string :=
  fold_left (fun msg s => msg +:+ to_string s +:+ ",") shape error_msg.

Definition more_than_one_wildcard_msg (shape : list Z) : string :=
  append_dims shape
    "Shape cannot have more than 1 elements that is set to -1! Shape used: ("
  +:+ ")".

Definition ambiguous_wildcard_msg (shape : list Z) : string :=
  append_dims shape "cannot reshape tensor of 0 elements into shape ("
  +:+ ") because the unspecified dimension size -1 can be any value and is ambiguous".

(** The three locals the first loop of [infer_dims_for_reshape] updates. *)
Record ScanState : Type := mkScanState {
  new_volume : Z;            (* int64_t *)
  index_of_negative_1 : Z;   (* int64_t, -1 while no wildcard was seen *)
  has_zero : bool
}.

(** The first loop, from position [index] on; [shape] is the whole span (the
    error message prints it), [rest] what is left to visit. *)
Fixpoint scan_dims (shape rest : list Z) (index : Z) (st : ScanState) : Result ScanState :=
  match rest with
  | [] => Ok st
  | d :: rest' =>
      if d =? -1 then
        if negb (index_of_negative_1 st =? -1)
        then Fail (Thrown (more_than_one_wildcard_msg shape))
        else scan_dims shape rest' (index + 1)
               (mkScanState (new_volume st) index (has_zero st))
      else
        scan_dims shape rest' (index + 1)
          (mkScanState (i64 (new_volume st * d))
                       (index_of_negative_1 st)
                       (if d =? 0 then true else has_zero st))
  end.

(** [infer_dims_for_reshape].  [%] and [/] on [int64_t] truncate towards
    zero ([Z.rem], [Z.quot]); dividing by zero is undefined, and so is
    [INT64_MIN % -1], whose quotient does not fit.  The result is a vector of
    [uint32_t]: every requested dimension is converted. *)
Definition infer_dims_for_reshape (tensor : Tensor) (shape : list Z) : Result Shape :=
  let old_volume := i64 (get_logical_volume tensor) in
  let* st := scan_dims shape shape 0 (mkScanState 1 (-1) false) in
  if has_zero st && negb (index_of_negative_1 st =? -1) then
    Fail (Thrown (ambiguous_wildcard_msg shape))
  else
    let new_shape := map u32 shape in
    if index_of_negative_1 st =? -1 then
      let* _ := TT_FATAL (new_volume st =? old_volume) "Invalid arguments to reshape" in
      Ok new_shape
    else
      if new_volume st =? 0 then Fail (Undefined "integer division by zero")
      else if (old_volume =? - 2 ^ 63) && (new_volume st =? -1)
      then Fail (Undefined "signed integer overflow in division")
      else
        let* _ := TT_FATAL (Z.rem old_volume (new_volume st) =? 0)
                    "Invalid arguments to reshape" in
        Ok (<[Z.to_nat (index_of_negative_1 st) := u32 (Z.quot old_volume (new_volume st))]>
              new_shape).

(* ===================================================================== *)
(** ** Host buffers, loops, tiles *)
(* ===================================================================== *)

(** The element type [T] a conversion template is instantiated with. *)
Inductive ElemType : Type :=
  | T_bfloat16 | T_float | T_uint32_t | T_int32_t | T_uint16_t.

Definition is_float (T : ElemType) : bool :=
  match T with T_float => true | _ => false end.

(** Modelled from the spec: the host buffer allocator "produces
    zero-initialized typed host buffers of a requested element count". *)
Definition owned_buffer_create (count : Z) : Buffer := repeat 0 (Z.to_nat count).

(** [buffer[i]] as an rvalue and as an lvalue.  The index is a [size_t];
    outside the buffer the access is undefined. *)
Definition in_bounds (b : Buffer) (i : Z) : bool :=
  (0 <=? i) && (i <? Z.of_nat (length b)).

Definition buffer_read (b : Buffer) (i : Z) : Result Z :=
  if in_bounds b i then Ok (nth (Z.to_nat i) b 0)
  else Fail (Undefined "read outside the buffer").

Definition buffer_write (b : Buffer) (i v : Z) : Result Buffer :=
  if in_bounds b i then Ok (<[Z.to_nat i := v]> b)
  else Fail (Undefined "write outside the buffer").

(** Unsigned [a / b] and [a % b]. *)
Definition c_div (a b : Z) : Result Z :=
  if b =? 0 then Fail (Undefined "integer division by zero") else Ok (a / b).
Definition c_mod (a b : Z) : Result Z :=
  if b =? 0 then Fail (Undefined "integer division by zero") else Ok (a mod b).

(** [for (auto i = start; i < start + count; i++) body]. *)
Fixpoint for_range {A : Type} (count : nat) (start : Z)
    (body : Z -> A -> Result A) (acc : A) : Result A :=
  match count with
  | O => Ok acc
  | S count' =>
      let* acc' := body start acc in
      for_range count' (start + 1) body acc'
  end.

(** [for (auto i = 0; i < bound; i++) body]. *)
Definition for_loop {A : Type} (bound : Z) (body : Z -> A -> Result A) (acc : A) : Result A :=
  for_range (Z.to_nat bound) 0 body acc.

Definition TILE_HEIGHT : Z := 32.
Definition TILE_WIDTH : Z := 32.

(** [(uint32_t)std::ceil((double)a / (double)b)] for [uint32_t] operands and
    a non-zero [b]: both operands are exact as doubles, and the rounding
    error of the quotient is below the distance [1/b] that separates a
    non-integral quotient from the next integer, so the result is the exact
    ceiling. *)
Definition ceil_div (a b : Z) : Z := (a + b - 1) / b.

(** Modelled from the spec: the repacking of a row-major buffer into tiles,
    which belongs to the layout conversion outside the sources at hand.  The
    tiled layout orders the elements "by tile-blocks-of-elements"; a
    dimension is padded to [ceil(dim / tile_dim) * tile_dim] and the padding
    is zero; the repacking is "index remapping, not numeric transformation".
    The rows of the matrix are all dimensions but the last. *)
Definition tilize (shape : Shape) (data : Buffer) : Buffer :=
  let cols := List.last shape 1 in
  let rows := product shape / cols in
  let tile_rows := Z.to_nat (ceil_div rows TILE_HEIGHT) in
  let tile_cols := Z.to_nat (ceil_div cols TILE_WIDTH) in
  flat_map (fun tr =>
    flat_map (fun tc =>
      flat_map (fun r =>
        map (fun c =>
          let i := Z.of_nat tr * TILE_HEIGHT + Z.of_nat r in
          let j := Z.of_nat tc * TILE_WIDTH + Z.of_nat c in
          if (i <? rows) && (j <? cols) then nth (Z.to_nat (i * cols + j)) data 0 else 0)
          (seq 0 (Z.to_nat TILE_WIDTH)))
        (seq 0 (Z.to_nat TILE_HEIGHT)))
      (seq 0 tile_cols))
    (seq 0 tile_rows).

(** Modelled from the spec: the data types the layout conversion has a
    repacking function for.  It is "specialized per data type (32-bit float,
    16-bit brain-float, 32-bit unsigned integer, plus packed sub-byte formats
    reached only via a float32 intermediate)": the packed formats have no
    repacking function of their own. *)
Definition layout_conversion_maps (d : DataType) : bool :=
  match d with
  | FLOAT32 | BFLOAT16 | UINT32 => true
  | _ => false
  end.

(** Modelled from the spec: [Tensor::to(Layout::TILE)] is defined outside the
    sources at hand.  It produces a new tensor with the layout converted
    and "dispatches to the Layout Conversion Engine keyed by data type",
    where "Dispatch is by a fixed mapping from data type to a repacking
    function; an unmapped data type fails with" the error kind
    UnsupportedDataType.  A tensor that is in tile layout already needs no
    conversion ("the result legitimately aliases identical unconverted
    bytes").  Only the conversion of a tensor in owned storage is modelled,
    the one [create_tensor_from_owned_buffer] asks for; an operation that
    needs the bytes of another storage must "either handle it or fail with"
    the error kind UnsupportedStorage. *)
Definition to_layout_TILE (t : Tensor) : Result Tensor :=
  match get_layout t with
  | TILE => Ok t
  | _ =>
      if layout_conversion_maps (get_dtype t) then
        match get_storage t with
        | OwnedStorage b =>
            Ok (Tensor_of (OwnedStorage (tilize (get_shape t) b))
                  (get_shape t) (get_dtype t) TILE)
        | _ => Fail (Thrown "Unsupported storage type")
        end
      else Fail (Thrown "Unsupported data type")
  end.

(** The two quantisation passes [pack_fp32_vec_as_bfp8_tiles] and
    [pack_fp32_vec_as_bfp4_tiles] are defined outside the sources at hand and
    the specification only names them ("a dedicated float to packed-bits
    quantization pass"): they are taken as given. *)
Record Quantizer : Type := mkQuantizer {
  pack_fp32_vec_as_bfp8_tiles : Buffer -> Buffer;
  pack_fp32_vec_as_bfp4_tiles : Buffer -> Buffer
}.

(** Modelled from the spec: [compute_strides], "stride vector from a shape
    (standard right-to-left cumulative product)". *)
Fixpoint compute_strides (shape : Shape) : list Z :=
  match shape with
  | [] => []
  | _ :: rest => product rest :: compute_strides rest
  end.

(** Modelled from the spec: [compute_flat_indices], "flat row-major index
    from an N-dimensional coordinate and a stride vector". *)
Fixpoint compute_flat_indices (indices strides : list Z) : Z :=
  match indices, strides with
  | i :: indices', s :: strides' => i * s + compute_flat_indices indices' strides'
  | _, _ => 0
  end.

(* ===================================================================== *)
(** ** Per-shard transformation *)
(* ===================================================================== *)

Fixpoint assoc_find {V : Type} (key : Z) (m : list (Z * V)) : option V :=
  match m with
  | [] => None
  | (k, v) :: m' => if k =? key then Some v else assoc_find key m'
  end.

(** Modelled from the spec: [get_tensors_from_multi_device_storage] belongs to
    the distribution layer, outside the sources at hand.  It "enumerates all
    physical shards of a (possibly single-device) tensor": the per-device
    buffers in the order of the device ids, the per-shard host buffers in
    the order of the shard indices, and the tensor itself when it is not
    distributed.  A device id without buffer or shape is the "fatal usage
    error" of an inconsistent storage. *)
Definition get_tensors_from_multi_device_storage (t : Tensor) : Result (list Tensor) :=
  match get_storage t with
  | MultiDeviceStorage _ ordered_device_ids buffers shapes =>
      fold_right (fun id acc =>
        let* rest := acc in
        match assoc_find id buffers, assoc_find id shapes with
        | Some b, Some sh =>
            Ok (Tensor_of (DeviceStorage b) sh (get_dtype t) (get_layout t) :: rest)
        | _, _ => Fail (Thrown "no buffer or shape for the device id")
        end) (Ok []) ordered_device_ids
  | MultiDeviceHostStorage _ buffers shapes =>
      if bool_decide (length buffers = length shapes) then
        Ok (map (fun bs : Buffer * Shape =>
                   Tensor_of (OwnedStorage (fst bs)) (snd bs) (get_dtype t) (get_layout t))
                (combine buffers shapes))
      else Fail (Thrown "buffer count and shape count differ")
  | _ => Ok [t]
  end.

(** Modelled from the spec: the "declared distribution configuration" of a
    multi-device storage; a tensor that is not distributed declares none. *)
Definition get_distributed_tensor_config_from_tensor (t : Tensor)
    : option DistributedTensorConfig :=
  match get_storage t with
  | MultiDeviceStorage strategy _ _ _ => Some strategy
  | MultiDeviceHostStorage strategy _ _ => Some strategy
  | _ => None
  end.

Definition device_buffer_of (t : Tensor) : Result DeviceBuffer :=
  match get_storage t with
  | DeviceStorage b => Ok b
  | _ => Fail (Thrown "Unsupported storage: a device buffer is expected")
  end.

Definition owned_buffer_of (t : Tensor) : Result Buffer :=
  match get_storage t with
  | OwnedStorage b => Ok b
  | _ => Fail (Thrown "Unsupported storage: an owned buffer is expected")
  end.

Fixpoint collect {A B : Type} (f : A -> Result B) (l : list A) : Result (list B) :=
  match l with
  | [] => Ok []
  | a :: l' =>
      let* b := f a in
      let* bs := collect f l' in
      Ok (b :: bs)
  end.

(** Modelled from the spec: [create_multi_device_tensor] belongs to the
    distribution layer, outside the sources at hand.  It "reassembles a new
    multi-device (or single) Tensor preserving the original distribution
    configuration and device/shard ordering": a multi-device storage of the
    requested kind with the given configuration, holding the shards in the
    order given, or the lone shard itself when the requested kind is not a
    distributed one.  Shape, data type and layout are those of the first
    shard. *)
Definition create_multi_device_tensor (tensors : list Tensor)
    (kind : StorageType) (strategy : option DistributedTensorConfig) : Result Tensor :=
  match tensors with
  | [] => Fail (Thrown "no shard to reassemble")
  | first :: others =>
      match kind, strategy with
      | MULTI_DEVICE, Some cfg =>
          let* bufs := collect device_buffer_of tensors in
          let ids := map buffer_device_id bufs in
          Ok (Tensor_of
                (MultiDeviceStorage cfg ids (combine ids bufs)
                                    (combine ids (map get_shape tensors)))
                (get_shape first) (get_dtype first) (get_layout first))
      | MULTI_DEVICE_HOST, Some cfg =>
          let* bufs := collect owned_buffer_of tensors in
          Ok (Tensor_of (MultiDeviceHostStorage cfg bufs (map get_shape tensors))
                (get_shape first) (get_dtype first) (get_layout first))
      | (OWNED | BORROWED | DEVICE), None =>
          match others with
          | [] => Ok first
          | _ => Fail (Thrown "several shards for a tensor that is not distributed")
          end
      | _, _ => Fail (Thrown "storage kind and distribution configuration disagree")
      end
  end.

(** [std::transform] with a callable that may throw and may have an effect
    on a state [S]: the elements are visited from first to last. *)
Fixpoint std_transform {S : Type} (f : Tensor -> S -> Result (Tensor * S))
    (inputs : list Tensor) (s : S) : Result (list Tensor * S) :=
  match inputs with
  | [] => Ok ([], s)
  | t :: rest =>
      let* (o, s1) := f t s in
      let* (os, s2) := std_transform f rest s1 in
      Ok (o :: os, s2)
  end.

(** [transform]. *)
Definition transform {S : Type} (tensor : Tensor)
    (transform_func : Tensor -> S -> Result (Tensor * S)) (s : S) : Result (Tensor * S) :=
  let* input_tensors := get_tensors_from_multi_device_storage tensor in
  let* (output_tensors, s') := std_transform transform_func input_tensors s in
  let* result :=
    create_multi_device_tensor output_tensors (storage_type tensor)
      (get_distributed_tensor_config_from_tensor tensor) in
  Ok (result, s').

(** A callable without effect, as [transform] sees it. *)
Definition pure_callable (f : Tensor -> Result Tensor)
    : Tensor -> unit -> Result (Tensor * unit) :=
  fun t _ => let* r := f t in Ok (r, tt).

(** A callable that records, in call order, the tensors it is applied to. *)
Definition recording (g : Tensor -> Tensor)
    : Tensor -> list Tensor -> Result (Tensor * list Tensor) :=
  fun t calls => Ok (g t, calls ++ [t]).

(* ===================================================================== *)
(** ** Layout conversions of convolution weights and biases *)
(* ===================================================================== *)

Section Conversions.

(** The quantisation passes, whether [TT_ASSERT] is compiled in, and the
    caller's memory at the time of the call. *)
Context (Q : Quantizer) (assertions : bool) (mem : Memory).

(** The generic lambda of [convert_tensor]: dispatch on the storage.
    [owned_buffer::get_as<T>] and [borrowed_buffer::get_as<T>] view the
    buffer as elements of type [T]; buffers are not tagged with their
    element type here, so the view is the buffer itself. *)
Definition convert_tensor_on_storage (compute : Buffer -> Result Tensor)
    (input_tensor : Tensor) : Result Tensor :=
  match get_storage input_tensor with
  | OwnedStorage buffer => compute buffer
  | BorrowedStorage buffer => compute (mem buffer)
  | _ => Fail (Thrown "Unsupported storage type")
  end.

(** [convert_tensor<T>]. *)
Definition convert_tensor (input_tensor : Tensor) (compute : Buffer -> Result Tensor)
    : Result Tensor :=
  if is_multi_device_tensor input_tensor then
    let* (r, _) :=
      transform input_tensor (pure_callable (convert_tensor_on_storage compute)) tt in
    Ok r
  else convert_tensor_on_storage compute input_tensor.

(** [function_map.find(key)] on the dispatch table. *)
Fixpoint map_find {F : Type} (key : DataType) (function_map : list (DataType * F)) : option F :=
  match function_map with
  | [] => None
  | (k, f) :: rest => if bool_decide (k = key) then Some f else map_find key rest
  end.

Definition is_packed (d : DataType) : bool :=
  bool_decide (d = BFLOAT8_B) || bool_decide (d = BFLOAT4_B).

(** [convert_tensor_to_tiled_layout_common]; [args] stands for the parameter
    pack forwarded to the selected function. *)
Definition convert_tensor_to_tiled_layout_common {Args : Type}
    (input_tensor : Tensor) (output_dtype : option DataType)
    (function_map : list (DataType * (Tensor -> Args -> DataType -> Result Tensor)))
    (args : Args) : Result Tensor :=
  let* _ := TT_ASSERT assertions (bool_decide (get_layout input_tensor = ROW_MAJOR))
              "input_tensor.get_layout() == Layout::ROW_MAJOR" in
  let* _ :=
    match output_dtype with
    | Some d =>
        if is_packed d
        then TT_ASSERT assertions (bool_decide (get_dtype input_tensor = FLOAT32))
               "input_tensor.get_dtype() == DataType::FLOAT32"
        else TT_ASSERT assertions
               (bool_decide (get_dtype input_tensor = get_dtype input_tensor))
               "input_tensor.get_dtype() == input_tensor.get_dtype()"
    | None => Ok tt
    end in
  match map_find (get_dtype input_tensor) function_map with
  | None => Fail (Thrown "Unsupported data type")
  | Some entry =>
      entry input_tensor args (default (get_dtype input_tensor) output_dtype)
  end.

(** The condition of the [TT_FATAL] in the non-float branch of
    [create_tensor_from_owned_buffer]. *)
Definition output_dtype_guard (output_dtype : DataType) : bool :=
  negb (bool_decide (output_dtype = BFLOAT8_B)) ||
  negb (bool_decide (output_dtype = BFLOAT4_B)).

(** [create_tensor_from_owned_buffer<T>]. *)
Definition create_tensor_from_owned_buffer (T : ElemType) (buf : Buffer)
    (output_dtype : DataType) (output_shape : Shape) : Result Tensor :=
  let row_major_to_tile :=
    let rm_tensor := Tensor_of (OwnedStorage buf) output_shape output_dtype ROW_MAJOR in
    to_layout_TILE rm_tensor in
  if is_float T then
    if is_packed output_dtype then
      let* tensor :=
        to_layout_TILE (Tensor_of (OwnedStorage buf) output_shape FLOAT32 ROW_MAJOR) in
      let* output_float_data := owned_buffer_of tensor in
      let output_packed_data :=
        if bool_decide (output_dtype = BFLOAT8_B)
        then pack_fp32_vec_as_bfp8_tiles Q output_float_data
        else pack_fp32_vec_as_bfp4_tiles Q output_float_data in
      Ok (Tensor_of (OwnedStorage output_packed_data) output_shape output_dtype TILE)
    else row_major_to_tile
  else
    let* _ := TT_FATAL (output_dtype_guard output_dtype) "Unsupported output datatype" in
    row_major_to_tile.

(** [dst[dst_index] = src[src_index]] *)
Definition copy_element (src : Buffer) (src_index dst_index : Z) (dst : Buffer)
    : Result Buffer :=
  let* value := buffer_read src src_index in
  buffer_write dst dst_index value.

(** [to_weight_tile_layout<T>].  The arithmetic on the dimensions is that of
    [uint32_t]; the loop counters stay below the dimensions. *)
Definition to_weight_tile_layout (T : ElemType) (conv_weight_tensor : Tensor)
    (in1_block : Z * Z) (output_dtype : DataType) : Result Tensor :=
  let (in1_block_h, in1_block_w) := in1_block in
  let w_shape := get_legacy_shape conv_weight_tensor in
  let w := dim w_shape in
  let compute := fun input_buffer : Buffer =>
    let weight_matrix_cols := w 0%nat in
    let in1_block_w_datums := u32 (in1_block_w * TILE_WIDTH) in
    let* cols_rem := c_mod weight_matrix_cols in1_block_w_datums in
    let weight_matrix_cols :=
      if negb (cols_rem =? 0)
      then u32 (ceil_div weight_matrix_cols in1_block_w_datums * in1_block_w_datums)
      else weight_matrix_cols in
    let weight_matrix_rows := u32 (w 1%nat * w 2%nat * w 3%nat) in
    let in1_block_h_datums := u32 (in1_block_h * TILE_HEIGHT) in
    let* rows_rem := c_mod weight_matrix_rows in1_block_h_datums in
    let weight_matrix_rows :=
      if negb (rows_rem =? 0)
      then u32 (ceil_div weight_matrix_rows in1_block_h_datums * in1_block_h_datums)
      else weight_matrix_rows in
    let output_shape := [1; 1; weight_matrix_rows; weight_matrix_cols] in
    let output_buffer := owned_buffer_create (volume output_shape) in
    let* output_buffer :=
      for_loop (w 2%nat) (fun r => for_loop (w 3%nat) (fun s =>
      for_loop (w 1%nat) (fun c => for_loop (w 0%nat) (fun k output_buffer =>
        let matrix_idx :=
          u32 (k + c * weight_matrix_cols + s * w 1%nat * weight_matrix_cols
               + r * w 3%nat * w 1%nat * weight_matrix_cols) in
        let idx :=
          u32 (k * w 1%nat * w 2%nat * w 3%nat + c * w 2%nat * w 3%nat + r * w 3%nat + s) in
        copy_element input_buffer idx matrix_idx output_buffer))))
        output_buffer in
    create_tensor_from_owned_buffer T output_buffer output_dtype output_shape in
  convert_tensor conv_weight_tensor compute.

(** The dispatch table of [convert_conv_weight_tensor_to_tiled_layout]. *)
Definition to_w_tile_layout_map
    : list (DataType * (Tensor -> Z * Z -> DataType -> Result Tensor)) :=
  [ (BFLOAT16, to_weight_tile_layout T_bfloat16);
    (FLOAT32, to_weight_tile_layout T_float);
    (UINT32, to_weight_tile_layout T_uint32_t) ].

Definition convert_conv_weight_tensor_to_tiled_layout (conv_weight_tensor : Tensor)
    (in1_block_h in1_block_w : Z) (output_dtype : option DataType) : Result Tensor :=
  convert_tensor_to_tiled_layout_common conv_weight_tensor output_dtype
    to_w_tile_layout_map (in1_block_h, in1_block_w).

(** [to_weight_tile_layout_block_sharded<T>].  The condition of a
    [TT_ASSERT] is evaluated only when assertions are compiled in. *)
Definition to_weight_tile_layout_block_sharded (T : ElemType) (conv_weight_tensor : Tensor)
    (num_channel_shards : Z) (output_dtype : DataType) : Result Tensor :=
  let w_shape := get_legacy_shape conv_weight_tensor in
  let w := dim w_shape in
  let compute := fun input_buffer : Buffer =>
    let weight_matrix_cols := w 0%nat in
    let* _ :=
      if assertions then
        let* r := c_mod weight_matrix_cols num_channel_shards in
        TT_ASSERT assertions (r =? 0) "weight_matrix_cols % num_channel_shards == 0"
      else Ok tt in
    let* conv_output_shard_width := c_div weight_matrix_cols num_channel_shards in
    let conv_output_shard_width_padded :=
      u32 (ceil_div conv_output_shard_width TILE_WIDTH * TILE_WIDTH) in
    let weight_matrix_cols :=
      if conv_output_shard_width <? conv_output_shard_width_padded
      then u32 (conv_output_shard_width_padded * num_channel_shards)
      else weight_matrix_cols in
    let weight_matrix_rows := u32 (w 1%nat * w 2%nat * w 3%nat) in
    let* _ :=
      if assertions then
        let* r := c_mod (w 1%nat) num_channel_shards in
        TT_ASSERT assertions (r =? 0) "w_shape[1] % num_channel_shards == 0"
      else Ok tt in
    let* conv_input_shard_width := c_div (w 1%nat) num_channel_shards in
    let weight_block_height := u32 (conv_input_shard_width * w 2%nat * w 3%nat) in
    let weight_block_height_padded :=
      u32 (ceil_div weight_block_height TILE_HEIGHT * TILE_HEIGHT) in
    let weight_matrix_rows :=
      if weight_block_height <? weight_block_height_padded
      then u32 (weight_block_height_padded * num_channel_shards)
      else weight_matrix_rows in
    let output_shape := [1; 1; weight_matrix_rows; weight_matrix_cols] in
    let output_buffer := owned_buffer_create (volume output_shape) in
    let* output_buffer :=
      for_loop num_channel_shards (fun ic => for_loop (w 2%nat) (fun r =>
      for_loop (w 3%nat) (fun s => for_loop conv_input_shard_width (fun c_s =>
      for_loop num_channel_shards (fun oc =>
      for_loop conv_output_shard_width (fun k_s output_buffer =>
        let matrix_idx :=
          u32 ((oc * conv_output_shard_width_padded + k_s)
               + c_s * weight_matrix_cols
               + s * conv_input_shard_width * weight_matrix_cols
               + r * w 3%nat * conv_input_shard_width * weight_matrix_cols
               + ic * weight_block_height_padded * weight_matrix_cols) in
        let idx :=
          u32 ((oc * conv_output_shard_width + k_s) * w 1%nat * w 2%nat * w 3%nat
               + (ic * conv_input_shard_width + c_s) * w 2%nat * w 3%nat
               + r * w 3%nat + s) in
        copy_element input_buffer idx matrix_idx output_buffer))))))
        output_buffer in
    create_tensor_from_owned_buffer T output_buffer output_dtype output_shape in
  convert_tensor conv_weight_tensor compute.

(** The dispatch table of
    [convert_conv_weight_tensor_to_tiled_layout_block_sharded] (a
    function-local [to_w_tile_layout_map] in the source). *)
Definition to_w_tile_layout_block_sharded_map
    : list (DataType * (Tensor -> Z -> DataType -> Result Tensor)) :=
  [ (BFLOAT16, to_weight_tile_layout_block_sharded T_bfloat16);
    (FLOAT32, to_weight_tile_layout_block_sharded T_float);
    (UINT32, to_weight_tile_layout_block_sharded T_uint32_t) ].

Definition convert_conv_weight_tensor_to_tiled_layout_block_sharded
    (conv_weight_tensor : Tensor) (num_channel_shards : Z)
    (output_dtype : option DataType) : Result Tensor :=
  convert_tensor_to_tiled_layout_common conv_weight_tensor output_dtype
    to_w_tile_layout_block_sharded_map num_channel_shards.

(** [to_bias_tile_layout_block_sharded<T>].  The assertion on the
    divisibility of the column count is commented out in the source, and so
    has no counterpart here. *)
Definition to_bias_tile_layout_block_sharded (T : ElemType) (conv_bias_tensor : Tensor)
    (num_channel_shards : Z) (output_dtype : DataType) : Result Tensor :=
  let b_shape := get_legacy_shape conv_bias_tensor in
  let b := dim b_shape in
  let* _ := TT_ASSERT assertions
              ((b 0%nat =? 1) && (b 1%nat =? 1) && (b 2%nat =? 1))
              "b_shape[0] == 1 && b_shape[1] == 1 && b_shape[2] == 1" in
  let compute := fun input_buffer : Buffer =>
    let bias_matrix_cols := b 3%nat in
    let* conv_output_shard_width := c_div bias_matrix_cols num_channel_shards in
    let conv_output_shard_width_padded :=
      u32 (ceil_div conv_output_shard_width TILE_WIDTH * TILE_WIDTH) in
    let bias_matrix_cols :=
      if conv_output_shard_width <? conv_output_shard_width_padded
      then u32 (conv_output_shard_width_padded * num_channel_shards)
      else bias_matrix_cols in
    let bias_matrix_rows := 32 in
    let output_shape := [1; 1; bias_matrix_rows; bias_matrix_cols] in
    let output_buffer := owned_buffer_create (volume output_shape) in
    let* output_buffer :=
      for_loop num_channel_shards (fun oc =>
      for_loop conv_output_shard_width (fun k_s output_buffer =>
        let matrix_idx := u32 (oc * conv_output_shard_width_padded + k_s) in
        let idx := u32 (oc * conv_output_shard_width + k_s) in
        copy_element input_buffer idx matrix_idx output_buffer))
        output_buffer in
    create_tensor_from_owned_buffer T output_buffer output_dtype output_shape in
  convert_tensor conv_bias_tensor compute.

(** The dispatch table of
    [convert_conv_bias_tensor_to_tiled_layout_block_sharded]. *)
Definition to_b_tile_layout_map
    : list (DataType * (Tensor -> Z -> DataType -> Result Tensor)) :=
  [ (BFLOAT16, to_bias_tile_layout_block_sharded T_bfloat16);
    (FLOAT32, to_bias_tile_layout_block_sharded T_float);
    (UINT32, to_bias_tile_layout_block_sharded T_uint32_t) ].

Definition convert_conv_bias_tensor_to_tiled_layout_block_sharded
    (conv_bias_tensor : Tensor) (num_channel_shards : Z)
    (output_dtype : option DataType) : Result Tensor :=
  convert_tensor_to_tiled_layout_common conv_bias_tensor output_dtype
    to_b_tile_layout_map num_channel_shards.

(** [conv_group_weight_zero_pad_helper<T>].  The loop counters are [int]; the
    shape entries and [num_groups] are [uint32_t], so the group arithmetic is
    unsigned, and its result is stored into an [int]. *)
Definition conv_group_weight_zero_pad_helper (T : ElemType) (weight : Tensor)
    (shapes_and_groups : Shape * Shape * Z) (output_dtype : DataType) : Result Tensor :=
  let '(original_weight_shape, output_weight_shape, num_groups) := shapes_and_groups in
  let o := dim original_weight_shape in
  let pad_weight := fun conv_weight_tensor_buffer : Buffer =>
    let output_buffer := owned_buffer_create (volume output_weight_shape) in
    let* output_buffer :=
      for_loop (o 0%nat) (fun curr_batch_idx output_buffer =>
        let new_batch_idx := curr_batch_idx in
        let* group_size := c_div (o 0%nat) num_groups in
        let* group_index := c_div curr_batch_idx group_size in
        let group_id := Z.min group_index (u32 (num_groups - 1)) in
        let new_channel_start_idx := i32 (u32 (group_id * o 1%nat)) in
        for_loop (o 1%nat) (fun j => for_loop (o 2%nat) (fun k =>
        for_loop (o 3%nat) (fun m output_buffer =>
          let value_flat_input_index :=
            compute_flat_indices [curr_batch_idx; j; k; m]
              (compute_strides original_weight_shape) in
          let* value := buffer_read conv_weight_tensor_buffer value_flat_input_index in
          let new_channel_idx := i32 (new_channel_start_idx + j) in
          let output_flat_input_index :=
            compute_flat_indices [new_batch_idx; new_channel_idx; k; m]
              (compute_strides output_weight_shape) in
          buffer_write output_buffer output_flat_input_index value)))
          output_buffer)
        output_buffer in
    Ok (Tensor_of (OwnedStorage output_buffer) output_weight_shape output_dtype ROW_MAJOR) in
  convert_tensor weight pad_weight.

(** The dispatch table of [convert_conv_weight_tensor_to_grouped_layout] (a
    function-local [to_w_tile_layout_map] in the source). *)
Definition to_grouped_layout_map
    : list (DataType * (Tensor -> Shape * Shape * Z -> DataType -> Result Tensor)) :=
  [ (INT32, conv_group_weight_zero_pad_helper T_int32_t);
    (FLOAT32, conv_group_weight_zero_pad_helper T_float);
    (BFLOAT16, conv_group_weight_zero_pad_helper T_bfloat16);
    (UINT16, conv_group_weight_zero_pad_helper T_uint16_t);
    (BFLOAT8_B, conv_group_weight_zero_pad_helper T_float);
    (UINT32, conv_group_weight_zero_pad_helper T_uint32_t);
    (BFLOAT4_B, conv_group_weight_zero_pad_helper T_uint32_t) ].

(** [convert_conv_weight_tensor_to_grouped_layout]. *)
Definition convert_conv_weight_tensor_to_grouped_layout (conv_weight_tensor : Tensor)
    (num_groups : Z) (output_dtype : DataType) : Result Tensor :=
  let test := dim (get_shape conv_weight_tensor) in
  let original_conv_weight_tensor_shape := [test 0%nat; test 1%nat; test 2%nat; test 3%nat] in
  let output_conv_weight_tensor_shape :=
    [ test 0%nat; u32 (test 1%nat * num_groups); test 2%nat; test 3%nat ] in
  let output_dtype :=
    if bool_decide (output_dtype = BFLOAT8_B) then FLOAT32 else output_dtype in
  convert_tensor_to_tiled_layout_common conv_weight_tensor (Some output_dtype)
    to_grouped_layout_map
    (original_conv_weight_tensor_shape, output_conv_weight_tensor_shape, num_groups).

End Conversions.

(* ===================================================================== *)
(** ** Further conversions: special padding, depthwise broadcast *)
(* ===================================================================== *)

(** [assert] of [<cassert>]: checked unless the build defines [NDEBUG],
    which the flag [c_asserts] records; a failed check aborts. *)
Definition C_assert (c_asserts : bool) (cond : bool) (text : string) : Result unit :=
  if c_asserts && negb cond then Fail (AssertFailed text) else Ok tt.

Section FurtherConversions.

(** Besides the parameters of the conversions above: whether [assert] is
    checked, and the view of a whole tensor as a borrowed buffer,
    [borrowed_buffer::get_as<T>(tensor)], which is defined outside the
    sources at hand and is taken as given. *)
Context (Q : Quantizer) (assertions c_asserts : bool) (mem : Memory)
        (borrowed_get_as : Tensor -> Result Buffer).

(** [to_weight_special_padding_tile_layout<T>]. *)
Definition to_weight_special_padding_tile_layout (T : ElemType) (conv_weight_tensor : Tensor)
    (in1_block : Z * Z) (output_dtype : DataType) : Result Tensor :=
  let (in1_block_h, in1_block_w) := in1_block in
  let w_shape := get_legacy_shape conv_weight_tensor in
  let w := dim w_shape in
  let compute := fun input_buffer : Buffer =>
    let in1_block_h_datums := u32 (in1_block_h * TILE_HEIGHT) in
    let in1_block_w_datums := u32 (in1_block_w * TILE_WIDTH) in
    let weight_matrix_cols := w 0%nat in
    let* cols_rem := c_mod weight_matrix_cols in1_block_w_datums in
    let weight_matrix_cols :=
      if negb (cols_rem =? 0)
      then u32 (ceil_div weight_matrix_cols in1_block_w_datums * in1_block_w_datums)
      else weight_matrix_cols in
    let* _ := C_assert c_asserts (u32 (w 1%nat * w 3%nat) <=? in1_block_h_datums)
                "in1_block_h_datums >= w_shape[1] * w_shape[3]" in
    let block_height_padding := u32 (in1_block_h_datums - u32 (w 1%nat * w 3%nat)) in
    let weight_matrix_rows :=
      u32 ((u32 (w 1%nat * w 3%nat) + block_height_padding) * w 2%nat) in
    let output_shape := [1; 1; weight_matrix_rows; weight_matrix_cols] in
    let output_buffer := owned_buffer_create (volume output_shape) in
    let* output_buffer :=
      for_loop (w 2%nat) (fun r => for_loop (w 3%nat) (fun s =>
      for_loop (w 1%nat) (fun c => for_loop (w 0%nat) (fun k output_buffer =>
        let matrix_idx :=
          u32 (k + c * weight_matrix_cols + s * w 1%nat * weight_matrix_cols
               + r * ((w 3%nat * w 1%nat) + block_height_padding) * weight_matrix_cols) in
        let idx :=
          u32 (k * w 1%nat * w 2%nat * w 3%nat + c * w 2%nat * w 3%nat + r * w 3%nat + s) in
        copy_element input_buffer idx matrix_idx output_buffer))))
        output_buffer in
    create_tensor_from_owned_buffer Q T output_buffer output_dtype output_shape in
  convert_tensor mem conv_weight_tensor compute.

(** The dispatch table of
    [convert_conv_weight_tensor_to_special_padding_tiled_layout]. *)
Definition to_w_special_padding_tile_layout_map
    : list (DataType * (Tensor -> Z * Z -> DataType -> Result Tensor)) :=
  [ (BFLOAT16, to_weight_special_padding_tile_layout T_bfloat16);
    (FLOAT32, to_weight_special_padding_tile_layout T_float);
    (UINT32, to_weight_special_padding_tile_layout T_uint32_t) ].

Definition convert_conv_weight_tensor_to_special_padding_tiled_layout
    (conv_weight_tensor : Tensor) (in1_block_h in1_block_w : Z)
    (output_dtype : option DataType) : Result Tensor :=
  convert_tensor_to_tiled_layout_common assertions conv_weight_tensor output_dtype
    to_w_special_padding_tile_layout_map (in1_block_h, in1_block_w).

(** [conv_depthwise_weight_bcast_helper<T>].  The helper does not go through
    [convert_tensor]: it views the tensor itself as a borrowed buffer. *)
Definition conv_depthwise_weight_bcast_helper (T : ElemType) (conv_weight_tensor : Tensor)
    (shapes : Shape * Shape) (output_dtype : DataType) : Result Tensor :=
  let (original_weight_shape, output_weight_shape) := shapes in
  let o := dim output_weight_shape in
  let output_buffer := owned_buffer_create (volume output_weight_shape) in
  let* conv_weight_tensor_buffer := borrowed_get_as conv_weight_tensor in
  let* output_buffer :=
    for_loop (o 0%nat) (fun i => for_loop (o 1%nat) (fun j =>
    for_loop (o 2%nat) (fun k => for_loop (o 3%nat) (fun l output_buffer =>
      let value_flat_input_index :=
        compute_flat_indices [i; 0; k; l] (compute_strides original_weight_shape) in
      let* value := buffer_read conv_weight_tensor_buffer value_flat_input_index in
      let output_flat_input_index :=
        compute_flat_indices [i; j; k; l] (compute_strides output_weight_shape) in
      buffer_write output_buffer output_flat_input_index value))))
      output_buffer in
  Ok (Tensor_of (OwnedStorage output_buffer) output_weight_shape output_dtype ROW_MAJOR).

(** The dispatch table of [convert_conv_weight_tensor_to_depthwise_layout]. *)
Definition to_depthwise_layout_map
    : list (DataType * (Tensor -> Shape * Shape -> DataType -> Result Tensor)) :=
  [ (INT32, conv_depthwise_weight_bcast_helper T_int32_t);
    (FLOAT32, conv_depthwise_weight_bcast_helper T_float);
    (BFLOAT16, conv_depthwise_weight_bcast_helper T_bfloat16);
    (UINT16, conv_depthwise_weight_bcast_helper T_uint16_t);
    (BFLOAT8_B, conv_depthwise_weight_bcast_helper T_float);
    (UINT32, conv_depthwise_weight_bcast_helper T_uint32_t);
    (BFLOAT4_B, conv_depthwise_weight_bcast_helper T_uint32_t) ].

(** [convert_conv_weight_tensor_to_depthwise_layout]. *)
Definition convert_conv_weight_tensor_to_depthwise_layout (conv_weight_tensor : Tensor)
    (act_block_h_ntiles : Z) (output_dtype : DataType) : Result Tensor :=
  let test := dim (get_shape conv_weight_tensor) in
  let num_input_channels_to_repeat := u32 (act_block_h_ntiles * TILE_HEIGHT) in
  let original_conv_weight_tensor_shape := [test 0%nat; test 1%nat; test 2%nat; test 3%nat] in
  let output_conv_weight_tensor_shape :=
    [ test 0%nat; num_input_channels_to_repeat; test 2%nat; test 3%nat ] in
  let output_dtype := if is_packed output_dtype then FLOAT32 else output_dtype in
  convert_tensor_to_tiled_layout_common assertions conv_weight_tensor (Some output_dtype)
    to_depthwise_layout_map
    (original_conv_weight_tensor_shape, output_conv_weight_tensor_shape).

End FurtherConversions.

(* ===================================================================== *)
(** ** Shards, devices and the flattened 2D shape *)
(* ===================================================================== *)

(** [apply]: the callable is called on every shard, for its effect on a
    state [S] only. *)
Fixpoint for_each {S : Type} (f : Tensor -> S -> Result S) (inputs : list Tensor) (s : S)
    : Result S :=
  match inputs with
  | [] => Ok s
  | t :: rest =>
      let* s1 := f t s in
      for_each f rest s1
  end.

Definition apply {S : Type} (tensor : Tensor) (callable : Tensor -> S -> Result S) (s : S)
    : Result S :=
  let* input_tensors := get_tensors_from_multi_device_storage tensor in
  for_each callable input_tensors s.

(** [tensor_storage.get_buffer_for_device_id(id)->device()]: a device is
    identified by its id, and a buffer knows the device it lives on; an id
    without buffer is the fatal usage error of an inconsistent storage. *)
Definition device_of_buffer_for_device_id (buffers : list (Z * DeviceBuffer)) (id : Z)
    : Result Z :=
  match assoc_find id buffers with
  | Some b => Ok (buffer_device_id b)
  | None => Fail (Thrown "no buffer for the device id")
  end.

(** [get_devices]: the devices of a multi-device tensor, as their ids. *)
Definition get_devices (tensor : Tensor) : Result (list Z) :=
  if bool_decide (storage_type tensor = MULTI_DEVICE) then
    match get_storage tensor with
    | MultiDeviceStorage _ ordered_device_ids buffers _ =>
        collect (device_of_buffer_for_device_id buffers) ordered_device_ids
    | _ => Fail (AssertFailed "std::holds_alternative<MultiDeviceStorage>(tensor.get_storage())")
    end
  else Fail (Thrown "Tensor is not a multi-device tensor").

(** [num_buffers_in_tensor]. *)
Definition num_buffers_in_tensor (tensor : Tensor) : Result Z :=
  match get_storage tensor with
  | MultiDeviceStorage _ _ _ _ => Ok (num_buffers (get_storage tensor))
  | MultiDeviceHostStorage _ _ _ => Ok (num_buffers (get_storage tensor))
  | DeviceStorage _ | OwnedStorage _ | BorrowedStorage _ => Ok 1
  end.

(** [shape[-1]]: the last dimension.  The indexing operator is defined
    outside the sources at hand; on a shape of rank 0 there is no last
    dimension and the access is treated as undefined. *)
Definition last_dim (shape : Shape) : Result Z :=
  match shape with
  | [] => Fail (Undefined "index outside the shape")
  | _ => Ok (List.last shape 0)
  end.

(** [get_2d_shape]: all dimensions but the last are folded into the height. *)
Definition get_2d_shape (shape : Shape) : Result Size :=
  let* width := last_dim shape in
  let* height := c_div (volume shape) width in
  Ok (mkSize height width).

(* ===================================================================== *)
(** ** Vocabulary of the properties *)
(* ===================================================================== *)

(** The volume the scan accumulates: the product, wrapped to [int64_t] after
    every multiplication. *)
Definition scanned_volume (v : Z) (dims : list Z) : Z :=
  fold_left (fun acc d => i64 (acc * d)) dims v.

(** Some dimension is zero. *)
Definition contains_zero (dims : list Z) : bool := existsb (fun d => d =? 0) dims.

(** The assertions that precede the lookup in the dispatch table hold. *)
Definition common_assertions_hold (input_tensor : Tensor) (output_dtype : option DataType)
    : Prop :=
  get_layout input_tensor = ROW_MAJOR /\
  (forall d, output_dtype = Some d -> is_packed d = true ->
             get_dtype input_tensor = FLOAT32).

(** The final tile conversion of [create_tensor_from_owned_buffer] has a
    repacking function to dispatch to: the output data type is one the
    layout conversion maps, or it is a packed type and the buffer holds
    floats, so that the conversion is that of a FLOAT32 tensor. *)
Definition tile_output_ok (buffer_is_float : bool) (output_dtype : DataType) : bool :=
  layout_conversion_maps output_dtype || (buffer_is_float && is_packed output_dtype).

(** The data types of the three block-sharded and tile-layout dispatch tables. *)
Definition dispatched_dtype (d : DataType) : Prop :=
  d = BFLOAT16 \/ d = FLOAT32 \/ d = UINT32.

(** The storage kind of the shards of a tensor of a given storage kind. *)
Definition shard_kind (kind : StorageType) : StorageType :=
  match kind with
  | MULTI_DEVICE => DEVICE
  | MULTI_DEVICE_HOST => OWNED
  | k => k
  end.

(** [buffer[p]] for an index known to be inside the buffer. *)
Definition get (b : Buffer) (p : Z) : Z := nth (Z.to_nat p) b 0.

(** [a'] is [a] with the [n] elements from [d] on replaced by the [n]
    elements of [data] from [s] on. *)
Definition is_blit (data : Buffer) (s : Z) (a : Buffer) (d n : Z) (a' : Buffer) : Prop :=
  length a' = length a /\
  forall p, 0 <= p ->
    get a' p = if (d <=? p) && (p <? d + n) then get data (s + (p - d)) else get a p.

(** Case analysis on the comparisons of a goal. *)
Ltac blit_cases :=
  repeat match goal with
  | |- context [?x <=? ?y] => destruct (Z.leb_spec x y)
  | |- context [?x <? ?y] => destruct (Z.ltb_spec x y)
  end; cbn [andb].

(** The data types of the dispatch table of the grouped layout whose
    elements are stored as such, one buffer element per tensor element (the
    table also lists the two packed types, whose buffers hold packed
    words). *)
Definition grouped_dtype (d : DataType) : Prop :=
  d = INT32 \/ d = FLOAT32 \/ d = BFLOAT16 \/ d = UINT16 \/ d = UINT32.

(** [a'] is [a] except inside the [size] elements from [base] on, where the
    element at offset [q] is [v] whenever [F q = Some v]. *)
Definition is_fill (F : Z -> option Z) (base size : Z) (a a' : Buffer) : Prop :=
  length a' = length a /\
  forall p, 0 <= p ->
    get a' p = if (base <=? p) && (p <? base + size)
               then default (get a p) (F (p - base))
               else get a p.

(** The content of a stripe made of sub-stripes of [S] elements, sub-stripe
    [i] having content [F i]. *)
Definition nested (S : Z) (F : Z -> Z -> option Z) : Z -> option Z :=
  fun q => F (q / S) (q mod S).

(** The content [F] cut to its first [n] elements. *)
Definition upto (n : Z) (F : Z -> option Z) : Z -> option Z :=
  fun q => if q <? n then F q else None.

(** The content of a stripe whose first [N * S] elements are [N] sub-stripes
    of [S] elements, sub-stripe [i] having content [F i]; the rest of the
    stripe is left as it was. *)
Definition level (N S : Z) (F : Z -> Z -> option Z) : Z -> option Z :=
  upto (N * S) (nested S F).

(** [x] rounded up to a multiple of [b], as the conversions pad a dimension:
    left alone when it is a multiple already. *)
Definition round_up (x b : Z) : Z :=
  if x mod b =? 0 then x else ceil_div x b * b.

(** What a computation may end in: a result in [P] or a failure in [E]. *)
Definition outcome {A : Type} (P : A -> Prop) (E : Failure -> Prop) (r : Result A) : Prop :=
  match r with
  | Ok a => P a
  | Fail f => E f
  end.

(* ===================================================================== *)
(** * Properties *)
(* ===================================================================== *)

(** ** Shard division *)

Lemma div_up_is_ceil (a b : Z) :
  0 < a -> 0 < b -> is_ceil_div a b (div_up a b).
Proof.
  intros Ha Hb. unfold is_ceil_div, div_up.
  pose proof (Z.div_mod a b ltac:(lia)) as Hdm.
  pose proof (Z.mod_pos_bound a b Hb) as Hm.
  destruct (a mod b =? 0) eqn:E.
  - apply Z.eqb_eq in E. nia.
  - apply Z.eqb_neq in E. nia.
Qed.

Lemma axis_spec (len shard : Z) :
  0 < len -> 0 < shard ->
  axis_ok len shard (div_up len shard)
    (if len mod shard >? 0 then len mod shard else shard).
Proof.
  intros Hl Hs. unfold axis_ok.
  pose proof (div_up_is_ceil len shard Hl Hs) as Hc.
  pose proof (Z.div_mod len shard ltac:(lia)) as Hdm.
  pose proof (Z.mod_pos_bound len shard Hs) as Hm.
  split; [exact Hc|].
  unfold div_up.
  destruct (len mod shard >? 0) eqn:E; rewrite Z.gtb_ltb in E.
  - apply Z.ltb_lt in E.
    destruct (len mod shard =? 0) eqn:E0; [apply Z.eqb_eq in E0; lia|].
    repeat split; try lia.
  - apply Z.ltb_ge in E.
    assert (len mod shard = 0) as H0 by lia.
    rewrite H0. simpl.
    repeat split; try lia.
Qed.

(** C1.  For every 2D shape and shard shape with positive heights and widths,
    [compute_shard_division_spec] returns, on each axis, the ceiling of
    length / shard length as the shard count (the least count whose shards
    cover the axis, which is also [(len + shard - 1) / shard]) and, as the
    last shard's extent, the remainder when it is non-zero and the full shard
    extent when the division is exact; the last shard is never empty and the
    shards add up to the axis.  Height 100 with shard height 32 gives (4, 4)
    and height 64 with shard height 32 gives (2, 32). *)
Theorem compute_shard_division_spec_correct (shape shard_shape : Size) :
  0 < height shape -> 0 < width shape ->
  0 < height shard_shape -> 0 < width shard_shape ->
  let r := compute_shard_division_spec shape shard_shape in
  axis_ok (height shape) (height shard_shape) (num_shards_height r) (last_shard_height r) /\
  axis_ok (width shape) (width shard_shape) (num_shards_width r) (last_shard_width r) /\
  num_shards_height r = (height shape + height shard_shape - 1) / height shard_shape /\
  num_shards_width r = (width shape + width shard_shape - 1) / width shard_shape /\
  (forall w sw,
     let r100 := compute_shard_division_spec (mkSize 100 w) (mkSize 32 sw) in
     let r64 := compute_shard_division_spec (mkSize 64 w) (mkSize 32 sw) in
     (num_shards_height r100, last_shard_height r100) = (4, 4) /\
     (num_shards_height r64, last_shard_height r64) = (2, 32)).
Proof.
  intros Hh Hw Hsh Hsw r.
  assert (Hup : forall a b, 0 < a -> 0 < b -> div_up a b = (a + b - 1) / b).
  { intros a b Ha Hb.
    pose proof (div_up_is_ceil a b Ha Hb) as [H1 H2].
    apply Z.div_unique with (r := a + b - 1 - div_up a b * b); lia. }
  split; [exact (axis_spec _ _ Hh Hsh)|].
  split; [exact (axis_spec _ _ Hw Hsw)|].
  split; [exact (Hup _ _ Hh Hsh)|].
  split; [exact (Hup _ _ Hw Hsw)|].
  intros w sw. split; reflexivity.
Qed.

Lemma compute_shard_division_spec_witness :
  let shape := mkSize 100 64 in
  let shard_shape := mkSize 32 32 in
  let r := compute_shard_division_spec shape shard_shape in
  axis_ok (height shape) (height shard_shape) (num_shards_height r) (last_shard_height r) /\
  axis_ok (width shape) (width shard_shape) (num_shards_width r) (last_shard_width r).
Proof.
  intros shape shard_shape r.
  pose proof (compute_shard_division_spec_correct shape shard_shape
                ltac:(simpl; lia) ltac:(simpl; lia) ltac:(simpl; lia) ltac:(simpl; lia))
    as (Hh & Hw & _).
  split; [exact Hh | exact Hw].
Defined.

(** ** Borrowed storage and asynchronous workers *)

(** C2.  [copy_borrowed_tensor_in_async_mode] returns a tensor with new Owned
    storage that holds the elements found behind the borrowed buffer, and
    the specification of the input, exactly when the worker is asynchronous,
    the tensor has a single shard (no more than one shard to be populated)
    and its storage is Borrowed; the copy no longer depends on the caller's
    memory.  In every other case (synchronous worker, more than one shard to
    be populated, storage not Borrowed) the input tensor is returned as it
    is.  The caller's memory, hence the input tensor, is left as it was. *)
Theorem copy_borrowed_tensor_in_async_mode_correct
    (worker : Device) (tensor : Tensor) (mem : Memory) :
  let copies :=
    get_worker_mode worker = ASYNCHRONOUS /\
    ~ (1 < num_shards_to_be_populated tensor) /\
    storage_type tensor = BORROWED in
  let result := fst (copy_borrowed_tensor_in_async_mode worker tensor mem) in
  let mem_after := snd (copy_borrowed_tensor_in_async_mode worker tensor mem) in
  mem_after = mem /\
  (copies ->
     exists borrowed,
       get_storage tensor = BorrowedStorage borrowed /\
       get_storage result = OwnedStorage (mem borrowed) /\
       get_tensor_spec result = get_tensor_spec tensor /\
       storage_type result = OWNED /\
       forall later_data,
         host_elements (overwrite mem borrowed later_data) result = Some (mem borrowed) /\
         host_elements (overwrite mem borrowed later_data) tensor = Some later_data) /\
  (~ copies -> result = tensor).
Proof.
  intros copies result mem_after.
  subst copies result mem_after.
  unfold copy_borrowed_tensor_in_async_mode, storage_type.
  destruct (get_worker_mode worker) eqn:Hmode; simpl.
  - split; [reflexivity|]. split.
    + intros (Habs & _). discriminate.
    + reflexivity.
  - destruct (num_shards_to_be_populated tensor >? 1) eqn:Hn;
      rewrite Z.gtb_ltb in Hn.
    + apply Z.ltb_lt in Hn. split; [reflexivity|]. split.
      * intros (_ & Habs & _). contradiction.
      * reflexivity.
    + apply Z.ltb_ge in Hn.
      destruct (get_storage tensor) as [b|b|a|c ids bs shs|c bs shs] eqn:Hst; simpl;
        (split; [reflexivity|]); split;
        try (intros (_ & _ & Habs); discriminate);
        try reflexivity.
      * intros _. exists a. repeat split; try reflexivity.
        unfold host_elements, overwrite. rewrite Hst.
        destruct (decide (a = a)); [reflexivity | contradiction].
      * intros Hnot. exfalso. apply Hnot. repeat split; lia.
Qed.

Lemma copy_borrowed_tensor_in_async_mode_witness :
  let worker := mkDevice 0 ASYNCHRONOUS in
  let tensor := mkTensor (BorrowedStorage 3%nat) (mkTensorSpec [2; 2] FLOAT32 ROW_MAJOR) 1 in
  let mem : Memory := fun _ => [10; 20; 30; 40] in
  let result := fst (copy_borrowed_tensor_in_async_mode worker tensor mem) in
  get_storage result = OwnedStorage [10; 20; 30; 40] /\
  host_elements (overwrite mem 3%nat [0; 0; 0; 0]) result = Some [10; 20; 30; 40].
Proof.
  intros worker tensor mem result.
  pose proof (copy_borrowed_tensor_in_async_mode_correct worker tensor mem) as (_ & Hcopy & _).
  destruct Hcopy as (a & Ha & Hst & _ & _ & Hlater).
  { split; [reflexivity|]. split; [simpl; lia | reflexivity]. }
  injection Ha as <-.
  split; [exact Hst | exact (proj1 (Hlater [0; 0; 0; 0]))].
Defined.

(** ** Reshape: lemmas on the scan of the requested dimensions *)

Example to_string_examples :
  to_string (-1) = "-1"%string /\ to_string 0 = "0"%string /\ to_string 32 = "32"%string.
Proof. vm_compute. auto. Qed.

Example infer_example_1 :
  infer_dims_for_reshape (Tensor_of (OwnedStorage []) [2; 3; 4] FLOAT32 ROW_MAJOR) [4; -1]
  = Ok [4; 6].
Proof. vm_compute. reflexivity. Qed.

Example infer_example_2 :
  infer_dims_for_reshape (Tensor_of (OwnedStorage []) [0; 3] FLOAT32 ROW_MAJOR) [0; -1]
  = Fail (Thrown "cannot reshape tensor of 0 elements into shape (0,-1,) because the unspecified dimension size -1 can be any value and is ambiguous").
Proof. vm_compute. reflexivity. Qed.

Lemma scan_dims_without_wildcard (shape : list Z) :
  forall rest index st,
    ~ In (-1) rest ->
    scan_dims shape rest index st =
      Ok (mkScanState (scanned_volume (new_volume st) rest)
                      (index_of_negative_1 st)
                      (contains_zero rest || has_zero st)).
Proof.
  induction rest as [|d rest IH]; intros index st Hno; simpl.
  - destruct st; reflexivity.
  - destruct (d =? -1) eqn:Hd.
    + apply Z.eqb_eq in Hd. exfalso. apply Hno. left. auto.
    + rewrite IH by (intros Hin; apply Hno; right; exact Hin).
      simpl. f_equal. f_equal.
      destruct (d =? 0); simpl; [rewrite orb_true_r|]; reflexivity.
Qed.

Lemma scan_dims_with_one_wildcard (shape : list Z) :
  forall rest index st,
    count_occ Z.eq_dec rest (-1) = 1%nat ->
    index_of_negative_1 st = -1 ->
    0 <= index ->
    exists st',
      scan_dims shape rest index st = Ok st' /\
      index_of_negative_1 st' <> -1 /\
      has_zero st' = contains_zero rest || has_zero st.
Proof.
  induction rest as [|d rest IH]; intros index st Hcount Hidx Hindex; simpl in *.
  - discriminate.
  - destruct (Z.eq_dec d (-1)) as [->|Hne].
    + simpl. rewrite Hidx. simpl.
      assert (Hno : ~ In (-1) rest).
      { apply (count_occ_not_In Z.eq_dec). lia. }
      rewrite (scan_dims_without_wildcard shape rest _ _ Hno). simpl.
      eexists. split; [reflexivity|]. simpl. split; [lia | reflexivity].
    + destruct (d =? -1) eqn:Hd; [apply Z.eqb_eq in Hd; contradiction|].
      destruct (IH (index + 1)
                  (mkScanState (i64 (new_volume st * d)) (index_of_negative_1 st)
                               (if d =? 0 then true else has_zero st))
                  Hcount Hidx ltac:(lia)) as (st' & Hscan & Hi & Hz).
      exists st'. split; [exact Hscan|]. split; [exact Hi|].
      rewrite Hz. simpl.
      destruct (d =? 0); simpl; [rewrite orb_true_r|]; reflexivity.
Qed.

Lemma contains_zero_In (dims : list Z) : In 0 dims -> contains_zero dims = true.
Proof.
  intros Hin. unfold contains_zero. apply existsb_exists.
  exists 0. split; [exact Hin | reflexivity].
Qed.

(** C4.  For every tensor and every target shape with exactly one -1
    wildcard, if a zero-sized dimension coexists with the wildcard then
    [infer_dims_for_reshape] fails: it throws the error that names the
    ambiguity of the unspecified dimension, and resolves nothing. *)
Theorem infer_dims_for_reshape_zero_with_wildcard (tensor : Tensor) (shape : list Z) :
  count_occ Z.eq_dec shape (-1) = 1%nat ->
  In 0 shape ->
  infer_dims_for_reshape tensor shape = Fail (Thrown (ambiguous_wildcard_msg shape)).
Proof.
  intros Hone Hzero. unfold infer_dims_for_reshape.
  destruct (scan_dims_with_one_wildcard shape shape 0 (mkScanState 1 (-1) false)
              Hone eq_refl ltac:(lia)) as (st & Hscan & Hidx & Hz).
  rewrite Hscan. simpl.
  rewrite Hz, (contains_zero_In shape Hzero). simpl.
  destruct (index_of_negative_1 st =? -1) eqn:E.
  - apply Z.eqb_eq in E. contradiction.
  - reflexivity.
Qed.

Lemma infer_dims_for_reshape_zero_with_wildcard_witness :
  infer_dims_for_reshape
    (Tensor_of (OwnedStorage []) [0; 3] FLOAT32 ROW_MAJOR) [0; -1]
  = Fail (Thrown
      "cannot reshape tensor of 0 elements into shape (0,-1,) because the unspecified dimension size -1 can be any value and is ambiguous").
Proof.
  exact (infer_dims_for_reshape_zero_with_wildcard
           (Tensor_of (OwnedStorage []) [0; 3] FLOAT32 ROW_MAJOR) [0; -1]
           eq_refl (or_introl eq_refl)).
Defined.

Lemma i64_small (z : Z) : - 2 ^ 63 <= z < 2 ^ 63 -> i64 z = z.
Proof. intros H. unfold i64. rewrite Z.mod_small; lia. Qed.

Lemma u32_small (z : Z) : 0 <= z < 2 ^ 32 -> u32 z = z.
Proof. intros H. unfold u32. apply Z.mod_small. exact H. Qed.

Lemma i32_small (z : Z) : - 2 ^ 31 <= z < 2 ^ 31 -> i32 z = z.
Proof. intros H. unfold i32. rewrite Z.mod_small; lia. Qed.

Lemma u64_small (z : Z) : 0 <= z < 2 ^ 64 -> u64 z = z.
Proof. intros H. unfold u64. apply Z.mod_small. exact H. Qed.

Lemma i64_eqm (a : Z) : i64 a mod 2 ^ 64 = a mod 2 ^ 64.
Proof.
  unfold i64. rewrite Zminus_mod_idemp_l. f_equal. lia.
Qed.

Lemma i64_ext (a b : Z) : a mod 2 ^ 64 = b mod 2 ^ 64 -> i64 a = i64 b.
Proof.
  intros H. unfold i64.
  rewrite <- (Zplus_mod_idemp_l a), <- (Zplus_mod_idemp_l b), H. reflexivity.
Qed.

Lemma scanned_volume_product (dims : list Z) :
  forall v, scanned_volume (i64 v) dims = i64 (v * product dims).
Proof.
  induction dims as [|d dims IH]; intros v; simpl.
  - f_equal. lia.
  - rewrite IH. apply i64_ext.
    replace (v * (d * product dims)) with (v * d * product dims) by ring.
    rewrite (Z.mul_mod (i64 v * d)), (Z.mul_mod (i64 v)), i64_eqm by lia.
    rewrite <- (Z.mul_mod v d), <- Z.mul_mod by lia.
    reflexivity.
Qed.

Lemma product_nonneg (dims : list Z) :
  Forall (fun d => 0 <= d) dims -> 0 <= product dims.
Proof.
  induction 1 as [|d dims Hd _ IH]; simpl; [lia | nia].
Qed.

Lemma map_u32_id (dims : list Z) :
  Forall (fun d => 0 <= d < 2 ^ 31) dims -> map u32 dims = dims.
Proof.
  induction 1 as [|d dims Hd _ IH]; simpl; [reflexivity|].
  rewrite IH, u32_small by lia. reflexivity.
Qed.

(** The claim C5 as stated fails: four dimensions of 65536 multiply to 2^64,
    which the 64-bit accumulator holds as 0, the volume of an empty tensor;
    the reshape is accepted although the volumes differ. *)
Lemma infer_dims_for_reshape_overflow_accepted :
  let tensor := Tensor_of (OwnedStorage []) [0] FLOAT32 ROW_MAJOR in
  let shape := [65536; 65536; 65536; 65536] in
  infer_dims_for_reshape tensor shape = Ok shape /\
  ~ In (-1) shape /\
  get_logical_volume tensor = 0 /\
  product shape = 2 ^ 64.
Proof.
  vm_compute. repeat split; try reflexivity.
  intros [H|[H|[H|[H|[]]]]]; discriminate.
Qed.

(** C5 (amended).  For every tensor and every target shape of non-negative
    dimensions (hence without wildcard) whose volume fits the signed 64-bit
    accumulator, [infer_dims_for_reshape] succeeds and returns the target
    shape if the volume of the target shape equals the logical volume of the
    tensor, and fails with "Invalid arguments to reshape" if the volumes
    differ. *)
Theorem infer_dims_for_reshape_without_wildcard (tensor : Tensor) (shape : list Z) :
  Forall (fun d => 0 <= d < 2 ^ 31) shape ->
  product shape < 2 ^ 63 ->
  (product shape = get_logical_volume tensor ->
     infer_dims_for_reshape tensor shape = Ok shape) /\
  (product shape <> get_logical_volume tensor ->
     infer_dims_for_reshape tensor shape = Fail (Fatal "Invalid arguments to reshape")).
Proof.
  intros Hdims Hfit.
  assert (Hno : ~ In (-1) shape).
  { intros Hin. rewrite List.Forall_forall in Hdims. apply Hdims in Hin. lia. }
  assert (Hnn : 0 <= product shape).
  { apply product_nonneg. eapply List.Forall_impl; [|exact Hdims]. simpl. intros; lia. }
  assert (Hvol : 0 <= get_logical_volume tensor < 2 ^ 64).
  { unfold get_logical_volume, volume, u64. apply Z.mod_pos_bound. lia. }
  assert (Hscan : scanned_volume 1 shape = product shape).
  { change 1 with (i64 1) at 1. rewrite scanned_volume_product.
    rewrite Z.mul_1_l. apply i64_small. lia. }
  unfold infer_dims_for_reshape.
  rewrite (scan_dims_without_wildcard shape shape 0 _ Hno). simpl.
  rewrite Hscan, andb_false_r, (map_u32_id shape Hdims).
  split; intros Hv.
  - rewrite <- Hv, (i64_small (product shape)) by lia.
    rewrite Z.eqb_refl. reflexivity.
  - destruct (product shape =? i64 (get_logical_volume tensor)) eqn:E; [|reflexivity].
    apply Z.eqb_eq in E. exfalso.
    unfold i64 in E.
    destruct (Z_lt_ge_dec (get_logical_volume tensor) (2 ^ 63)) as [Hlt|Hge].
    + rewrite Z.mod_small in E by lia. lia.
    + replace (get_logical_volume tensor + 2 ^ 63)
        with (get_logical_volume tensor - 2 ^ 63 + 1 * 2 ^ 64) in E by lia.
      rewrite Z_mod_plus_full, Z.mod_small in E by lia. lia.
Qed.

Lemma infer_dims_for_reshape_without_wildcard_witness :
  let tensor := Tensor_of (OwnedStorage []) [2; 3; 4] FLOAT32 ROW_MAJOR in
  infer_dims_for_reshape tensor [6; 4] = Ok [6; 4] /\
  infer_dims_for_reshape tensor [5; 5] = Fail (Fatal "Invalid arguments to reshape").
Proof.
  intros tensor. split.
  - apply (infer_dims_for_reshape_without_wildcard tensor [6; 4]).
    + repeat constructor; lia.
    + simpl. lia.
    + reflexivity.
  - apply (infer_dims_for_reshape_without_wildcard tensor [5; 5]).
    + repeat constructor; lia.
    + simpl. lia.
    + vm_compute. discriminate.
Defined.

(** ** Layout conversions: dispatch on data type and storage *)




(** C10.  For every tensor that is not a multi-device tensor and whose
    storage is neither Owned nor Borrowed (in particular a tensor in Device
    storage), [convert_tensor] throws "Unsupported storage type" and yields
    no tensor, without calling the per-buffer computation; the conversions
    of convolution weights that end in [convert_tensor] fail in the same
    way. *)
Theorem convert_tensor_unsupported_storage
    (mem : Memory) (input_tensor : Tensor) (compute : Buffer -> Result Tensor) :
  is_multi_device_tensor input_tensor = false ->
  storage_type input_tensor <> OWNED ->
  storage_type input_tensor <> BORROWED ->
  convert_tensor mem input_tensor compute = Fail (Thrown "Unsupported storage type") /\
  storage_type input_tensor = DEVICE /\
  (forall Q assertions T in1_block num_channel_shards output_dtype,
     to_weight_tile_layout Q mem T input_tensor in1_block output_dtype
       = Fail (Thrown "Unsupported storage type") /\
     to_weight_tile_layout_block_sharded Q assertions mem T input_tensor
         num_channel_shards output_dtype
       = Fail (Thrown "Unsupported storage type")) /\
  (forall T args output_dtype,
     conv_group_weight_zero_pad_helper mem T input_tensor args output_dtype
       = Fail (Thrown "Unsupported storage type")).
Proof.
  intros Hsingle Howned Hborrowed.
  assert (Hany : forall c, convert_tensor mem input_tensor c
                           = Fail (Thrown "Unsupported storage type")).
  { intros c. unfold convert_tensor. rewrite Hsingle.
    unfold convert_tensor_on_storage.
    unfold storage_type in Howned, Hborrowed.
    unfold is_multi_device_tensor, storage_type in Hsingle.
    destruct (get_storage input_tensor); simpl in *;
      try reflexivity; try contradiction; discriminate. }
  split; [apply Hany|]. split.
  - unfold is_multi_device_tensor in Hsingle.
    destruct (storage_type input_tensor); simpl in *;
      try reflexivity; try contradiction; discriminate.
  - split.
    + intros Q assertions T [h w] num_channel_shards output_dtype. split.
      * unfold to_weight_tile_layout. apply Hany.
      * unfold to_weight_tile_layout_block_sharded. apply Hany.
    + intros T [[o1 o2] g] output_dtype.
      unfold conv_group_weight_zero_pad_helper. apply Hany.
Qed.

Lemma convert_tensor_unsupported_storage_witness :
  let mem : Memory := fun _ => [] in
  let t := Tensor_of (DeviceStorage (mkDeviceBuffer 0 4096)) [1; 1; 32; 32] BFLOAT16 TILE in
  convert_tensor mem t (fun b => Ok (Tensor_of (OwnedStorage b) [1] BFLOAT16 ROW_MAJOR))
  = Fail (Thrown "Unsupported storage type").
Proof.
  intros mem t.
  refine (proj1 (convert_tensor_unsupported_storage mem t _ eq_refl _ _));
    discriminate.
Defined.

Lemma common_assertions_pass (assertions : bool) (input_tensor : Tensor)
    (output_dtype : option DataType) {A : Type} (k : Result A) :
  assertions = false \/ common_assertions_hold input_tensor output_dtype ->
  (let* _ := TT_ASSERT assertions (bool_decide (get_layout input_tensor = ROW_MAJOR))
               "input_tensor.get_layout() == Layout::ROW_MAJOR" in
   let* _ :=
     match output_dtype with
     | Some d =>
         if is_packed d
         then TT_ASSERT assertions (bool_decide (get_dtype input_tensor = FLOAT32))
                "input_tensor.get_dtype() == DataType::FLOAT32"
         else TT_ASSERT assertions
                (bool_decide (get_dtype input_tensor = get_dtype input_tensor))
                "input_tensor.get_dtype() == input_tensor.get_dtype()"
     | None => Ok tt
     end in
   k) = k.
Proof.
  intros [-> | (Hlayout & Hpacked)].
  - simpl. destruct output_dtype as [d|]; [destruct (is_packed d)|]; reflexivity.
  - unfold TT_ASSERT.
    rewrite (bool_decide_eq_true_2 _ Hlayout), andb_false_r. simpl.
    destruct output_dtype as [d|]; [|reflexivity].
    destruct (is_packed d) eqn:Hp.
    + rewrite (bool_decide_eq_true_2 _ (Hpacked d eq_refl Hp)), andb_false_r.
      reflexivity.
    + rewrite (bool_decide_eq_true_2 _ eq_refl), andb_false_r. reflexivity.
Qed.

Lemma common_unmapped_dtype {Args : Type} (assertions : bool) (input_tensor : Tensor)
    (output_dtype : option DataType)
    (function_map : list (DataType * (Tensor -> Args -> DataType -> Result Tensor)))
    (args : Args) :
  map_find (get_dtype input_tensor) function_map = None ->
  let r := convert_tensor_to_tiled_layout_common assertions input_tensor output_dtype
             function_map args in
  is_ok r = false /\
  (assertions = false \/ common_assertions_hold input_tensor output_dtype ->
   r = Fail (Thrown "Unsupported data type")).
Proof.
  intros Hfind r. subst r. split.
  - unfold convert_tensor_to_tiled_layout_common. rewrite Hfind.
    destruct (TT_ASSERT assertions _ _); [|reflexivity]. simpl.
    destruct output_dtype as [d|]; simpl.
    + destruct (is_packed d); destruct (TT_ASSERT assertions _ _); reflexivity.
    + reflexivity.
  - intros Hpass. unfold convert_tensor_to_tiled_layout_common.
    rewrite (common_assertions_pass assertions input_tensor output_dtype _ Hpass).
    rewrite Hfind. reflexivity.
Qed.

(** The claim C7 as stated fails when assertions are compiled in: a tensor in
    tile layout with an unmapped data type is stopped by the assertion on the
    layout, before the dispatch table is consulted. *)
Lemma convert_conv_weight_tensor_to_tiled_layout_layout_assert_first :
  let t := Tensor_of (OwnedStorage []) [1; 1; 1; 1] UINT8 TILE in
  (forall Q mem,
     map_find (get_dtype t) (to_w_tile_layout_map Q mem) = None /\
     convert_conv_weight_tensor_to_tiled_layout Q true mem t 1 1 None
     = Fail (AssertFailed "input_tensor.get_layout() == Layout::ROW_MAJOR")) /\
  AssertFailed "input_tensor.get_layout() == Layout::ROW_MAJOR"
    <> Thrown "Unsupported data type".
Proof.
  split; [intros Q mem; split; reflexivity | discriminate].
Qed.

(** C7 (amended).  For every input tensor whose data type is absent from the
    dispatch table of a conversion (for
    [convert_conv_weight_tensor_to_tiled_layout]: any data type other than
    BFLOAT16, FLOAT32 and UINT32), the conversion produces no tensor.  It
    fails with "Unsupported data type" whenever the assertions that precede
    the lookup hold (row-major layout; FLOAT32 input when a packed output
    type is requested) or are not compiled in. *)
Theorem convert_tensor_to_tiled_layout_unmapped_dtype
    (Q : Quantizer) (assertions : bool) (mem : Memory)
    (input_tensor : Tensor) (in1_block_h in1_block_w : Z)
    (output_dtype : option DataType) :
  get_dtype input_tensor <> BFLOAT16 ->
  get_dtype input_tensor <> FLOAT32 ->
  get_dtype input_tensor <> UINT32 ->
  let r := convert_conv_weight_tensor_to_tiled_layout Q assertions mem input_tensor
             in1_block_h in1_block_w output_dtype in
  map_find (get_dtype input_tensor) (to_w_tile_layout_map Q mem) = None /\
  is_ok r = false /\
  (assertions = false \/ common_assertions_hold input_tensor output_dtype ->
   r = Fail (Thrown "Unsupported data type")) /\
  (forall (Args : Type) function_map (args : Args),
     map_find (get_dtype input_tensor) function_map = None ->
     let r' := convert_tensor_to_tiled_layout_common assertions input_tensor output_dtype
                 function_map args in
     is_ok r' = false /\
     (assertions = false \/ common_assertions_hold input_tensor output_dtype ->
      r' = Fail (Thrown "Unsupported data type"))).
Proof.
  intros H1 H2 H3 r.
  assert (Hfind : map_find (get_dtype input_tensor) (to_w_tile_layout_map Q mem) = None).
  { unfold to_w_tile_layout_map. simpl.
    repeat (rewrite bool_decide_eq_false_2 by congruence). reflexivity. }
  split; [exact Hfind|].
  pose proof (common_unmapped_dtype assertions input_tensor output_dtype
                (to_w_tile_layout_map Q mem) (in1_block_h, in1_block_w) Hfind) as [Hok Hthrow].
  split; [exact Hok|]. split; [exact Hthrow|].
  intros Args function_map args Hf.
  exact (common_unmapped_dtype assertions input_tensor output_dtype function_map args Hf).
Qed.

Lemma convert_tensor_to_tiled_layout_unmapped_dtype_witness :
  let Q := mkQuantizer (fun b => b) (fun b => b) in
  let mem : Memory := fun _ => [] in
  let t := Tensor_of (OwnedStorage [1; 2]) [2; 1; 1; 1] UINT16 ROW_MAJOR in
  convert_conv_weight_tensor_to_tiled_layout Q true mem t 1 1 None
  = Fail (Thrown "Unsupported data type").
Proof.
  intros Q mem t.
  refine (proj1 (proj2 (proj2
    (convert_tensor_to_tiled_layout_unmapped_dtype Q true mem t 1 1 None _ _ _))) _);
    try discriminate.
  right. split; [reflexivity | intros d Hd; discriminate].
Defined.

(** ** Loops over buffers *)

Lemma for_range_invariant {A : Type} (P : A -> Prop) (body : Z -> A -> Result A) :
  forall count start acc,
    P acc ->
    (forall i a, start <= i < start + Z.of_nat count -> P a ->
                 exists a', body i a = Ok a' /\ P a') ->
    exists acc', for_range count start body acc = Ok acc' /\ P acc'.
Proof.
  induction count as [|count IH]; intros start acc Hacc Hbody; simpl.
  - exists acc. split; [reflexivity | exact Hacc].
  - destruct (Hbody start acc ltac:(lia) Hacc) as (a1 & Hb & Ha1).
    rewrite Hb. simpl.
    apply IH; [exact Ha1|].
    intros i a Hi Ha. apply Hbody; [lia | exact Ha].
Qed.

Lemma for_loop_invariant {A : Type} (P : A -> Prop) (body : Z -> A -> Result A)
    (bound : Z) (acc : A) :
  P acc ->
  (forall i a, 0 <= i < bound -> P a -> exists a', body i a = Ok a' /\ P a') ->
  exists acc', for_loop bound body acc = Ok acc' /\ P acc'.
Proof.
  intros Hacc Hbody. unfold for_loop.
  apply for_range_invariant; [exact Hacc|].
  intros i a Hi Ha. apply Hbody; [lia | exact Ha].
Qed.

Lemma in_bounds_true (b : Buffer) (i : Z) :
  0 <= i < Z.of_nat (length b) -> in_bounds b i = true.
Proof.
  intros H. unfold in_bounds.
  apply andb_true_intro. split; [apply Z.leb_le | apply Z.ltb_lt]; lia.
Qed.

Lemma copy_element_ok (src dst : Buffer) (src_index dst_index : Z) :
  0 <= src_index < Z.of_nat (length src) ->
  0 <= dst_index < Z.of_nat (length dst) ->
  exists dst',
    copy_element src src_index dst_index dst = Ok dst' /\
    length dst' = length dst.
Proof.
  intros Hs Hd. unfold copy_element, buffer_read, buffer_write.
  rewrite (in_bounds_true src src_index Hs). simpl.
  rewrite (in_bounds_true dst dst_index Hd).
  eexists. split; [reflexivity|]. apply length_insert.
Qed.

Lemma owned_buffer_create_length (count : Z) :
  0 <= count -> Z.of_nat (length (owned_buffer_create count)) = count.
Proof.
  intros H. unfold owned_buffer_create. rewrite repeat_length. lia.
Qed.

(** [create_tensor_from_owned_buffer] yields a tile tensor of the requested
    shape and data type when the tile conversion has a repacking function to
    dispatch to, and fails in that conversion otherwise. *)
Lemma create_tensor_from_owned_buffer_spec (Q : Quantizer) (T : ElemType) (buf : Buffer)
    (output_dtype : DataType) (output_shape : Shape) :
  tile_output_ok (is_float T) output_dtype = true ->
  exists t,
    create_tensor_from_owned_buffer Q T buf output_dtype output_shape = Ok t /\
    get_shape t = output_shape /\ get_dtype t = output_dtype /\ get_layout t = TILE /\
    storage_type t = OWNED.
Proof.
  unfold create_tensor_from_owned_buffer, tile_output_ok.
  destruct (is_float T); destruct output_dtype; cbn; intros H; try discriminate H;
    eexists; (split; [reflexivity|]); repeat split; reflexivity.
Qed.

Lemma create_tensor_from_owned_buffer_unsupported (Q : Quantizer) (T : ElemType)
    (buf : Buffer) (output_dtype : DataType) (output_shape : Shape) :
  tile_output_ok (is_float T) output_dtype = false ->
  create_tensor_from_owned_buffer Q T buf output_dtype output_shape
  = Fail (Thrown "Unsupported data type").
Proof.
  unfold create_tensor_from_owned_buffer, tile_output_ok.
  destruct (is_float T); destruct output_dtype; cbn; intros H; try discriminate H;
    reflexivity.
Qed.

(** With no data type requested, the output takes the data type of the
    input, which the layout conversion maps whenever the dispatch table
    does. *)
Lemma tile_output_ok_dispatched (tensor : Tensor) (output_dtype : option DataType)
    (T : ElemType) :
  dispatched_dtype (get_dtype tensor) ->
  is_float T = bool_decide (get_dtype tensor = FLOAT32) ->
  output_dtype = None \/
  tile_output_ok (bool_decide (get_dtype tensor = FLOAT32))
    (default (get_dtype tensor) output_dtype) = true ->
  tile_output_ok (is_float T) (default (get_dtype tensor) output_dtype) = true.
Proof.
  intros Hdtype -> [-> | Hok]; [|exact Hok].
  cbn [default]. unfold tile_output_ok.
  destruct Hdtype as [-> | [-> | ->]]; reflexivity.
Qed.

Lemma create_tensor_from_owned_buffer_ok (Q : Quantizer) (T : ElemType) (buf : Buffer)
    (output_dtype : DataType) (output_shape : Shape) :
  tile_output_ok (is_float T) output_dtype = true ->
  is_ok (create_tensor_from_owned_buffer Q T buf output_dtype output_shape) = true.
Proof.
  intros Hok.
  destruct (create_tensor_from_owned_buffer_spec Q T buf output_dtype output_shape Hok)
    as (t & -> & _).
  reflexivity.
Qed.

Lemma ceil_div_tile (x : Z) :
  0 <= x -> x <= ceil_div x 32 * 32 <= x + 31.
Proof.
  intros Hx. unfold ceil_div.
  pose proof (Z.div_mod (x + 32 - 1) 32 ltac:(lia)) as Hdm.
  pose proof (Z.mod_pos_bound (x + 32 - 1) 32 ltac:(lia)) as Hm.
  lia.
Qed.

Lemma host_elements_convert (mem : Memory) (t : Tensor) (data : Buffer)
    (compute : Buffer -> Result Tensor) :
  host_elements mem t = Some data ->
  convert_tensor mem t compute = compute data.
Proof.
  unfold host_elements, convert_tensor, convert_tensor_on_storage,
    is_multi_device_tensor, storage_type.
  destruct (get_storage t); simpl; intros H; try discriminate;
    injection H as <-; reflexivity.
Qed.

Lemma to_bias_tile_layout_block_sharded_runs (Q : Quantizer) (assertions : bool)
    (mem : Memory) (T : ElemType) (tensor : Tensor) (n : Z) (od : DataType)
    (C : Z) (data : Buffer) :
  get_shape tensor = [1; 1; 1; C] ->
  host_elements mem tensor = Some data ->
  Z.of_nat (length data) = C ->
  0 < n ->
  C + 32 * n < 2 ^ 32 ->
  exists out cols,
    to_bias_tile_layout_block_sharded Q assertions mem T tensor n od
    = create_tensor_from_owned_buffer Q T out od [1; 1; 32; cols].
Proof.
  intros Hshape Hdata Hlen Hn Hfit.
  assert (HC : 0 <= C) by lia.
  unfold to_bias_tile_layout_block_sharded, get_legacy_shape.
  rewrite Hshape. cbn [dim nth].
  rewrite !Z.eqb_refl. cbn [andb].
  unfold TT_ASSERT at 1. rewrite andb_false_r. cbn [bind].
  rewrite (host_elements_convert mem tensor data _ Hdata).
  unfold c_div. destruct (n =? 0) eqn:En; [apply Z.eqb_eq in En; lia|].
  cbn [bind].
  set (width := C / n).
  assert (Hw : 0 <= width /\ width * n <= C).
  { subst width. split; [apply Z.div_pos; lia|].
    rewrite Z.mul_comm. apply Z.mul_div_le. lia. }
  assert (Hwle : width <= C) by nia.
  change TILE_WIDTH with 32.
  pose proof (ceil_div_tile width (proj1 Hw)) as Hpad.
  rewrite (u32_small (ceil_div width 32 * 32)) by lia.
  set (padded := ceil_div width 32 * 32) in *.
  assert (Hpn : 0 <= padded * n <= C + 31 * n) by nia.
  rewrite (u32_small (padded * n)) by lia.
  set (cols := if width <? padded then padded * n else C).
  assert (Hcols : 0 <= cols < 2 ^ 32 /\ padded * n <= cols \/ width = padded /\ cols = C).
  { subst cols. destruct (width <? padded) eqn:E.
    - left. lia.
    - apply Z.ltb_ge in E. right. lia. }
  assert (Hcols' : 0 <= cols < 2 ^ 32 /\ padded * n <= cols).
  { destruct Hcols as [H|[H1 H2]]; [exact H|]. rewrite H2, <- H1. lia. }
  set (out0 := owned_buffer_create (volume [1; 1; 32; cols])).
  assert (Hout0 : Z.of_nat (length out0) = 32 * cols).
  { subst out0. unfold volume. cbn [product fold_right].
    rewrite u64_small by lia. rewrite owned_buffer_create_length by lia. lia. }
  destruct (for_loop_invariant (fun a : Buffer => length a = length out0)
              (fun oc : Z =>
                 for_loop width
                   (fun (k_s : Z) (output_buffer : Buffer) =>
                      copy_element data (u32 (oc * width + k_s))
                        (u32 (oc * padded + k_s)) output_buffer))
              n out0 eq_refl) as (out & Hloop & _).
  { intros oc a Hoc Ha.
    apply for_loop_invariant; [exact Ha|].
    intros k_s a' Hk Ha'.
    assert (Hidx : 0 <= oc * width + k_s < C).
    { assert (0 <= oc * width) by (apply Z.mul_nonneg_nonneg; lia).
      assert (oc * width <= (n - 1) * width)
        by (apply Z.mul_le_mono_nonneg_r; lia).
      lia. }
    assert (Hmidx : 0 <= oc * padded + k_s < cols).
    { assert (0 <= oc * padded) by (apply Z.mul_nonneg_nonneg; lia).
      assert (oc * padded <= (n - 1) * padded)
        by (apply Z.mul_le_mono_nonneg_r; lia).
      lia. }
    rewrite !u32_small by lia.
    destruct (copy_element_ok data a' (oc * width + k_s) (oc * padded + k_s))
      as (d' & Hd' & Hlen'); [lia | lia |].
    exists d'. split; [exact Hd' | congruence]. }
  rewrite Hloop. cbn [bind].
  exists out, cols. reflexivity.
Qed.

Lemma to_weight_tile_layout_block_sharded_asserts (Q : Quantizer) (mem : Memory)
    (T : ElemType) (tensor : Tensor) (n : Z) (od : DataType) (data : Buffer) :
  host_elements mem tensor = Some data ->
  n <> 0 ->
  (dim (get_shape tensor) 0 mod n <> 0 ->
   to_weight_tile_layout_block_sharded Q true mem T tensor n od
   = Fail (AssertFailed "weight_matrix_cols % num_channel_shards == 0")) /\
  (dim (get_shape tensor) 0 mod n = 0 ->
   dim (get_shape tensor) 1 mod n <> 0 ->
   to_weight_tile_layout_block_sharded Q true mem T tensor n od
   = Fail (AssertFailed "w_shape[1] % num_channel_shards == 0")).
Proof.
  intros Hdata Hn.
  unfold to_weight_tile_layout_block_sharded, get_legacy_shape.
  rewrite (host_elements_convert mem tensor data _ Hdata).
  unfold c_mod, c_div.
  destruct (n =? 0) eqn:En; [apply Z.eqb_eq in En; contradiction|].
  cbn [bind]. unfold TT_ASSERT. cbn [andb].
  split.
  - intros Hcols. apply Z.eqb_neq in Hcols. rewrite Hcols. reflexivity.
  - intros Hcols Hin. apply Z.eqb_eq in Hcols. apply Z.eqb_neq in Hin.
    rewrite Hcols. cbn [negb bind]. rewrite Hin. reflexivity.
Qed.

(** The claim C6 as stated fails on the bias path: three channels over two
    shards are not evenly divisible, and a tensor is produced all the same,
    also with assertions compiled in. *)
Lemma convert_conv_bias_block_sharded_not_divisible_accepted :
  let bias := Tensor_of (OwnedStorage [7; 8; 9]) [1; 1; 1; 3] BFLOAT16 ROW_MAJOR in
  3 mod 2 <> 0 /\
  (forall Q mem,
     exists result,
       convert_conv_bias_tensor_to_tiled_layout_block_sharded Q true mem bias 2 None
         = Ok result /\
       get_shape result = [1; 1; 32; 64] /\
       get_layout result = TILE).
Proof.
  split; [discriminate|].
  intros Q mem. eexists. split; [vm_compute; reflexivity|].
  split; reflexivity.
Qed.

(** C6 (amended).  With at least one channel shard, on a host tensor (owned
    or borrowed storage) whose data type is in the dispatch table (BFLOAT16,
    FLOAT32, UINT32) and that passes the checks made before the dispatch
    (row-major layout; FLOAT32 input when a packed output type is
    requested): the block-sharded weight conversion, when assertions are
    compiled in, produces no tensor and fails with the assertion that names
    the violated constraint, on the output channels if their count is not
    divisible by [num_channel_shards], on the input channels if only their
    count is not.  The block-sharded bias conversion makes no divisibility
    check (its assertion is commented out): on a bias of shape [1, 1, 1, C]
    that holds its C elements, with [C + 32 * num_channel_shards < 2^32], it
    runs to the final tile conversion whether or not C is divisible, with or
    without assertions; it produces a tensor when that conversion has a
    repacking function for the output data type (FLOAT32, BFLOAT16, UINT32,
    or a packed type on a FLOAT32 bias), and otherwise fails there, with
    "Unsupported data type". *)
Theorem block_sharded_divisibility_checks
    (Q : Quantizer) (mem : Memory) (tensor : Tensor) (num_channel_shards : Z)
    (output_dtype : option DataType) (data : Buffer) :
  0 < num_channel_shards ->
  common_assertions_hold tensor output_dtype ->
  dispatched_dtype (get_dtype tensor) ->
  host_elements mem tensor = Some data ->
  (dim (get_shape tensor) 0 mod num_channel_shards <> 0 ->
   convert_conv_weight_tensor_to_tiled_layout_block_sharded Q true mem tensor
     num_channel_shards output_dtype
   = Fail (AssertFailed "weight_matrix_cols % num_channel_shards == 0")) /\
  (dim (get_shape tensor) 0 mod num_channel_shards = 0 ->
   dim (get_shape tensor) 1 mod num_channel_shards <> 0 ->
   convert_conv_weight_tensor_to_tiled_layout_block_sharded Q true mem tensor
     num_channel_shards output_dtype
   = Fail (AssertFailed "w_shape[1] % num_channel_shards == 0")) /\
  (forall assertions C,
     get_shape tensor = [1; 1; 1; C] ->
     Z.of_nat (length data) = C ->
     C + 32 * num_channel_shards < 2 ^ 32 ->
     let result :=
       convert_conv_bias_tensor_to_tiled_layout_block_sharded Q assertions mem tensor
         num_channel_shards output_dtype in
     let convertible :=
       tile_output_ok (bool_decide (get_dtype tensor = FLOAT32))
         (default (get_dtype tensor) output_dtype) in
     (convertible = true -> is_ok result = true) /\
     (convertible = false -> result = Fail (Thrown "Unsupported data type")) /\
     (output_dtype = None -> convertible = true)).
Proof.
  intros Hn Hasserts Hdtype Hdata.
  unfold convert_conv_weight_tensor_to_tiled_layout_block_sharded,
    convert_conv_bias_tensor_to_tiled_layout_block_sharded,
    convert_tensor_to_tiled_layout_common.
  rewrite (common_assertions_pass true tensor output_dtype _ (or_intror Hasserts)).
  assert (Hw : exists T,
             map_find (get_dtype tensor) (to_w_tile_layout_block_sharded_map Q true mem)
             = Some (to_weight_tile_layout_block_sharded Q true mem T)).
  { destruct Hdtype as [-> | [-> | ->]]; eexists; reflexivity. }
  destruct Hw as (T & ->).
  pose proof (to_weight_tile_layout_block_sharded_asserts Q mem T tensor
                num_channel_shards (default (get_dtype tensor) output_dtype) data
                Hdata ltac:(lia)) as [Hcols Hrows].
  split; [exact Hcols|]. split; [exact Hrows|].
  intros assertions C Hshape Hlen Hfit. cbv zeta.
  rewrite (common_assertions_pass assertions tensor output_dtype _ (or_intror Hasserts)).
  assert (Hb : exists T',
             map_find (get_dtype tensor) (to_b_tile_layout_map Q assertions mem)
             = Some (to_bias_tile_layout_block_sharded Q assertions mem T') /\
             is_float T' = bool_decide (get_dtype tensor = FLOAT32)).
  { destruct Hdtype as [-> | [-> | ->]]; eexists; split; reflexivity. }
  destruct Hb as (T' & -> & <-).
  destruct (to_bias_tile_layout_block_sharded_runs Q assertions mem T' tensor
              num_channel_shards (default (get_dtype tensor) output_dtype) C data
              Hshape Hdata Hlen Hn Hfit) as (out & cols & ->).
  split; [apply create_tensor_from_owned_buffer_ok|].
  split; [apply create_tensor_from_owned_buffer_unsupported|].
  intros ->. cbn [default]. unfold tile_output_ok.
  destruct Hdtype as [-> | [-> | ->]]; reflexivity.
Qed.

Lemma block_sharded_divisibility_checks_witness :
  let Q := mkQuantizer (fun b => b) (fun b => b) in
  let mem : Memory := fun _ => [] in
  let weight := Tensor_of (OwnedStorage [1; 2; 3; 4; 5; 6]) [3; 2; 1; 1] BFLOAT16 ROW_MAJOR in
  convert_conv_weight_tensor_to_tiled_layout_block_sharded Q true mem weight 2 None
  = Fail (AssertFailed "weight_matrix_cols % num_channel_shards == 0").
Proof.
  intros Q mem weight.
  refine (proj1 (block_sharded_divisibility_checks Q mem weight 2 None [1; 2; 3; 4; 5; 6]
                   _ _ _ _) _).
  - lia.
  - split; [reflexivity | intros d Hd; discriminate].
  - left. reflexivity.
  - reflexivity.
  - vm_compute. discriminate.
Defined.

(** ** Per-shard transformation *)

Lemma std_transform_recording (g : Tensor -> Tensor) :
  forall inputs calls,
    std_transform (recording g) inputs calls = Ok (map g inputs, calls ++ inputs).
Proof.
  induction inputs as [|t inputs IH]; intros calls; simpl.
  - rewrite app_nil_r. reflexivity.
  - rewrite IH. simpl. rewrite <- app_assoc. reflexivity.
Qed.

Lemma shards_have_shard_kind (tensor : Tensor) :
  forall shards,
    get_tensors_from_multi_device_storage tensor = Ok shards ->
    forall shard, In shard shards ->
                  storage_type shard = shard_kind (storage_type tensor).
Proof.
  unfold get_tensors_from_multi_device_storage, storage_type.
  destruct (get_storage tensor) as [b|b|a|cfg ids bufs shs|cfg bufs shs] eqn:Hst; simpl.
  - intros shards H shard Hin. injection H as <-.
    destruct Hin as [<-|[]]. rewrite Hst. reflexivity.
  - intros shards H shard Hin. injection H as <-.
    destruct Hin as [<-|[]]. rewrite Hst. reflexivity.
  - intros shards H shard Hin. injection H as <-.
    destruct Hin as [<-|[]]. rewrite Hst. reflexivity.
  - clear Hst. induction ids as [|id ids IH]; simpl; intros shards H shard Hin.
    + injection H as <-. destruct Hin.
    + destruct (fold_right _ _ ids) as [rest|f] eqn:Hrest; simpl in H; [|discriminate].
      destruct (assoc_find id bufs), (assoc_find id shs); try discriminate.
      injection H as <-. destruct Hin as [<-|Hin]; [reflexivity|].
      exact (IH rest eq_refl shard Hin).
  - destruct (bool_decide _); intros shards H shard Hin; [|discriminate].
    injection H as <-. apply in_map_iff in Hin as (bs & <- & _). reflexivity.
Qed.

Lemma collect_device_buffers (tensors : list Tensor) :
  (forall t, In t tensors -> storage_type t = DEVICE) ->
  exists bufs, collect device_buffer_of tensors = Ok bufs.
Proof.
  induction tensors as [|t tensors IH]; intros Hall; simpl.
  - eexists. reflexivity.
  - destruct IH as (bufs & ->); [intros t' Hin; apply Hall; right; exact Hin|].
    pose proof (Hall t (or_introl eq_refl)) as Ht.
    unfold device_buffer_of, storage_type in *.
    destruct (get_storage t); try discriminate. simpl. eexists. reflexivity.
Qed.

Lemma collect_owned_buffers (tensors : list Tensor) :
  (forall t, In t tensors -> storage_type t = OWNED) ->
  exists bufs, collect owned_buffer_of tensors = Ok bufs.
Proof.
  induction tensors as [|t tensors IH]; intros Hall; simpl.
  - eexists. reflexivity.
  - destruct IH as (bufs & ->); [intros t' Hin; apply Hall; right; exact Hin|].
    pose proof (Hall t (or_introl eq_refl)) as Ht.
    unfold owned_buffer_of, storage_type in *.
    destruct (get_storage t); try discriminate. simpl. eexists. reflexivity.
Qed.

Lemma single_shard_is_tensor (tensor : Tensor) (shards : list Tensor) :
  is_multi_device_tensor tensor = false ->
  get_tensors_from_multi_device_storage tensor = Ok shards ->
  shards = [tensor].
Proof.
  unfold is_multi_device_tensor, get_tensors_from_multi_device_storage, storage_type.
  destruct (get_storage tensor); simpl; intros Hm H;
    try discriminate; injection H as <-; reflexivity.
Qed.

Lemma create_multi_device_tensor_kind (tensor : Tensor) (outputs : list Tensor) :
  outputs <> [] ->
  (forall o, In o outputs -> storage_type o = shard_kind (storage_type tensor)) ->
  (is_multi_device_tensor tensor = false -> exists o, outputs = [o]) ->
  exists result,
    create_multi_device_tensor outputs (storage_type tensor)
      (get_distributed_tensor_config_from_tensor tensor) = Ok result /\
    storage_type result = storage_type tensor /\
    get_distributed_tensor_config_from_tensor result
      = get_distributed_tensor_config_from_tensor tensor /\
    (is_multi_device_tensor tensor = false -> outputs = [result]).
Proof.
  intros Hne Hkind Hsingle.
  destruct outputs as [|first others]; [contradiction|].
  pose proof (eq_refl (storage_type tensor)) as HK.
  unfold storage_type at 2 in HK.
  pose proof (eq_refl (get_distributed_tensor_config_from_tensor tensor)) as HC.
  unfold get_distributed_tensor_config_from_tensor at 2 in HC.
  unfold is_multi_device_tensor in *.
  assert (Hlone : forall o k, storage_type o = k -> shard_kind k = k ->
            (k = OWNED \/ k = BORROWED \/ k = DEVICE) ->
            get_distributed_tensor_config_from_tensor o = None).
  { intros o k Ho _ Hk. unfold get_distributed_tensor_config_from_tensor.
    unfold storage_type in Ho.
    destruct (get_storage o); simpl in Ho; subst k;
      try reflexivity; destruct Hk as [?|[?|?]]; discriminate. }
  destruct (get_storage tensor) as [b|b|a|cfg ids bufs shs|cfg bufs shs];
    simpl in HK, HC; rewrite HK, HC in *; simpl in Hsingle, Hkind; unfold create_multi_device_tensor.
  - destruct (Hsingle eq_refl) as (o & Ho). injection Ho as -> ->.
    pose proof (Hkind o (or_introl eq_refl)) as Hk.
    exists o. repeat split; try reflexivity; try exact Hk.
    apply (Hlone o OWNED Hk eq_refl). auto.
  - destruct (Hsingle eq_refl) as (o & Ho). injection Ho as -> ->.
    pose proof (Hkind o (or_introl eq_refl)) as Hk.
    exists o. repeat split; try reflexivity; try exact Hk.
    apply (Hlone o DEVICE Hk eq_refl). auto.
  - destruct (Hsingle eq_refl) as (o & Ho). injection Ho as -> ->.
    pose proof (Hkind o (or_introl eq_refl)) as Hk.
    exists o. repeat split; try reflexivity; try exact Hk.
    apply (Hlone o BORROWED Hk eq_refl). auto.
  - destruct (collect_device_buffers (first :: others) Hkind) as (dbufs & Hc).
    rewrite Hc. cbn [bind].
    eexists. repeat split; try reflexivity. intros; discriminate.
  - destruct (collect_owned_buffers (first :: others) Hkind) as (obufs & Hc).
    rewrite Hc. cbn [bind].
    eexists. repeat split; try reflexivity. intros; discriminate.
Qed.

(** The claim C8 as stated fails for a per-shard function that throws:
    [transform] is called by [convert_tensor] with a lambda that throws
    "Unsupported storage type" on a shard in device storage; on a
    multi-device tensor with one such shard the exception leaves [transform]
    and no tensor is returned. *)
Lemma transform_per_shard_function_throws :
  let t := Tensor_of (MultiDeviceStorage (ShardTensor 0) [0]
                        [(0, mkDeviceBuffer 0 4096)] [(0, [1; 2])])
             [1; 2] UINT32 ROW_MAJOR in
  let compute := fun b : Buffer => Ok (Tensor_of (OwnedStorage b) [1; 2] UINT32 TILE) in
  let per_shard_fn := convert_tensor_on_storage (fun _ => []) compute in
  get_tensors_from_multi_device_storage t
    = Ok [Tensor_of (DeviceStorage (mkDeviceBuffer 0 4096)) [1; 2] UINT32 ROW_MAJOR] /\
  transform t (pure_callable per_shard_fn) tt = Fail (Thrown "Unsupported storage type").
Proof.
  split; reflexivity.
Qed.

(** C8 (amended).  For every tensor whose shards can be enumerated, with at
    least one shard, and every per-shard function that returns a tensor for
    every shard (it does not throw), in the same kind of storage as the
    shard it is given, [transform] applies the function exactly once to each
    shard, in the declared shard order (the calls it makes are the shards,
    in order), and returns a tensor whose storage type and distribution
    configuration are those of the input; for a tensor with exactly one
    shard the function is applied exactly once, and a tensor that is not
    distributed gets the function's result itself, without multi-device
    wrapping. *)
Theorem transform_applies_once_in_order
    (tensor : Tensor) (g : Tensor -> Tensor) (shards : list Tensor) :
  get_tensors_from_multi_device_storage tensor = Ok shards ->
  shards <> [] ->
  (forall shard, In shard shards -> storage_type (g shard) = storage_type shard) ->
  exists result,
    transform tensor (recording g) [] = Ok (result, shards) /\
    storage_type result = storage_type tensor /\
    get_distributed_tensor_config_from_tensor result
      = get_distributed_tensor_config_from_tensor tensor /\
    is_multi_device_tensor result = is_multi_device_tensor tensor /\
    (forall shard, shards = [shard] ->
       std_transform (recording g) shards [] = Ok ([g shard], [shard])) /\
    (is_multi_device_tensor tensor = false ->
       shards = [tensor] /\ result = g tensor).
Proof.
  intros Hshards Hne Hg.
  pose proof (shards_have_shard_kind tensor shards Hshards) as Hkinds.
  destruct (create_multi_device_tensor_kind tensor (map g shards))
    as (result & Hcreate & Hst & Hcfg & Hone).
  - destruct shards; [contradiction | discriminate].
  - intros o Hin. apply in_map_iff in Hin as (s & <- & Hs).
    rewrite (Hg s Hs). apply Hkinds. exact Hs.
  - intros Hm. rewrite (single_shard_is_tensor tensor shards Hm Hshards).
    eexists. reflexivity.
  - exists result. unfold transform. rewrite Hshards. cbn [bind].
    rewrite std_transform_recording. cbn [bind app].
    rewrite Hcreate. cbn [bind].
    split; [reflexivity|]. split; [exact Hst|]. split; [exact Hcfg|].
    split; [unfold is_multi_device_tensor; rewrite Hst; reflexivity|].
    split.
    + intros shard ->. reflexivity.
    + intros Hm.
      pose proof (single_shard_is_tensor tensor shards Hm Hshards) as ->.
      split; [reflexivity|].
      specialize (Hone Hm). simpl in Hone. injection Hone as ->. reflexivity.
Qed.

Lemma transform_applies_once_in_order_witness :
  let t := Tensor_of (MultiDeviceHostStorage (ShardTensor 0) [[1; 2]; [3; 4]] [[1; 2]; [1; 2]])
             [1; 2] UINT32 ROW_MAJOR in
  let shard0 := Tensor_of (OwnedStorage [1; 2]) [1; 2] UINT32 ROW_MAJOR in
  let shard1 := Tensor_of (OwnedStorage [3; 4]) [1; 2] UINT32 ROW_MAJOR in
  let g := fun s : Tensor =>
             Tensor_of (get_storage s) (get_shape s) (get_dtype s) TILE in
  exists result,
    transform t (recording g) [] = Ok (result, [shard0; shard1]) /\
    storage_type result = MULTI_DEVICE_HOST /\
    get_distributed_tensor_config_from_tensor result = Some (ShardTensor 0).
Proof.
  intros t shard0 shard1 g.
  destruct (transform_applies_once_in_order t g [shard0; shard1])
    as (result & Hrun & Hst & Hcfg & _).
  - reflexivity.
  - discriminate.
  - intros shard [<-|[<-|[]]]; reflexivity.
  - exists result. split; [exact Hrun|]. split; [exact Hst | exact Hcfg].
Defined.

(** ** Block copies *)

Lemma get_insert (a : Buffer) (d p v : Z) :
  0 <= d < Z.of_nat (length a) -> 0 <= p ->
  get (<[Z.to_nat d := v]> a) p = if p =? d then v else get a p.
Proof.
  intros Hd Hp. unfold get, Buffer in *. rewrite !nth_lookup.
  destruct (p =? d) eqn:E.
  - apply Z.eqb_eq in E. subst p.
    rewrite list_lookup_insert_eq by lia. reflexivity.
  - apply Z.eqb_neq in E.
    rewrite list_lookup_insert_ne by lia. reflexivity.
Qed.

Lemma copy_element_blit (data a : Buffer) (s d : Z) :
  0 <= s < Z.of_nat (length data) ->
  0 <= d < Z.of_nat (length a) ->
  exists a', copy_element data s d a = Ok a' /\ is_blit data s a d 1 a'.
Proof.
  intros Hs Hd. unfold copy_element, buffer_read, buffer_write.
  rewrite (in_bounds_true data s Hs). cbn [bind].
  rewrite (in_bounds_true a d Hd).
  eexists. split; [reflexivity|]. split; [apply length_insert|].
  intros p Hp. rewrite get_insert by lia. fold (get data s).
  destruct (p =? d) eqn:E.
  - apply Z.eqb_eq in E. subst p.
    replace ((d <=? d) && (d <? d + 1)) with true
      by (symmetry; apply andb_true_intro; split; [apply Z.leb_le | apply Z.ltb_lt]; lia).
    f_equal. lia.
  - apply Z.eqb_neq in E.
    replace ((d <=? p) && (p <? d + 1)) with false; [reflexivity|].
    symmetry. apply andb_false_iff.
    destruct (Z_lt_ge_dec p d); [left; apply Z.leb_gt | right; apply Z.ltb_ge]; lia.
Qed.

Lemma for_range_blit (data : Buffer) (B s d : Z) (body : Z -> Buffer -> Result Buffer) :
  0 <= B ->
  forall count start acc,
    (forall i a, start <= i < start + Z.of_nat count -> length a = length acc ->
       exists a', body i a = Ok a' /\ is_blit data (s + i * B) a (d + i * B) B a') ->
    exists acc',
      for_range count start body acc = Ok acc' /\
      is_blit data (s + start * B) acc (d + start * B) (Z.of_nat count * B) acc'.
Proof.
  intros HB. induction count as [|count IH]; intros start acc Hbody.
  - exists acc. split; [reflexivity|]. split; [reflexivity|].
    intros p Hp. blit_cases; try reflexivity. lia.
  - cbn [for_range].
    destruct (Hbody start acc ltac:(lia) eq_refl) as (a1 & Hb & Hlen1 & Hget1).
    rewrite Hb. cbn [bind].
    destruct (IH (start + 1) a1) as (acc' & Hrun & Hlen & Hget).
    { intros i a Hi Ha. apply Hbody; [lia | congruence]. }
    exists acc'. split; [exact Hrun|]. split; [congruence|].
    intros p Hp. rewrite (Hget p Hp), (Hget1 p Hp).
    assert (E1 : (start + 1) * B = start * B + B) by ring.
    assert (E2 : Z.of_nat (S count) * B = Z.of_nat count * B + B)
      by (rewrite Nat2Z.inj_succ; ring).
    assert (E3 : 0 <= Z.of_nat count * B) by (apply Z.mul_nonneg_nonneg; lia).
    rewrite E1, E2.
    blit_cases; try lia; try reflexivity; f_equal; lia.
Qed.

Lemma for_loop_blit (data : Buffer) (B s d bound : Z)
    (body : Z -> Buffer -> Result Buffer) (acc : Buffer) :
  0 <= bound -> 0 <= B ->
  (forall i a, 0 <= i < bound -> length a = length acc ->
     exists a', body i a = Ok a' /\ is_blit data (s + i * B) a (d + i * B) B a') ->
  exists acc',
    for_loop bound body acc = Ok acc' /\ is_blit data s acc d (bound * B) acc'.
Proof.
  intros Hbound HB Hbody. unfold for_loop.
  destruct (for_range_blit data B s d body HB (Z.to_nat bound) 0 acc)
    as (acc' & Hrun & Hblit).
  { intros i a Hi Ha. apply Hbody; [lia | exact Ha]. }
  exists acc'. split; [exact Hrun|].
  rewrite Z2Nat.id in Hblit by lia.
  replace (s + 0 * B) with s in Hblit by ring.
  replace (d + 0 * B) with d in Hblit by ring.
  exact Hblit.
Qed.

(** Iteration [i] of a loop copies [n] elements into stripe [i] of the
    destination (the elements [i * S .. i * S + S - 1]), at offset [off i]
    within the stripe. *)
Lemma for_range_stripes (data : Buffer) (S n : Z) (sf off : Z -> Z)
    (body : Z -> Buffer -> Result Buffer) :
  0 <= S -> 0 <= n ->
  forall count start acc,
    0 <= start ->
    (forall i, start <= i < start + Z.of_nat count -> 0 <= off i /\ off i + n <= S) ->
    (forall i a, start <= i < start + Z.of_nat count -> length a = length acc ->
       exists a', body i a = Ok a' /\ is_blit data (sf i) a (i * S + off i) n a') ->
    exists acc',
      for_range count start body acc = Ok acc' /\
      length acc' = length acc /\
      (forall p, 0 <= p -> p < start * S \/ (start + Z.of_nat count) * S <= p ->
                 get acc' p = get acc p) /\
      (forall i r, start <= i < start + Z.of_nat count -> 0 <= r < S ->
         get acc' (i * S + r) =
           if (off i <=? r) && (r <? off i + n)
           then get data (sf i + (r - off i))
           else get acc (i * S + r)).
Proof.
  intros HS Hn. induction count as [|count IH]; intros start acc Hstart Hoff Hbody.
  - exists acc. split; [reflexivity|]. split; [reflexivity|].
    split; [reflexivity | intros; lia].
  - cbn [for_range].
    destruct (Hbody start acc ltac:(lia) eq_refl) as (a1 & Hb & Hlen1 & Hget1).
    rewrite Hb. cbn [bind].
    destruct (IH (start + 1) a1 ltac:(lia)) as (acc' & Hrun & Hlen & Hout & Hin).
    { intros i Hi. apply Hoff. lia. }
    { intros i a Hi Ha. apply Hbody; [lia | congruence]. }
    destruct (Hoff start ltac:(lia)) as [Ho1 Ho2].
    assert (E1 : (start + 1) * S = start * S + S) by ring.
    assert (E2 : (start + Z.of_nat (Datatypes.S count)) * S
                 = start * S + S + Z.of_nat count * S)
      by (rewrite Nat2Z.inj_succ; ring).
    assert (E3 : 0 <= Z.of_nat count * S) by (apply Z.mul_nonneg_nonneg; lia).
    assert (E4 : (start + 1 + Z.of_nat count) * S = start * S + S + Z.of_nat count * S)
      by ring.
    assert (E5 : 0 <= start * S) by (apply Z.mul_nonneg_nonneg; lia).
    exists acc'. split; [exact Hrun|]. split; [congruence|]. split.
    + intros p Hp Hrange.
      rewrite (Hout p Hp) by lia. rewrite (Hget1 p Hp).
      blit_cases; try reflexivity; lia.
    + intros i r Hi Hr.
      destruct (Z.eq_dec i start) as [->|Hne].
      * assert (Hp : 0 <= start * S + r) by lia.
        rewrite (Hout _ Hp) by lia. rewrite (Hget1 _ Hp).
        blit_cases; try reflexivity; try lia. f_equal. lia.
      * assert (Hi' : (start + 1) * S <= i * S)
          by (apply Z.mul_le_mono_nonneg_r; lia).
        assert (Hp : 0 <= i * S + r) by lia.
        rewrite (Hin i r) by lia. rewrite (Hget1 _ Hp).
        blit_cases; try reflexivity; lia.
Qed.

Lemma for_loop_stripes (data : Buffer) (S n : Z) (sf off : Z -> Z)
    (bound : Z) (body : Z -> Buffer -> Result Buffer) (acc : Buffer) :
  0 <= S -> 0 <= n -> 0 <= bound ->
  (forall i, 0 <= i < bound -> 0 <= off i /\ off i + n <= S) ->
  (forall i a, 0 <= i < bound -> length a = length acc ->
     exists a', body i a = Ok a' /\ is_blit data (sf i) a (i * S + off i) n a') ->
  exists acc',
    for_loop bound body acc = Ok acc' /\
    length acc' = length acc /\
    (forall i r, 0 <= i < bound -> 0 <= r < S ->
       get acc' (i * S + r) =
         if (off i <=? r) && (r <? off i + n)
         then get data (sf i + (r - off i))
         else get acc (i * S + r)).
Proof.
  intros HS Hn Hbound Hoff Hbody. unfold for_loop.
  destruct (for_range_stripes data S n sf off body HS Hn (Z.to_nat bound) 0 acc
              ltac:(lia)) as (acc' & Hrun & Hlen & _ & Hin).
  { intros i Hi. apply Hoff. lia. }
  { intros i a Hi Ha. apply Hbody; [lia | exact Ha]. }
  exists acc'. split; [exact Hrun|]. split; [exact Hlen|].
  intros i r Hi Hr. apply Hin; lia.
Qed.

Lemma get_zeros (count p : Z) : get (owned_buffer_create count) p = 0.
Proof.
  unfold get, owned_buffer_create.
  destruct (Nat.lt_ge_cases (Z.to_nat p) (Z.to_nat count)) as [H|H].
  - apply nth_repeat_lt. exact H.
  - apply nth_overflow. rewrite repeat_length. exact H.
Qed.

Lemma flat_index_4 (a b c d A B C D : Z) :
  compute_flat_indices [a; b; c; d] (compute_strides [A; B; C; D])
  = a * (B * (C * D)) + (b * (C * D) + (c * D + d * 1)).
Proof. cbn [compute_flat_indices compute_strides product fold_right]. ring. Qed.

Lemma flat_bound (a b A B : Z) :
  0 <= a < A -> 0 <= b < B -> 0 <= a * B + b < A * B.
Proof. intros Ha Hb. nia. Qed.

(** The three inner loops of the zero-pad helper copy the slice of output
    channel [oc] (its [I * H * W] elements) to input-channel offset [start]
    of the same output channel in the widened tensor. *)
Lemma group_slice_copy (data acc : Buffer) (O I H W IG oc start : Z) :
  0 <= oc < O -> 0 <= I -> 0 <= H -> 0 <= W ->
  0 <= start -> start + I <= IG -> IG < 2 ^ 31 ->
  Z.of_nat (length data) = O * (I * (H * W)) ->
  Z.of_nat (length acc) = O * (IG * (H * W)) ->
  exists acc',
    for_loop I (fun j => for_loop H (fun k =>
      for_loop W (fun m output_buffer =>
        let value_flat_input_index :=
          compute_flat_indices [oc; j; k; m] (compute_strides [O; I; H; W]) in
        let* value := buffer_read data value_flat_input_index in
        let new_channel_idx := i32 (start + j) in
        let output_flat_input_index :=
          compute_flat_indices [oc; new_channel_idx; k; m]
            (compute_strides [O; IG; H; W]) in
        buffer_write output_buffer output_flat_input_index value))) acc = Ok acc' /\
    is_blit data (oc * (I * (H * W))) acc
      (oc * (IG * (H * W)) + start * (H * W)) (I * (H * W)) acc'.
Proof.
  intros Hoc HI HH HW Hstart Hfit HIG Hdata Hacc.
  assert (HHW : 0 <= H * W) by (apply Z.mul_nonneg_nonneg; lia).
  apply for_loop_blit; [lia | lia |].
  intros j a Hj Ha.
  destruct (for_loop_blit data W
              (oc * (I * (H * W)) + j * (H * W))
              (oc * (IG * (H * W)) + start * (H * W) + j * (H * W))
              H
              (fun k => for_loop W (fun m output_buffer =>
                 let value_flat_input_index :=
                   compute_flat_indices [oc; j; k; m] (compute_strides [O; I; H; W]) in
                 let* value := buffer_read data value_flat_input_index in
                 let new_channel_idx := i32 (start + j) in
                 let output_flat_input_index :=
                   compute_flat_indices [oc; new_channel_idx; k; m]
                     (compute_strides [O; IG; H; W]) in
                 buffer_write output_buffer output_flat_input_index value))
              a HH HW) as (a' & Hrun & Hblit).
  { intros k b Hk Hb.
    destruct (for_loop_blit data 1
                (oc * (I * (H * W)) + j * (H * W) + k * W)
                (oc * (IG * (H * W)) + start * (H * W) + j * (H * W) + k * W)
                W
                (fun m output_buffer =>
                   let value_flat_input_index :=
                     compute_flat_indices [oc; j; k; m] (compute_strides [O; I; H; W]) in
                   let* value := buffer_read data value_flat_input_index in
                   let new_channel_idx := i32 (start + j) in
                   let output_flat_input_index :=
                     compute_flat_indices [oc; new_channel_idx; k; m]
                       (compute_strides [O; IG; H; W]) in
                   buffer_write output_buffer output_flat_input_index value)
                b HW ltac:(lia)) as (b' & Hrun & Hblit).
    { intros m c Hm Hc. cbv zeta.
      rewrite !flat_index_4, (i32_small (start + j)) by lia.
      pose proof (flat_bound k m H W Hk Hm) as Hkm.
      pose proof (flat_bound j (k * W + m) I (H * W) Hj Hkm) as Hjkm.
      pose proof (flat_bound oc (j * (H * W) + (k * W + m)) O (I * (H * W)) Hoc Hjkm)
        as Hin.
      pose proof (flat_bound (start + j) (k * W + m) IG (H * W) ltac:(lia) Hkm) as Hsjkm.
      pose proof (flat_bound oc ((start + j) * (H * W) + (k * W + m)) O (IG * (H * W))
                    Hoc Hsjkm) as Hout.
      destruct (copy_element_blit data c
                  (oc * (I * (H * W)) + (j * (H * W) + (k * W + m * 1)))
                  (oc * (IG * (H * W)) + ((start + j) * (H * W) + (k * W + m * 1))))
        as (c' & Hcopy & Hc'); [lia | lia |].
      exists c'. split; [exact Hcopy|].
      replace (oc * (I * (H * W)) + j * (H * W) + k * W + m * 1)
        with (oc * (I * (H * W)) + (j * (H * W) + (k * W + m * 1))) by ring.
      replace (oc * (IG * (H * W)) + start * (H * W) + j * (H * W) + k * W + m * 1)
        with (oc * (IG * (H * W)) + ((start + j) * (H * W) + (k * W + m * 1))) by ring.
      exact Hc'. }
    exists b'. split; [exact Hrun|].
    rewrite Z.mul_1_r in Hblit. exact Hblit. }
  exists a'. split; [exact Hrun|]. exact Hblit.
Qed.

Lemma stripe_condition (a c x X I : Z) :
  0 <= x < X -> 0 <= I ->
  ((a * I * X <=? c * X + x) && (c * X + x <? a * I * X + I * X))
  = ((a * I <=? c) && (c <? a * I + I)).
Proof.
  intros Hx HI.
  assert (E : a * I * X + I * X = (a * I + I) * X) by ring.
  rewrite E.
  f_equal.
  - destruct (Z.leb_spec (a * I) c) as [Hle|Hgt].
    + apply Z.leb_le. nia.
    + apply Z.leb_gt. nia.
  - destruct (Z.ltb_spec c (a * I + I)) as [Hlt|Hge].
    + apply Z.ltb_lt. nia.
    + apply Z.ltb_ge. nia.
Qed.

(** The claim C3 as stated fails when there are more groups than output
    channels: the group size [out_channels / num_groups] is zero and the
    helper divides by it. *)
Lemma convert_conv_weight_tensor_to_grouped_layout_more_groups_than_channels :
  let weight := Tensor_of (OwnedStorage [5]) [1; 1; 1; 1] BFLOAT16 ROW_MAJOR in
  1 <= 2 /\
  (forall assertions mem,
     convert_conv_weight_tensor_to_grouped_layout assertions mem weight 2 BFLOAT16
     = Fail (Undefined "integer division by zero")).
Proof.
  split; [lia|]. intros [|] mem; reflexivity.
Qed.

(** C3 (amended).  For every host weight tensor (owned or borrowed storage)
    of shape [out_channels, in_channels_per_group, kH, kW] with non-negative
    dimensions that holds its elements and has one of the data types INT32,
    FLOAT32, BFLOAT16, UINT16, UINT32 of the dispatch table, on which the
    checks made before the dispatch pass or are not compiled in (row-major
    layout; a FLOAT32 weight when the requested data type is BFLOAT4_B, the
    packed type that is not replaced by FLOAT32), and every [num_groups]
    below 2^32 with [1 <= num_groups <= out_channels] (or no output channel
    at all) for which [in_channels_per_group * num_groups] fits an [int] and
    the output volume fits 64 bits,
    [convert_conv_weight_tensor_to_grouped_layout] returns a new tensor of
    shape [out_channels, in_channels_per_group * num_groups, kH, kW] in which the slice of every output channel is placed
    at input-channel offset [group_id * in_channels_per_group], with
    [group_id = min(out_channel_index / (out_channels / num_groups),
    num_groups - 1)], and every other position is zero.  For 4 output
    channels, 2 input channels per group and 2 groups the offsets are 0, 0,
    2, 2. *)
Theorem convert_conv_weight_tensor_to_grouped_layout_correct
    (assertions : bool) (mem : Memory) (tensor : Tensor) (num_groups : Z)
    (output_dtype : DataType) (O I H W : Z) (data : Buffer) :
  get_shape tensor = [O; I; H; W] ->
  host_elements mem tensor = Some data ->
  Z.of_nat (length data) = O * I * H * W ->
  0 <= O -> 0 <= I -> 0 <= H -> 0 <= W ->
  1 <= num_groups < 2 ^ 32 ->
  num_groups <= O \/ O = 0 ->
  I * num_groups < 2 ^ 31 ->
  O * (I * num_groups) * H * W < 2 ^ 64 ->
  grouped_dtype (get_dtype tensor) ->
  let dtype := if bool_decide (output_dtype = BFLOAT8_B) then FLOAT32 else output_dtype in
  assertions = false \/ common_assertions_hold tensor (Some dtype) ->
  let group_id := fun oc => Z.min (oc / (O / num_groups)) (num_groups - 1) in
  exists out,
    convert_conv_weight_tensor_to_grouped_layout assertions mem tensor num_groups output_dtype
    = Ok (Tensor_of (OwnedStorage out) [O; I * num_groups; H; W] dtype ROW_MAJOR) /\
    Z.of_nat (length out) = O * (I * num_groups) * H * W /\
    (forall oc c k m,
       0 <= oc < O -> 0 <= c < I * num_groups -> 0 <= k < H -> 0 <= m < W ->
       get out (((oc * (I * num_groups) + c) * H + k) * W + m) =
         if (group_id oc * I <=? c) && (c <? group_id oc * I + I)
         then get data (((oc * I + (c - group_id oc * I)) * H + k) * W + m)
         else 0) /\
    (O = 4 -> I = 2 -> num_groups = 2 ->
     map (fun oc => group_id oc * I) [0; 1; 2; 3] = [0; 0; 2; 2]).
Proof.
  intros Hshape Hdata Hlen HO HI HH HW HG HGO HIG Hvol Hdt dtype Hassert group_id.
  set (IG := I * num_groups) in *.
  assert (HIGn : 0 <= IG) by (subst IG; apply Z.mul_nonneg_nonneg; lia).
  assert (HHW : 0 <= H * W) by (apply Z.mul_nonneg_nonneg; lia).
  unfold convert_conv_weight_tensor_to_grouped_layout.
  rewrite Hshape. cbn [dim nth]. fold IG. fold dtype.
  rewrite (u32_small IG) by lia.
  unfold convert_tensor_to_tiled_layout_common.
  rewrite (common_assertions_pass assertions tensor (Some dtype) _ Hassert).
  assert (Hfind : exists T,
            map_find (get_dtype tensor) (to_grouped_layout_map mem)
            = Some (conv_group_weight_zero_pad_helper mem T)).
  { destruct Hdt as [-> | [-> | [-> | [-> | ->]]]]; exists T_float; reflexivity. }
  destruct Hfind as (T & ->).
  cbn [default from_option id].
  unfold conv_group_weight_zero_pad_helper.
  rewrite (host_elements_convert mem tensor data _ Hdata).
  cbn [dim nth].
  set (out0 := owned_buffer_create (volume [O; IG; H; W])).
  assert (Hout0 : Z.of_nat (length out0) = O * (IG * (H * W))).
  { subst out0. unfold volume. cbn [product fold_right].
    assert (0 <= O * (IG * (H * (W * 1))) < 2 ^ 64) by nia.
    rewrite u64_small by lia. rewrite owned_buffer_create_length by lia. ring. }
  match goal with
  | |- context [for_loop O ?body out0] =>
      destruct (for_loop_stripes data (IG * (H * W)) (I * (H * W))
                  (fun i => i * (I * (H * W)))
                  (fun i => group_id i * I * (H * W))
                  O body out0) as (out & Hrun & Hlenout & Hget)
  end.
  - apply Z.mul_nonneg_nonneg; lia.
  - apply Z.mul_nonneg_nonneg; lia.
  - exact HO.
  - intros i Hi.
    assert (Hgs : 0 < O / num_groups) by (apply Z.div_str_pos; lia).
    assert (Hgid : 0 <= group_id i <= num_groups - 1).
    { subst group_id. cbv beta.
      pose proof (Z.div_pos i (O / num_groups) ltac:(lia) Hgs). lia. }
    split; [apply Z.mul_nonneg_nonneg; [apply Z.mul_nonneg_nonneg|]; lia|].
    subst IG. nia.
  - intros i a Hi Ha.
    assert (Hgs : 0 < O / num_groups) by (apply Z.div_str_pos; lia).
    assert (Hgid : 0 <= group_id i <= num_groups - 1).
    { subst group_id. cbv beta.
      pose proof (Z.div_pos i (O / num_groups) ltac:(lia) Hgs). lia. }
    unfold c_div.
    destruct (num_groups =? 0) eqn:E1; [apply Z.eqb_eq in E1; lia|].
    cbn [bind].
    destruct (O / num_groups =? 0) eqn:E2; [apply Z.eqb_eq in E2; lia|].
    cbn [bind].
    rewrite (u32_small (num_groups - 1)) by lia.
    fold (group_id i).
    assert (Hst : 0 <= group_id i * I /\ group_id i * I + I <= IG) by (subst IG; nia).
    rewrite (u32_small (group_id i * I)), (i32_small (group_id i * I)) by lia.
    destruct (group_slice_copy data a O I H W IG i (group_id i * I))
      as (a' & Hrun & Hblit); try lia.
    exists a'. split; [exact Hrun|].
    exact Hblit.
  - rewrite Hrun. cbn [bind].
    exists out. split; [reflexivity|]. split; [lia|]. split.
    + intros oc c k m Hoc Hc Hk Hm.
      pose proof (flat_bound k m H W Hk Hm) as Hkm.
      pose proof (flat_bound c (k * W + m) IG (H * W) Hc Hkm) as Hckm.
      replace (((oc * IG + c) * H + k) * W + m)
        with (oc * (IG * (H * W)) + (c * (H * W) + (k * W + m))) by ring.
      rewrite (Hget oc _ Hoc Hckm). cbv beta.
      rewrite (stripe_condition (group_id oc) c (k * W + m) (H * W) I Hkm HI).
      subst out0. rewrite get_zeros.
      destruct ((group_id oc * I <=? c) && (c <? group_id oc * I + I)); [|reflexivity].
      f_equal. ring.
    + intros -> -> ->. reflexivity.
Qed.

Lemma convert_conv_weight_tensor_to_grouped_layout_witness :
  let weight :=
    Tensor_of (OwnedStorage [1; 2; 3; 4; 5; 6; 7; 8]) [4; 2; 1; 1] BFLOAT16 ROW_MAJOR in
  let mem : Memory := fun _ => [] in
  exists out,
    convert_conv_weight_tensor_to_grouped_layout true mem weight 2 BFLOAT16
    = Ok (Tensor_of (OwnedStorage out) [4; 4; 1; 1] BFLOAT16 ROW_MAJOR) /\
    Z.of_nat (length out) = 16 /\
    get out 2 = 0 /\ get out 10 = get [1; 2; 3; 4; 5; 6; 7; 8] 4.
Proof.
  intros weight mem.
  destruct (convert_conv_weight_tensor_to_grouped_layout_correct
              true mem weight 2 BFLOAT16 4 2 1 1 [1; 2; 3; 4; 5; 6; 7; 8])
    as (out & Hrun & Hlen & Hget & _);
    try reflexivity; try lia.
  - right. right. left. reflexivity.
  - right. split; [reflexivity | intros d Hd; injection Hd as <-; discriminate].
  - exists out. split; [exact Hrun|]. split; [exact Hlen|]. split.
    + exact (Hget 0 2 0 0 ltac:(lia) ltac:(lia) ltac:(lia) ltac:(lia)).
    + exact (Hget 2 2 0 0 ltac:(lia) ltac:(lia) ltac:(lia) ltac:(lia)).
Defined.

(** The example of the specification, evaluated: channels 0 and 1 keep their
    slice at input-channel offset 0, channels 2 and 3 at offset 2, and the
    other positions are zero. *)
Example grouped_layout_4_2_2 :
  forall assertions mem,
    convert_conv_weight_tensor_to_grouped_layout assertions mem
      (Tensor_of (OwnedStorage [1; 2; 3; 4; 5; 6; 7; 8]) [4; 2; 1; 1] BFLOAT16 ROW_MAJOR)
      2 BFLOAT16
    = Ok (Tensor_of
            (OwnedStorage [1; 2; 0; 0;  3; 4; 0; 0;  0; 0; 5; 6;  0; 0; 7; 8])
            [4; 4; 1; 1] BFLOAT16 ROW_MAJOR).
Proof. intros [|] mem; reflexivity. Qed.

(** ** Loops that fill nested stripes *)

Lemma is_fill_ext (F G : Z -> option Z) (base size : Z) (a a' : Buffer) :
  (forall q, 0 <= q < size -> F q = G q) ->
  is_fill F base size a a' -> is_fill G base size a a'.
Proof.
  intros Hext [Hlen Hget]. split; [exact Hlen|].
  intros p Hp. rewrite (Hget p Hp).
  destruct ((base <=? p) && (p <? base + size)) eqn:E; [|reflexivity].
  apply andb_true_iff in E as [E1 E2].
  apply Z.leb_le in E1. apply Z.ltb_lt in E2.
  rewrite Hext by lia. reflexivity.
Qed.

Lemma is_fill_widen (F : Z -> option Z) (base n m : Z) (a a' : Buffer) :
  n <= m ->
  is_fill F base n a a' -> is_fill (upto n F) base m a a'.
Proof.
  intros Hnm [Hlen Hget]. split; [exact Hlen|].
  intros p Hp. rewrite (Hget p Hp). unfold upto.
  blit_cases; try reflexivity; lia.
Qed.

Lemma copy_element_fill (data a : Buffer) (s d : Z) :
  0 <= s < Z.of_nat (length data) ->
  0 <= d < Z.of_nat (length a) ->
  exists a', copy_element data s d a = Ok a' /\
             is_fill (fun _ => Some (get data s)) d 1 a a'.
Proof.
  intros Hs Hd.
  destruct (copy_element_blit data a s d Hs Hd) as (a' & Hrun & Hlen & Hget).
  exists a'. split; [exact Hrun|]. split; [exact Hlen|].
  intros p Hp. rewrite (Hget p Hp).
  destruct ((d <=? p) && (p <? d + 1)) eqn:E; [|reflexivity].
  apply andb_true_iff in E as [E1 E2].
  apply Z.leb_le in E1. apply Z.ltb_lt in E2.
  simpl. f_equal. lia.
Qed.

Lemma div_mod_stripe (i r S : Z) :
  0 <= r < S -> (i * S + r) / S = i /\ (i * S + r) mod S = r.
Proof.
  intros Hr. split.
  - symmetry. apply (Z.div_unique_pos _ _ _ r); [exact Hr | ring].
  - symmetry. apply (Z.mod_unique_pos _ _ i); [exact Hr | ring].
Qed.

Lemma for_range_fill (S base : Z) (F : Z -> Z -> option Z)
    (body : Z -> Buffer -> Result Buffer) :
  0 < S ->
  forall count start acc,
    0 <= start ->
    (forall i a, start <= i < start + Z.of_nat count -> length a = length acc ->
       exists a', body i a = Ok a' /\ is_fill (F i) (base + i * S) S a a') ->
    exists acc',
      for_range count start body acc = Ok acc' /\
      length acc' = length acc /\
      forall p, 0 <= p ->
        get acc' p =
          if (base + start * S <=? p) && (p <? base + (start + Z.of_nat count) * S)
          then default (get acc p) (nested S F (p - base))
          else get acc p.
Proof.
  intros HS. induction count as [|count IH]; intros start acc Hstart Hbody.
  - exists acc. split; [reflexivity|]. split; [reflexivity|].
    intros p Hp. blit_cases; try reflexivity. lia.
  - cbn [for_range].
    destruct (Hbody start acc ltac:(lia) eq_refl) as (a1 & Hb & Hlen1 & Hget1).
    rewrite Hb. cbn [bind].
    destruct (IH (start + 1) a1 ltac:(lia)) as (acc' & Hrun & Hlen & Hget).
    { intros i a Hi Ha. apply Hbody; [lia | congruence]. }
    exists acc'. split; [exact Hrun|]. split; [congruence|].
    intros p Hp. rewrite (Hget p Hp), (Hget1 p Hp).
    assert (E1 : (start + 1) * S = start * S + S) by ring.
    assert (E2 : (start + 1 + Z.of_nat count) * S = start * S + S + Z.of_nat count * S)
      by ring.
    assert (E3 : (start + Z.of_nat (Datatypes.S count)) * S
                 = start * S + S + Z.of_nat count * S)
      by (rewrite Nat2Z.inj_succ; ring).
    assert (E4 : 0 <= Z.of_nat count * S) by (apply Z.mul_nonneg_nonneg; lia).
    rewrite E1, E2, E3.
    blit_cases; try lia; try reflexivity.
    unfold nested.
    replace (p - base) with (start * S + (p - (base + start * S))) by ring.
    destruct (div_mod_stripe start (p - (base + start * S)) S ltac:(lia)) as [-> ->].
    reflexivity.
Qed.

Lemma for_loop_fill (S base bound : Z) (F : Z -> Z -> option Z)
    (body : Z -> Buffer -> Result Buffer) (acc : Buffer) :
  0 < S -> 0 <= bound ->
  (forall i a, 0 <= i < bound -> length a = length acc ->
     exists a', body i a = Ok a' /\ is_fill (F i) (base + i * S) S a a') ->
  exists acc',
    for_loop bound body acc = Ok acc' /\
    is_fill (nested S F) base (bound * S) acc acc'.
Proof.
  intros HS Hbound Hbody. unfold for_loop.
  destruct (for_range_fill S base F body HS (Z.to_nat bound) 0 acc ltac:(lia))
    as (acc' & Hrun & Hlen & Hget).
  { intros i a Hi Ha. apply Hbody; [lia | exact Ha]. }
  exists acc'. split; [exact Hrun|]. split; [exact Hlen|].
  intros p Hp. rewrite (Hget p Hp).
  rewrite Z2Nat.id by lia.
  replace (base + 0 * S) with base by ring.
  replace ((0 + bound) * S) with (bound * S) by ring.
  replace (base + bound * S) with (base + bound * S) by ring.
  reflexivity.
Qed.

Lemma for_loop_level (N S M base : Z) (F : Z -> Z -> option Z)
    (body : Z -> Buffer -> Result Buffer) (acc : Buffer) :
  0 < S -> 0 <= N -> N * S <= M ->
  (forall i a, 0 <= i < N -> length a = length acc ->
     exists a', body i a = Ok a' /\ is_fill (F i) (base + i * S) S a a') ->
  exists acc',
    for_loop N body acc = Ok acc' /\ is_fill (level N S F) base M acc acc'.
Proof.
  intros HS HN HM Hbody.
  destruct (for_loop_fill S base N F body acc HS HN Hbody) as (acc' & Hrun & Hfill).
  exists acc'. split; [exact Hrun|].
  apply is_fill_widen; assumption.
Qed.

Lemma copy_element_at (data a : Buffer) (s d base k : Z) :
  d = base + k * 1 ->
  0 <= s < Z.of_nat (length data) ->
  0 <= d < Z.of_nat (length a) ->
  exists a', copy_element data s d a = Ok a' /\
             is_fill (fun _ => Some (get data s)) (base + k * 1) 1 a a'.
Proof.
  intros <- Hs Hd. apply copy_element_fill; assumption.
Qed.

Lemma level_at (N S : Z) (F : Z -> Z -> option Z) (i q : Z) :
  0 <= i < N -> 0 <= q < S -> level N S F (i * S + q) = F i q.
Proof.
  intros Hi Hq. unfold level, upto, nested.
  destruct (div_mod_stripe i q S Hq) as [-> ->].
  destruct (Z.ltb_spec (i * S + q) (N * S)) as [_|Habs]; [reflexivity|].
  exfalso.
  assert (i * S <= (N - 1) * S) by (apply Z.mul_le_mono_nonneg_r; lia).
  lia.
Qed.

Lemma level_beyond (N S : Z) (F : Z -> Z -> option Z) (q : Z) :
  N * S <= q -> level N S F q = None.
Proof.
  intros Hq. unfold level, upto.
  destruct (Z.ltb_spec q (N * S)); [lia | reflexivity].
Qed.

Lemma is_fill_zeros (F : Z -> option Z) (size count : Z) (out : Buffer) :
  is_fill F 0 size (owned_buffer_create count) out ->
  forall p, 0 <= p ->
    get out p = if p <? size then default 0 (F p) else 0.
Proof.
  intros [_ Hget] p Hp. rewrite (Hget p Hp), get_zeros, Z.sub_0_r.
  destruct (Z.leb_spec 0 p); [|lia]. reflexivity.
Qed.

Lemma round_up_spec (x b : Z) :
  0 <= x -> 0 < b ->
  x <= round_up x b < x + b /\ round_up x b mod b = 0.
Proof.
  intros Hx Hb. unfold round_up, ceil_div.
  pose proof (Z.div_mod x b ltac:(lia)) as Hx'.
  pose proof (Z.mod_pos_bound x b Hb) as Hxm.
  destruct (x mod b =? 0) eqn:E.
  - apply Z.eqb_eq in E. split; [lia | exact E].
  - apply Z.eqb_neq in E.
    pose proof (Z.div_mod (x + b - 1) b ltac:(lia)) as Hdm.
    pose proof (Z.mod_pos_bound (x + b - 1) b Hb) as Hm.
    split; [|apply Z.mod_mul; lia].
    assert (Hq : (x + b - 1) / b = x / b + 1).
    { symmetry. apply (Z.div_unique_pos _ _ _ (x mod b - 1)); lia. }
    rewrite Hq. lia.
Qed.

Lemma padded_dimension (x b : Z) :
  0 <= x -> 0 < b -> x + b <= 2 ^ 32 ->
  (if negb (x mod b =? 0) then u32 (ceil_div x b * b) else x) = round_up x b.
Proof.
  intros Hx Hb Hfit.
  pose proof (round_up_spec x b Hx Hb) as [Hr _].
  unfold round_up in *.
  destruct (x mod b =? 0); cbn [negb]; [reflexivity|].
  apply u32_small. lia.
Qed.

Lemma to_weight_tile_layout_matrix (Q : Quantizer) (mem : Memory) (T : ElemType)
    (tensor : Tensor) (bh bw : Z) (od : DataType) (K C R S : Z) (data : Buffer) :
  get_shape tensor = [K; C; R; S] ->
  host_elements mem tensor = Some data ->
  Z.of_nat (length data) = K * C * R * S ->
  0 < K -> 0 < C -> 0 < R -> 0 < S -> 0 < bh -> 0 < bw ->
  let cols := round_up K (bw * 32) in
  let rows := round_up (C * R * S) (bh * 32) in
  K + bw * 32 <= 2 ^ 32 -> C * R * S + bh * 32 <= 2 ^ 32 -> rows * cols < 2 ^ 32 ->
  exists out,
    to_weight_tile_layout Q mem T tensor (bh, bw) od
    = create_tensor_from_owned_buffer Q T out od [1; 1; rows; cols] /\
    Z.of_nat (length out) = rows * cols /\
    is_fill
      (level R (S * (C * cols)) (fun r =>
       level S (C * cols) (fun s =>
       level C cols (fun c =>
       level K 1 (fun k _ => Some (get data (((k * C + c) * R + r) * S + s)))))))
      0 (rows * cols) (owned_buffer_create (rows * cols)) out.
Proof.
  intros Hshape Hdata Hlen HK HC HR HS Hbh Hbw cols rows HfitK HfitR Hvol.
  assert (HCRS : 0 < C * R * S) by (repeat apply Z.mul_pos_pos; lia).
  pose proof (round_up_spec K (bw * 32) ltac:(lia) ltac:(lia)) as [Hcols _].
  pose proof (round_up_spec (C * R * S) (bh * 32) ltac:(lia) ltac:(lia)) as [Hrows _].
  fold cols in Hcols. fold rows in Hrows.
  unfold to_weight_tile_layout, get_legacy_shape.
  rewrite Hshape. cbn [dim nth].
  rewrite (host_elements_convert mem tensor data _ Hdata).
  change TILE_WIDTH with 32. change TILE_HEIGHT with 32.
  rewrite (u32_small (bw * 32)), (u32_small (bh * 32)), (u32_small (C * R * S)) by lia.
  unfold c_mod.
  destruct (bw * 32 =? 0) eqn:E1; [apply Z.eqb_eq in E1; lia|]. cbn [bind].
  destruct (bh * 32 =? 0) eqn:E2; [apply Z.eqb_eq in E2; lia|]. cbn [bind].
  rewrite (padded_dimension K (bw * 32)), (padded_dimension (C * R * S) (bh * 32)) by lia.
  fold cols. fold rows.
  assert (Hvol64 : volume [1; 1; rows; cols] = rows * cols).
  { unfold volume. cbn [product fold_right].
    assert (0 <= rows * cols) by (apply Z.mul_nonneg_nonneg; lia).
    rewrite u64_small by lia. ring. }
  rewrite Hvol64.
  set (out0 := owned_buffer_create (rows * cols)).
  assert (Hout0 : Z.of_nat (length out0) = rows * cols).
  { subst out0. apply owned_buffer_create_length. apply Z.mul_nonneg_nonneg; lia. }
  assert (Hcp : 0 < cols) by lia.
  assert (HCc : 0 < C * cols) by (apply Z.mul_pos_pos; lia).
  assert (HSCc : 0 < S * (C * cols)) by (apply Z.mul_pos_pos; lia).
  assert (Hused : R * (S * (C * cols)) <= rows * cols).
  { replace (R * (S * (C * cols))) with (C * R * S * cols) by ring.
    apply Z.mul_le_mono_nonneg_r; lia. }
  match goal with
  | |- context [for_loop R ?body out0] =>
      destruct (for_loop_level R (S * (C * cols)) (rows * cols) 0
                  (fun r => level S (C * cols) (fun s => level C cols (fun c =>
                     level K 1 (fun k _ =>
                       Some (get data (((k * C + c) * R + r) * S + s))))))
                  body out0 HSCc ltac:(lia) Hused) as (out & Hrun & Hfill)
  end.
  - intros r a Hr Ha.
    apply (for_loop_level S (C * cols) (S * (C * cols)) (0 + r * (S * (C * cols))));
      [exact HCc | lia | lia |].
    intros s b Hs Hb.
    apply (for_loop_level C cols (C * cols)); [exact Hcp | lia | lia |].
    intros c d Hc Hd.
    apply (for_loop_level K 1 cols); [lia | lia | lia |].
    intros k e Hk He.
    pose proof (flat_bound k c K C ltac:(lia) ltac:(lia)) as B1.
    pose proof (flat_bound (k * C + c) r (K * C) R B1 ltac:(lia)) as B2.
    pose proof (flat_bound ((k * C + c) * R + r) s (K * C * R) S B2 ltac:(lia)) as B3.
    pose proof (flat_bound r s R S ltac:(lia) ltac:(lia)) as D1.
    pose proof (flat_bound (r * S + s) c (R * S) C D1 ltac:(lia)) as D2.
    pose proof (flat_bound ((r * S + s) * C + c) k (R * S * C) cols D2 ltac:(lia)) as D3.
    assert (Hsrc : k * C * R * S + c * R * S + r * S + s = ((k * C + c) * R + r) * S + s)
      by ring.
    assert (Hdst : k + c * cols + s * C * cols + r * S * C * cols
                   = ((r * S + s) * C + c) * cols + k) by ring.
    rewrite Hsrc, Hdst.
    assert (Hlim : R * S * C * cols <= rows * cols).
    { replace (R * S * C * cols) with (R * (S * (C * cols))) by ring. exact Hused. }
    assert (Hin : K * (C * R * S) <= cols * rows)
      by (apply Z.mul_le_mono_nonneg; lia).
    rewrite !u32_small by lia.
    apply copy_element_at; [ring | lia | lia].
  - rewrite Hrun. cbn [bind].
    exists out. split; [reflexivity|]. split; [destruct Hfill; lia | exact Hfill].
Qed.

Lemma level4_at (R S C K S1 cols : Z) (v : Z -> Z -> Z -> Z -> Z) (r s c k : Z) :
  S * (C * cols) <= S1 ->
  0 <= r < R -> 0 <= s < S -> 0 <= c < C -> 0 <= k < cols ->
  level R S1 (fun r => level S (C * cols) (fun s => level C cols (fun c =>
    level K 1 (fun k _ => Some (v r s c k)))))
    (r * S1 + (((s * C + c) * cols) + k))
  = if k <? K then Some (v r s c k) else None.
Proof.
  intros HS1 Hr Hs Hc Hk.
  pose proof (flat_bound c k C cols Hc Hk) as B1.
  pose proof (flat_bound s (c * cols + k) S (C * cols) Hs B1) as B2.
  rewrite level_at; [|exact Hr|].
  2:{ replace ((s * C + c) * cols + k) with (s * (C * cols) + (c * cols + k)) by ring.
      lia. }
  replace ((s * C + c) * cols + k) with (s * (C * cols) + (c * cols + k)) by ring.
  rewrite level_at by assumption.
  rewrite level_at by assumption.
  destruct (Z.ltb_spec k K) as [Hlt|Hge].
  - replace k with (k * 1 + 0) at 1 by ring.
    rewrite level_at by lia. reflexivity.
  - apply level_beyond. lia.
Qed.

(** X1.  [convert_conv_weight_tensor_to_tiled_layout] on a row-major host
    weight [K, C, R, S]: the matrix handed to the tile conversion has
    [round_up (C*R*S) (32*in1_block_h)] rows and [round_up K
    (32*in1_block_w)] columns, the least multiples of the block sizes that
    hold the weight; the weight element (k, c, r, s) stands in row
    [(r*S + s)*C + c], column [k]; the padding columns and rows are zero;
    the result is a tile tensor of shape [1, 1, rows, cols] labelled with
    the requested data type, or the input's when none is requested.  The
    block sizes are positive, the padded dimensions and the element count of
    the matrix fit [uint32_t], the checks made before the dispatch pass or
    are not compiled in, and the conversion to tile layout has a repacking
    function for the output data type (FLOAT32, BFLOAT16, UINT32, or a
    packed type on a FLOAT32 weight), which is always so when no data type
    is requested. *)
Theorem convert_conv_weight_tensor_to_tiled_layout_matrix
    (Q : Quantizer) (assertions : bool) (mem : Memory) (tensor : Tensor)
    (in1_block_h in1_block_w : Z) (output_dtype : option DataType)
    (K C R S : Z) (data : Buffer) :
  get_shape tensor = [K; C; R; S] ->
  host_elements mem tensor = Some data ->
  Z.of_nat (length data) = K * C * R * S ->
  0 < K -> 0 < C -> 0 < R -> 0 < S -> 0 < in1_block_h -> 0 < in1_block_w ->
  dispatched_dtype (get_dtype tensor) ->
  assertions = false \/ common_assertions_hold tensor output_dtype ->
  output_dtype = None \/
  tile_output_ok (bool_decide (get_dtype tensor = FLOAT32))
    (default (get_dtype tensor) output_dtype) = true ->
  let cols := round_up K (in1_block_w * 32) in
  let rows := round_up (C * R * S) (in1_block_h * 32) in
  K + in1_block_w * 32 <= 2 ^ 32 ->
  C * R * S + in1_block_h * 32 <= 2 ^ 32 ->
  rows * cols < 2 ^ 32 ->
  exists T out result,
    convert_conv_weight_tensor_to_tiled_layout Q assertions mem tensor
      in1_block_h in1_block_w output_dtype = Ok result /\
    Ok result = create_tensor_from_owned_buffer Q T out
                  (default (get_dtype tensor) output_dtype) [1; 1; rows; cols] /\
    get_shape result = [1; 1; rows; cols] /\
    get_layout result = TILE /\
    get_dtype result = default (get_dtype tensor) output_dtype /\
    Z.of_nat (length out) = rows * cols /\
    (K <= cols < K + in1_block_w * 32 /\ cols mod (in1_block_w * 32) = 0) /\
    (C * R * S <= rows < C * R * S + in1_block_h * 32 /\
     rows mod (in1_block_h * 32) = 0) /\
    (forall r s c k,
       0 <= r < R -> 0 <= s < S -> 0 <= c < C -> 0 <= k < K ->
       get out (((r * S + s) * C + c) * cols + k)
       = get data (((k * C + c) * R + r) * S + s)) /\
    (forall r s c k,
       0 <= r < R -> 0 <= s < S -> 0 <= c < C -> K <= k < cols ->
       get out (((r * S + s) * C + c) * cols + k) = 0) /\
    (forall p, C * R * S * cols <= p -> get out p = 0).
Proof.
  intros Hshape Hdata Hlen HK HC HR HS Hbh Hbw Hdtype Hassert Hconv cols rows HfitK HfitR Hvol.
  unfold convert_conv_weight_tensor_to_tiled_layout, convert_tensor_to_tiled_layout_common.
  rewrite (common_assertions_pass assertions tensor output_dtype _ Hassert).
  assert (Hfind : exists T,
            map_find (get_dtype tensor) (to_w_tile_layout_map Q mem)
            = Some (to_weight_tile_layout Q mem T) /\
            is_float T = bool_decide (get_dtype tensor = FLOAT32)).
  { destruct Hdtype as [-> | [-> | ->]]; eexists; split; reflexivity. }
  destruct Hfind as (T & -> & Hfloat).
  destruct (to_weight_tile_layout_matrix Q mem T tensor in1_block_h in1_block_w
              (default (get_dtype tensor) output_dtype) K C R S data)
    as (out & Hrun & Hlenout & Hfill); try assumption.
  fold cols rows in Hrun, Hlenout, Hfill.
  destruct (create_tensor_from_owned_buffer_spec Q T out
              (default (get_dtype tensor) output_dtype) [1; 1; rows; cols]
              (tile_output_ok_dispatched tensor output_dtype T Hdtype Hfloat Hconv))
    as (result & Hres & Hsh & Hdt & Hlay & _).
  pose proof (round_up_spec K (in1_block_w * 32) ltac:(lia) ltac:(lia)) as Hcols.
  pose proof (round_up_spec (C * R * S) (in1_block_h * 32)
                ltac:(repeat apply Z.mul_nonneg_nonneg; lia) ltac:(lia)) as Hrows.
  fold cols in Hcols. fold rows in Hrows.
  assert (Hcp : 0 < cols) by lia.
  assert (Hused : R * (S * (C * cols)) <= rows * cols).
  { replace (R * (S * (C * cols))) with (C * R * S * cols) by ring.
    apply Z.mul_le_mono_nonneg_r; lia. }
  pose proof (is_fill_zeros _ _ _ _ Hfill) as Hget.
  exists T, out, result.
  rewrite Hrun, Hres.
  split; [reflexivity|]. split; [reflexivity|].
  split; [exact Hsh|]. split; [exact Hlay|]. split; [exact Hdt|].
  split; [exact Hlenout|]. split; [exact Hcols|]. split; [exact Hrows|].
  assert (Heval : forall r s c k,
            0 <= r < R -> 0 <= s < S -> 0 <= c < C -> 0 <= k < cols ->
            get out (((r * S + s) * C + c) * cols + k)
            = if k <? K then get data (((k * C + c) * R + r) * S + s) else 0).
  { intros r s c k Hr Hs Hc Hk.
    pose proof (flat_bound r s R S Hr Hs) as D1.
    pose proof (flat_bound (r * S + s) c (R * S) C D1 Hc) as D2.
    pose proof (flat_bound ((r * S + s) * C + c) k (R * S * C) cols D2 Hk) as D3.
    rewrite Hget by lia.
    destruct (Z.ltb_spec (((r * S + s) * C + c) * cols + k) (rows * cols)) as [_|Habs].
    2:{ exfalso. replace (R * S * C * cols) with (R * (S * (C * cols))) in D3 by ring. lia. }
    replace (((r * S + s) * C + c) * cols + k)
      with (r * (S * (C * cols)) + ((s * C + c) * cols + k)) by ring.
    rewrite (level4_at R S C K (S * (C * cols)) cols
               (fun r s c k => get data (((k * C + c) * R + r) * S + s)))
      by (assumption || lia).
    destruct (k <? K); reflexivity. }
  split; [|split].
  - intros r s c k Hr Hs Hc Hk. rewrite Heval by lia.
    destruct (Z.ltb_spec k K); [reflexivity | lia].
  - intros r s c k Hr Hs Hc Hk. rewrite Heval by lia.
    destruct (Z.ltb_spec k K); [lia | reflexivity].
  - intros p Hp.
    assert (0 <= p) by (assert (0 <= C * R * S * cols)
                          by (repeat apply Z.mul_nonneg_nonneg; lia); lia).
    rewrite Hget by lia.
    destruct (Z.ltb_spec p (rows * cols)); [|reflexivity].
    rewrite level_beyond; [reflexivity|].
    replace (R * (S * (C * cols))) with (C * R * S * cols) by ring. exact Hp.
Qed.

Lemma convert_conv_weight_tensor_to_tiled_layout_matrix_witness :
  let Q := mkQuantizer (fun b => b) (fun b => b) in
  let mem : Memory := fun _ => [] in
  let weight := Tensor_of (OwnedStorage [11; 12; 21; 22]) [2; 2; 1; 1] UINT32 ROW_MAJOR in
  exists result,
    convert_conv_weight_tensor_to_tiled_layout Q true mem weight 1 1 None = Ok result /\
    get_shape result = [1; 1; 32; 32] /\ get_layout result = TILE.
Proof.
  intros Q mem weight.
  destruct (convert_conv_weight_tensor_to_tiled_layout_matrix
              Q true mem weight 1 1 None 2 2 1 1 [11; 12; 21; 22])
    as (T & out & result & Hrun & _ & Hshape & Hlayout & _);
    try reflexivity; try lia.
  - right. right. reflexivity.
  - right. split; [reflexivity | intros d Hd; discriminate].
  - left. reflexivity.
  - exists result. split; [exact Hrun|]. split; [exact Hshape | exact Hlayout].
Defined.

(** A requested data type for which the layout conversion has no repacking
    function: the matrix is built all the same, and the conversion fails at
    the end, in the conversion to tile layout. *)
Example convert_conv_weight_tensor_to_tiled_layout_unmapped_output :
  convert_conv_weight_tensor_to_tiled_layout
    (mkQuantizer (fun b => b) (fun b => b)) true (fun _ => [])
    (Tensor_of (OwnedStorage [11; 12; 21; 22]) [2; 2; 1; 1] UINT32 ROW_MAJOR)
    1 1 (Some INT32)
  = Fail (Thrown "Unsupported data type").
Proof. vm_compute. reflexivity. Qed.

(** X2.  [convert_conv_bias_tensor_to_tiled_layout_block_sharded] on a
    row-major host bias [1, 1, 1, C] with at least one channel per shard:
    each shard takes [C / num_channel_shards] channels and is padded with
    zeros to the next multiple of the tile width; the matrix has 32 rows, of
    which only the first is written; the channels beyond
    [num_channel_shards * (C / num_channel_shards)] are not copied; the
    column count is the padded shard width times the shard count, except
    that it stays [C] when the shard width is a multiple of the tile width
    already.  The padded channel count fits [uint32_t], the checks made
    before the dispatch pass or are not compiled in, and the conversion to
    tile layout has a repacking function for the output data type (FLOAT32,
    BFLOAT16, UINT32, or a packed type on a FLOAT32 bias), which is always
    so when no data type is requested. *)
Theorem convert_conv_bias_block_sharded_matrix
    (Q : Quantizer) (assertions : bool) (mem : Memory) (tensor : Tensor)
    (num_channel_shards : Z) (output_dtype : option DataType)
    (C : Z) (data : Buffer) :
  get_shape tensor = [1; 1; 1; C] ->
  host_elements mem tensor = Some data ->
  Z.of_nat (length data) = C ->
  0 < num_channel_shards <= C ->
  C + 32 * num_channel_shards < 2 ^ 32 ->
  dispatched_dtype (get_dtype tensor) ->
  assertions = false \/ common_assertions_hold tensor output_dtype ->
  output_dtype = None \/
  tile_output_ok (bool_decide (get_dtype tensor = FLOAT32))
    (default (get_dtype tensor) output_dtype) = true ->
  let width := C / num_channel_shards in
  let padded := ceil_div width 32 * 32 in
  let cols := if width <? padded then padded * num_channel_shards else C in
  exists T out result,
    convert_conv_bias_tensor_to_tiled_layout_block_sharded Q assertions mem tensor
      num_channel_shards output_dtype = Ok result /\
    Ok result = create_tensor_from_owned_buffer Q T out
                  (default (get_dtype tensor) output_dtype) [1; 1; 32; cols] /\
    get_shape result = [1; 1; 32; cols] /\
    get_layout result = TILE /\
    Z.of_nat (length out) = 32 * cols /\
    (width <= padded < width + 32 /\ padded mod 32 = 0 /\
     num_channel_shards * padded <= cols) /\
    (forall oc k, 0 <= oc < num_channel_shards -> 0 <= k < width ->
       get out (oc * padded + k) = get data (oc * width + k)) /\
    (forall oc k, 0 <= oc < num_channel_shards -> width <= k < padded ->
       get out (oc * padded + k) = 0) /\
    (forall p, num_channel_shards * padded <= p -> get out p = 0).
Proof.
  intros Hshape Hdata Hlen Hn Hfit Hdtype Hassert Hconv width padded cols.
  set (n := num_channel_shards) in *.
  assert (Hw : 0 < width /\ width * n <= C).
  { subst width. split.
    - apply Z.div_str_pos. lia.
    - rewrite Z.mul_comm. apply Z.mul_div_le. lia. }
  pose proof (ceil_div_tile width ltac:(lia)) as Hpad. fold padded in Hpad.
  assert (Hpmod : padded mod 32 = 0) by (subst padded; apply Z.mod_mul; lia).
  assert (Hpn : padded * n <= C + 31 * n).
  { assert (padded * n <= (width + 31) * n) by (apply Z.mul_le_mono_nonneg_r; lia). lia. }
  assert (Hpp : 0 < padded) by lia.
  assert (Hcols : padded * n <= cols /\ 0 <= cols < 2 ^ 32).
  { subst cols. destruct (Z.ltb_spec width padded) as [Hlt|Hge].
    - assert (0 <= padded * n) by (apply Z.mul_nonneg_nonneg; lia). lia.
    - assert (width = padded) by lia.
      assert (padded * n = width * n) by congruence. lia. }
  unfold convert_conv_bias_tensor_to_tiled_layout_block_sharded,
    convert_tensor_to_tiled_layout_common.
  rewrite (common_assertions_pass assertions tensor output_dtype _ Hassert).
  assert (Hfind : exists T,
            map_find (get_dtype tensor) (to_b_tile_layout_map Q assertions mem)
            = Some (to_bias_tile_layout_block_sharded Q assertions mem T) /\
            is_float T = bool_decide (get_dtype tensor = FLOAT32)).
  { destruct Hdtype as [-> | [-> | ->]]; eexists; split; reflexivity. }
  destruct Hfind as (T & -> & Hfloat).
  unfold to_bias_tile_layout_block_sharded, get_legacy_shape.
  rewrite Hshape. cbn [dim nth].
  rewrite !Z.eqb_refl. cbn [andb].
  unfold TT_ASSERT at 1. rewrite andb_false_r. cbn [bind].
  rewrite (host_elements_convert mem tensor data _ Hdata).
  unfold c_div. fold n.
  destruct (n =? 0) eqn:En; [apply Z.eqb_eq in En; lia|]. cbn [bind].
  fold width. change TILE_WIDTH with 32. fold padded.
  rewrite (u32_small padded) by lia.
  rewrite (u32_small (padded * n)) by (assert (0 <= padded * n)
                                         by (apply Z.mul_nonneg_nonneg; lia); lia).
  fold cols.
  assert (Hvol64 : volume [1; 1; 32; cols] = 32 * cols).
  { unfold volume. cbn [product fold_right]. rewrite u64_small by lia. ring. }
  rewrite Hvol64.
  set (out0 := owned_buffer_create (32 * cols)).
  assert (Hout0 : Z.of_nat (length out0) = 32 * cols).
  { subst out0. apply owned_buffer_create_length. lia. }
  match goal with
  | |- context [for_loop n ?body out0] =>
      destruct (for_loop_level n padded (32 * cols) 0
                  (fun oc => level width 1 (fun k _ => Some (get data (oc * width + k))))
                  body out0 Hpp ltac:(lia) ltac:(lia)) as (out & Hrun & Hfill)
  end.
  { intros oc a Hoc Ha.
    apply (for_loop_level width 1 padded); [lia | lia | lia |].
    intros k b Hk Hb.
    assert (Hsrc : 0 <= oc * width + k < C).
    { assert (0 <= oc * width) by (apply Z.mul_nonneg_nonneg; lia).
      assert (oc * width <= (n - 1) * width) by (apply Z.mul_le_mono_nonneg_r; lia).
      lia. }
    assert (Hdst : 0 <= oc * padded + k < cols).
    { assert (0 <= oc * padded) by (apply Z.mul_nonneg_nonneg; lia).
      assert (oc * padded <= (n - 1) * padded) by (apply Z.mul_le_mono_nonneg_r; lia).
      lia. }
    rewrite !u32_small by lia.
    apply copy_element_at; [ring | lia | lia]. }
  rewrite Hrun. cbn [bind].
  destruct (create_tensor_from_owned_buffer_spec Q T out
              (default (get_dtype tensor) output_dtype) [1; 1; 32; cols]
              (tile_output_ok_dispatched tensor output_dtype T Hdtype Hfloat Hconv))
    as (result & Hres & Hsh & _ & Hlay & _).
  pose proof (is_fill_zeros _ _ _ _ Hfill) as Hget.
  exists T, out, result. rewrite Hres.
  split; [reflexivity|]. split; [reflexivity|].
  split; [exact Hsh|]. split; [exact Hlay|].
  split; [destruct Hfill; lia|].
  split; [repeat split; lia|].
  assert (Heval : forall oc k, 0 <= oc < n -> 0 <= k < padded ->
            get out (oc * padded + k)
            = if k <? width then get data (oc * width + k) else 0).
  { intros oc k Hoc Hk.
    assert (Hdst : 0 <= oc * padded + k < cols).
    { assert (0 <= oc * padded) by (apply Z.mul_nonneg_nonneg; lia).
      assert (oc * padded <= (n - 1) * padded) by (apply Z.mul_le_mono_nonneg_r; lia).
      lia. }
    rewrite Hget by lia.
    destruct (Z.ltb_spec (oc * padded + k) (32 * cols)); [|lia].
    rewrite level_at by lia.
    destruct (Z.ltb_spec k width).
    - replace k with (k * 1 + 0) at 1 by ring. rewrite level_at by lia. reflexivity.
    - rewrite level_beyond by lia. reflexivity. }
  split; [|split].
  - intros oc k Hoc Hk. rewrite Heval by lia.
    destruct (Z.ltb_spec k width); [reflexivity | lia].
  - intros oc k Hoc Hk. rewrite Heval by lia.
    destruct (Z.ltb_spec k width); [lia | reflexivity].
  - intros p Hp.
    assert (0 <= n * padded) by (apply Z.mul_nonneg_nonneg; lia).
    rewrite Hget by lia.
    destruct (Z.ltb_spec p (32 * cols)); [|reflexivity].
    rewrite level_beyond by lia. reflexivity.
Qed.

Lemma convert_conv_bias_block_sharded_matrix_witness :
  let Q := mkQuantizer (fun b => b) (fun b => b) in
  let mem : Memory := fun _ => [] in
  let bias := Tensor_of (OwnedStorage [7; 8; 9]) [1; 1; 1; 3] BFLOAT16 ROW_MAJOR in
  exists out result,
    convert_conv_bias_tensor_to_tiled_layout_block_sharded Q true mem bias 2 None
      = Ok result /\
    get_shape result = [1; 1; 32; 64] /\
    get out 0 = 7 /\ get out 32 = 8 /\ get out 1 = 0.
Proof.
  intros Q mem bias.
  destruct (convert_conv_bias_block_sharded_matrix Q true mem bias 2 None 3 [7; 8; 9])
    as (T & out & result & Hrun & _ & Hshape & _ & _ & _ & Hcopy & Hpad & _);
    try reflexivity; try lia.
  - left. reflexivity.
  - right. split; [reflexivity | intros d Hd; discriminate].
  - left. reflexivity.
  - exists out, result. split; [exact Hrun|]. split; [exact Hshape|].
    split; [exact (Hcopy 0 0 ltac:(lia) ltac:(vm_compute; split; congruence))|].
    split; [exact (Hcopy 1 0 ltac:(lia) ltac:(vm_compute; split; congruence))|].
    exact (Hpad 0 1 ltac:(lia) ltac:(vm_compute; split; congruence)).
Defined.

(** X3.  [convert_conv_weight_tensor_to_special_padding_tiled_layout] on a
    row-major host weight [K, C, R, S] whose [C * S] fits one block of
    [32 * in1_block_h] matrix rows: every kernel row [r] takes exactly one
    such block, so the matrix has [32 * in1_block_h * R] rows; inside block
    [r] the weight element (k, c, r, s) stands in row [s*C + c], column [k];
    the other rows of the block and the padding columns are zero; the
    result is produced when the conversion to tile layout has a repacking
    function for the output data type (FLOAT32, BFLOAT16, UINT32, or a
    packed type on a FLOAT32 weight), which is always so when no data type
    is requested.  When [C * S] does not fit the block and [assert] is
    checked, the conversion stops on the assertion.  In both cases the
    block sizes are positive, the sizes fit [uint32_t] and the checks made
    before the dispatch pass or are not compiled in. *)
Theorem convert_conv_weight_tensor_to_special_padding_matrix
    (Q : Quantizer) (assertions c_asserts : bool) (mem : Memory) (tensor : Tensor)
    (in1_block_h in1_block_w : Z) (output_dtype : option DataType)
    (K C R S : Z) (data : Buffer) :
  get_shape tensor = [K; C; R; S] ->
  host_elements mem tensor = Some data ->
  Z.of_nat (length data) = K * C * R * S ->
  0 < K -> 0 < C -> 0 < R -> 0 < S -> 0 < in1_block_h -> 0 < in1_block_w ->
  dispatched_dtype (get_dtype tensor) ->
  assertions = false \/ common_assertions_hold tensor output_dtype ->
  let block := in1_block_h * 32 in
  let cols := round_up K (in1_block_w * 32) in
  let rows := block * R in
  K + in1_block_w * 32 <= 2 ^ 32 ->
  C * S < 2 ^ 32 -> block < 2 ^ 32 ->
  (C * S <= block ->
   rows * cols < 2 ^ 32 ->
   output_dtype = None \/
   tile_output_ok (bool_decide (get_dtype tensor = FLOAT32))
     (default (get_dtype tensor) output_dtype) = true ->
   exists T out result,
     convert_conv_weight_tensor_to_special_padding_tiled_layout Q assertions c_asserts mem
       tensor in1_block_h in1_block_w output_dtype = Ok result /\
     Ok result = create_tensor_from_owned_buffer Q T out
                   (default (get_dtype tensor) output_dtype) [1; 1; rows; cols] /\
     get_shape result = [1; 1; rows; cols] /\
     get_layout result = TILE /\
     Z.of_nat (length out) = rows * cols /\
     (forall r s c k,
        0 <= r < R -> 0 <= s < S -> 0 <= c < C -> 0 <= k < K ->
        get out ((r * block + (s * C + c)) * cols + k)
        = get data (((k * C + c) * R + r) * S + s)) /\
     (forall r s c k,
        0 <= r < R -> 0 <= s < S -> 0 <= c < C -> K <= k < cols ->
        get out ((r * block + (s * C + c)) * cols + k) = 0) /\
     (forall r row k,
        0 <= r < R -> C * S <= row < block -> 0 <= k < cols ->
        get out ((r * block + row) * cols + k) = 0)) /\
  (block < C * S -> c_asserts = true ->
   convert_conv_weight_tensor_to_special_padding_tiled_layout Q assertions c_asserts mem
     tensor in1_block_h in1_block_w output_dtype
   = Fail (AssertFailed "in1_block_h_datums >= w_shape[1] * w_shape[3]")).
Proof.
  intros Hshape Hdata Hlen HK HC HR HS Hbh Hbw Hdtype Hassert block cols rows
    HfitK HCS Hblock.
  assert (HCSp : 0 < C * S) by (apply Z.mul_pos_pos; lia).
  pose proof (round_up_spec K (in1_block_w * 32) ltac:(lia) ltac:(lia)) as [Hcols _].
  fold cols in Hcols.
  assert (Hcp : 0 < cols) by lia.
  unfold convert_conv_weight_tensor_to_special_padding_tiled_layout,
    convert_tensor_to_tiled_layout_common.
  rewrite (common_assertions_pass assertions tensor output_dtype _ Hassert).
  assert (Hfind : exists T,
            map_find (get_dtype tensor) (to_w_special_padding_tile_layout_map Q c_asserts mem)
            = Some (to_weight_special_padding_tile_layout Q c_asserts mem T) /\
            is_float T = bool_decide (get_dtype tensor = FLOAT32)).
  { destruct Hdtype as [-> | [-> | ->]]; eexists; split; reflexivity. }
  destruct Hfind as (T & -> & Hfloat).
  unfold to_weight_special_padding_tile_layout, get_legacy_shape.
  rewrite Hshape. cbn [dim nth].
  rewrite (host_elements_convert mem tensor data _ Hdata).
  change TILE_WIDTH with 32. change TILE_HEIGHT with 32.
  fold block.
  rewrite (u32_small (in1_block_w * 32)), (u32_small block), (u32_small (C * S)) by lia.
  unfold c_mod.
  destruct (in1_block_w * 32 =? 0) eqn:E1; [apply Z.eqb_eq in E1; lia|]. cbn [bind].
  rewrite (padded_dimension K (in1_block_w * 32)) by lia.
  fold cols.
  split.
  - intros Hfits Hvol Hconv.
    unfold C_assert.
    destruct (Z.leb_spec (C * S) block) as [_|Habs]; [|lia].
    rewrite andb_false_r. cbn [bind].
    rewrite (u32_small (block - C * S)) by lia.
    replace (C * S + (block - C * S)) with block by ring.
    assert (Hbpos : 0 < block) by (unfold block; lia).
    assert (Hrows : 0 <= rows * cols)
      by (apply Z.mul_nonneg_nonneg; [unfold rows; apply Z.mul_nonneg_nonneg; lia | lia]).
    fold rows.
    assert (Hrp : 0 < rows) by (subst rows; apply Z.mul_pos_pos; lia).
    assert (Hrlt : rows < 2 ^ 32).
    { assert (rows * 1 <= rows * cols) by (apply Z.mul_le_mono_nonneg_l; lia). lia. }
    rewrite (u32_small rows) by lia.
    assert (Hvol64 : volume [1; 1; rows; cols] = rows * cols).
    { unfold volume. cbn [product fold_right]. rewrite u64_small by lia. ring. }
    rewrite Hvol64.
    set (out0 := owned_buffer_create (rows * cols)).
    assert (Hout0 : Z.of_nat (length out0) = rows * cols).
    { subst out0. apply owned_buffer_create_length. lia. }
    assert (HCc : 0 < C * cols) by (apply Z.mul_pos_pos; lia).
    assert (Hbc : 0 < block * cols) by (apply Z.mul_pos_pos; lia).
    assert (Hinner : S * (C * cols) <= block * cols).
    { replace (S * (C * cols)) with (C * S * cols) by ring.
      apply Z.mul_le_mono_nonneg_r; lia. }
    assert (Htotal : R * (block * cols) <= rows * cols) by (subst rows; lia).
    match goal with
    | |- context [for_loop R ?body out0] =>
        destruct (for_loop_level R (block * cols) (rows * cols) 0
                    (fun r => level S (C * cols) (fun s => level C cols (fun c =>
                       level K 1 (fun k _ =>
                         Some (get data (((k * C + c) * R + r) * S + s))))))
                    body out0 Hbc ltac:(lia) Htotal) as (out & Hrun & Hfill)
    end.
    { intros r a Hr Ha.
      apply (for_loop_level S (C * cols) (block * cols) (0 + r * (block * cols)));
        [exact HCc | lia | exact Hinner |].
      intros s b Hs Hb.
      apply (for_loop_level C cols (C * cols)); [exact Hcp | lia | lia |].
      intros c d Hc Hd.
      apply (for_loop_level K 1 cols); [lia | lia | lia |].
      intros k e Hk He.
      pose proof (flat_bound k c K C ltac:(lia) ltac:(lia)) as B1.
      pose proof (flat_bound (k * C + c) r (K * C) R B1 ltac:(lia)) as B2.
      pose proof (flat_bound ((k * C + c) * R + r) s (K * C * R) S B2 ltac:(lia)) as B3.
      pose proof (flat_bound s c S C ltac:(lia) ltac:(lia)) as D1.
      pose proof (flat_bound (s * C + c) k (S * C) cols D1 ltac:(lia)) as D2.
      pose proof (flat_bound r ((s * C + c) * cols + k) R (block * cols) ltac:(lia)
                    ltac:(lia)) as D3.
      assert (Hsrc : k * C * R * S + c * R * S + r * S + s = ((k * C + c) * R + r) * S + s)
        by ring.
      assert (Hdst : k + c * cols + s * C * cols + r * (S * C + (block - C * S)) * cols
                     = r * (block * cols) + ((s * C + c) * cols + k)) by ring.
      rewrite Hsrc, Hdst.
      assert (Hin : K * C * R * S <= rows * cols).
      { replace (K * C * R * S) with (K * (C * S * R)) by ring.
        rewrite (Z.mul_comm rows cols). apply Z.mul_le_mono_nonneg; try lia.
        subst rows. apply Z.mul_le_mono_nonneg_r; lia. }
      rewrite !u32_small by lia.
      apply copy_element_at; [ring | lia | lia]. }
    rewrite Hrun. cbn [bind].
    destruct (create_tensor_from_owned_buffer_spec Q T out
                (default (get_dtype tensor) output_dtype) [1; 1; rows; cols]
                (tile_output_ok_dispatched tensor output_dtype T Hdtype Hfloat Hconv))
      as (result & Hres & Hsh & _ & Hlay & _).
    pose proof (is_fill_zeros _ _ _ _ Hfill) as Hget.
    exists T, out, result. rewrite Hres.
    split; [reflexivity|]. split; [reflexivity|].
    split; [exact Hsh|]. split; [exact Hlay|].
    split; [destruct Hfill; lia|].
    assert (Hinside : forall r q, 0 <= r < R -> 0 <= q < block * cols ->
              0 <= r * (block * cols) + q < rows * cols).
    { intros r q Hr Hq.
      pose proof (flat_bound r q R (block * cols) Hr Hq). lia. }
    assert (Heval : forall r s c k,
              0 <= r < R -> 0 <= s < S -> 0 <= c < C -> 0 <= k < cols ->
              get out ((r * block + (s * C + c)) * cols + k)
              = if k <? K then get data (((k * C + c) * R + r) * S + s) else 0).
    { intros r s c k Hr Hs Hc Hk.
      pose proof (flat_bound s c S C Hs Hc) as D1.
      pose proof (flat_bound (s * C + c) k (S * C) cols D1 Hk) as D2.
      replace ((r * block + (s * C + c)) * cols + k)
        with (r * (block * cols) + ((s * C + c) * cols + k)) by ring.
      pose proof (Hinside r ((s * C + c) * cols + k) Hr ltac:(lia)) as Hp.
      rewrite Hget by lia.
      destruct (Z.ltb_spec (r * (block * cols) + ((s * C + c) * cols + k)) (rows * cols));
        [|lia].
      rewrite (level4_at R S C K (block * cols) cols
                 (fun r s c k => get data (((k * C + c) * R + r) * S + s)))
        by (assumption || lia).
      destruct (k <? K); reflexivity. }
    split; [|split].
    + intros r s c k Hr Hs Hc Hk. rewrite Heval by lia.
      destruct (Z.ltb_spec k K); [reflexivity | lia].
    + intros r s c k Hr Hs Hc Hk. rewrite Heval by lia.
      destruct (Z.ltb_spec k K); [lia | reflexivity].
    + intros r row k Hr Hrow Hk.
      pose proof (flat_bound row k block cols ltac:(lia) Hk) as D1.
      replace ((r * block + row) * cols + k)
        with (r * (block * cols) + (row * cols + k)) by ring.
      pose proof (Hinside r (row * cols + k) Hr ltac:(lia)) as Hp.
      rewrite Hget by lia.
      destruct (Z.ltb_spec (r * (block * cols) + (row * cols + k)) (rows * cols)); [|lia].
      rewrite level_at by lia.
      rewrite level_beyond; [reflexivity|].
      assert (C * S * cols <= row * cols) by (apply Z.mul_le_mono_nonneg_r; lia).
      lia.
  - intros Hsmall ->.
    unfold C_assert.
    destruct (Z.leb_spec (C * S) block) as [Habs|_]; [lia|].
    reflexivity.
Qed.

Lemma convert_conv_weight_tensor_to_special_padding_matrix_witness :
  let Q := mkQuantizer (fun b => b) (fun b => b) in
  let mem : Memory := fun _ => [] in
  let weight := Tensor_of (OwnedStorage [11; 12; 21; 22]) [2; 2; 1; 1] UINT32 ROW_MAJOR in
  exists out result,
    convert_conv_weight_tensor_to_special_padding_tiled_layout Q true true mem weight 1 1 None
      = Ok result /\
    get_shape result = [1; 1; 32; 32] /\
    get out 0 = 11 /\ get out 1 = 21 /\ get out 32 = 12 /\ get out 2 = 0.
Proof.
  intros Q mem weight.
  destruct (convert_conv_weight_tensor_to_special_padding_matrix
              Q true true mem weight 1 1 None 2 2 1 1 [11; 12; 21; 22])
    as [Hfits _]; try reflexivity; try lia.
  - right. right. reflexivity.
  - right. split; [reflexivity | intros d Hd; discriminate].
  - destruct Hfits as (T & out & result & Hrun & _ & Hshape & _ & _ & Hcopy & Hpad & _).
    + vm_compute. discriminate.
    + reflexivity.
    + left. reflexivity.
    + exists out, result. split; [exact Hrun|]. split; [exact Hshape|].
      split; [exact (Hcopy 0 0 0 0 ltac:(lia) ltac:(lia) ltac:(lia) ltac:(lia))|].
      split; [exact (Hcopy 0 0 0 1 ltac:(lia) ltac:(lia) ltac:(lia) ltac:(lia))|].
      split; [exact (Hcopy 0 0 1 0 ltac:(lia) ltac:(lia) ltac:(lia) ltac:(lia))|].
      exact (Hpad 0 0 0 2 ltac:(lia) ltac:(lia) ltac:(lia)
               ltac:(vm_compute; split; congruence)).
Defined.

(** X4.  [convert_conv_weight_tensor_to_tiled_layout_block_sharded] on a
    row-major host weight [K, C, R, S] whose channel counts are divisible by
    [num_channel_shards]: the matrix is a grid of [num_channel_shards] by
    [num_channel_shards] blocks; block (ic, oc) holds the weights between
    input-channel shard [ic] and output-channel shard [oc], its height
    [(C / n) * R * S] and its width [K / n] each padded with zeros to the
    next multiple of 32, so that every shard boundary falls on a tile
    boundary.  The padded dimensions and the element count of the matrix fit
    [uint32_t], the checks made before the dispatch pass or are not compiled
    in, and the conversion to tile layout has a repacking function for the
    output data type (FLOAT32, BFLOAT16, UINT32, or a packed type on a
    FLOAT32 weight), which is always so when no data type is requested. *)
Theorem convert_conv_weight_block_sharded_matrix
    (Q : Quantizer) (assertions : bool) (mem : Memory) (tensor : Tensor)
    (num_channel_shards : Z) (output_dtype : option DataType)
    (K C R S : Z) (data : Buffer) :
  get_shape tensor = [K; C; R; S] ->
  host_elements mem tensor = Some data ->
  Z.of_nat (length data) = K * C * R * S ->
  0 < K -> 0 < C -> 0 < R -> 0 < S -> 0 < num_channel_shards ->
  K mod num_channel_shards = 0 -> C mod num_channel_shards = 0 ->
  dispatched_dtype (get_dtype tensor) ->
  assertions = false \/ common_assertions_hold tensor output_dtype ->
  output_dtype = None \/
  tile_output_ok (bool_decide (get_dtype tensor = FLOAT32))
    (default (get_dtype tensor) output_dtype) = true ->
  let n := num_channel_shards in
  let kw := K / n in
  let cw := C / n in
  let kw_padded := ceil_div kw 32 * 32 in
  let bh := cw * R * S in
  let bh_padded := ceil_div bh 32 * 32 in
  let cols := kw_padded * n in
  let rows := bh_padded * n in
  K + 32 * n <= 2 ^ 32 -> C * R * S + 32 * n <= 2 ^ 32 -> rows * cols < 2 ^ 32 ->
  exists T out result,
    convert_conv_weight_tensor_to_tiled_layout_block_sharded Q assertions mem tensor
      num_channel_shards output_dtype = Ok result /\
    Ok result = create_tensor_from_owned_buffer Q T out
                  (default (get_dtype tensor) output_dtype) [1; 1; rows; cols] /\
    get_shape result = [1; 1; rows; cols] /\
    get_layout result = TILE /\
    Z.of_nat (length out) = rows * cols /\
    (kw <= kw_padded < kw + 32 /\ kw_padded mod 32 = 0 /\
     bh <= bh_padded < bh + 32 /\ bh_padded mod 32 = 0) /\
    (forall ic r s c oc k,
       0 <= ic < n -> 0 <= r < R -> 0 <= s < S -> 0 <= c < cw ->
       0 <= oc < n -> 0 <= k < kw ->
       get out ((ic * bh_padded + ((r * S + s) * cw + c)) * cols + (oc * kw_padded + k))
       = get data ((((oc * kw + k) * C + (ic * cw + c)) * R + r) * S + s)) /\
    (forall ic r s c oc k,
       0 <= ic < n -> 0 <= r < R -> 0 <= s < S -> 0 <= c < cw ->
       0 <= oc < n -> kw <= k < kw_padded ->
       get out ((ic * bh_padded + ((r * S + s) * cw + c)) * cols + (oc * kw_padded + k))
       = 0) /\
    (forall ic row col,
       0 <= ic < n -> bh <= row < bh_padded -> 0 <= col < cols ->
       get out ((ic * bh_padded + row) * cols + col) = 0).
Proof.
  intros Hshape Hdata Hlen HK HC HR HS Hn HKn HCn Hdtype Hassert Hconv
    n kw cw kw_padded bh bh_padded cols rows HfitK HfitC Hvol.
  assert (HKeq : K = kw * n).
  { subst kw. pose proof (Z.div_mod K n ltac:(lia)) as E. fold n in HKn.
    rewrite HKn in E. lia. }
  assert (HCeq : C = cw * n).
  { subst cw. pose proof (Z.div_mod C n ltac:(lia)) as E. fold n in HCn.
    rewrite HCn in E. lia. }
  assert (Hkw : 0 < kw).
  { destruct (Z.lt_ge_cases 0 kw) as [Hpos|Hneg]; [exact Hpos|].
    assert (kw * n <= 0 * n) by (apply Z.mul_le_mono_nonneg_r; lia). lia. }
  assert (Hcw : 0 < cw).
  { destruct (Z.lt_ge_cases 0 cw) as [Hpos|Hneg]; [exact Hpos|].
    assert (cw * n <= 0 * n) by (apply Z.mul_le_mono_nonneg_r; lia). lia. }
  assert (Hbh : 0 < bh) by (subst bh; repeat apply Z.mul_pos_pos; lia).
  pose proof (ceil_div_tile kw ltac:(lia)) as Hkp. fold kw_padded in Hkp.
  pose proof (ceil_div_tile bh ltac:(lia)) as Hbp. fold bh_padded in Hbp.
  assert (Hkmod : kw_padded mod 32 = 0) by (subst kw_padded; apply Z.mod_mul; lia).
  assert (Hbmod : bh_padded mod 32 = 0) by (subst bh_padded; apply Z.mod_mul; lia).
  assert (Hcols : K <= cols <= K + 31 * n).
  { subst cols. rewrite HKeq. split.
    - apply Z.mul_le_mono_nonneg_r; lia.
    - assert (kw_padded * n <= (kw + 31) * n) by (apply Z.mul_le_mono_nonneg_r; lia).
      lia. }
  assert (HCRS : C * R * S = bh * n) by (subst bh; rewrite HCeq; ring).
  assert (Hrows : C * R * S <= rows <= C * R * S + 31 * n).
  { subst rows. rewrite HCRS. split.
    - apply Z.mul_le_mono_nonneg_r; lia.
    - assert (bh_padded * n <= (bh + 31) * n) by (apply Z.mul_le_mono_nonneg_r; lia).
      lia. }
  assert (Hcp : 0 < cols) by lia.
  assert (Hrp : 0 < rows).
  { assert (0 < C * R * S) by (rewrite HCRS; apply Z.mul_pos_pos; lia). lia. }
  assert (Hrc : 0 < rows * cols) by (apply Z.mul_pos_pos; lia).
  assert (Hclt : cols < 2 ^ 32) by lia.
  assert (Hrlt : rows < 2 ^ 32) by lia.
  unfold convert_conv_weight_tensor_to_tiled_layout_block_sharded,
    convert_tensor_to_tiled_layout_common.
  rewrite (common_assertions_pass assertions tensor output_dtype _ Hassert).
  assert (Hfind : exists T,
            map_find (get_dtype tensor) (to_w_tile_layout_block_sharded_map Q assertions mem)
            = Some (to_weight_tile_layout_block_sharded Q assertions mem T) /\
            is_float T = bool_decide (get_dtype tensor = FLOAT32)).
  { destruct Hdtype as [-> | [-> | ->]]; eexists; split; reflexivity. }
  destruct Hfind as (T & -> & Hfloat).
  unfold to_weight_tile_layout_block_sharded, get_legacy_shape.
  rewrite Hshape. cbn [dim nth].
  rewrite (host_elements_convert mem tensor data _ Hdata).
  fold n. unfold c_mod, c_div.
  destruct (n =? 0) eqn:En; [apply Z.eqb_eq in En; lia|].
  fold n in HKn, HCn. rewrite HKn, HCn.
  assert (Hasserts_pass :
            (if assertions
             then let* r := Ok 0 in
                  TT_ASSERT assertions (r =? 0) "weight_matrix_cols % num_channel_shards == 0"
             else Ok tt) = Ok tt)
    by (destruct assertions; reflexivity).
  assert (Hasserts_pass2 :
            (if assertions
             then let* r := Ok 0 in
                  TT_ASSERT assertions (r =? 0) "w_shape[1] % num_channel_shards == 0"
             else Ok tt) = Ok tt)
    by (destruct assertions; reflexivity).
  rewrite Hasserts_pass, Hasserts_pass2. cbn [bind].
  fold kw cw. change TILE_WIDTH with 32. change TILE_HEIGHT with 32.
  fold kw_padded.
  rewrite (u32_small kw_padded) by lia.
  fold cols. rewrite (u32_small cols) by lia.
  assert (Ecols : (if kw <? kw_padded then cols else K) = cols).
  { destruct (Z.ltb_spec kw kw_padded); [reflexivity|].
    assert (kw = kw_padded) by lia. subst cols. congruence. }
  rewrite Ecols.
  rewrite (u32_small (C * R * S)) by lia.
  fold bh. rewrite (u32_small bh) by lia.
  fold bh_padded. rewrite (u32_small bh_padded) by lia.
  fold rows. rewrite (u32_small rows) by lia.
  assert (Erows : (if bh <? bh_padded then rows else C * R * S) = rows).
  { destruct (Z.ltb_spec bh bh_padded); [reflexivity|].
    assert (bh = bh_padded) by lia. subst rows. rewrite HCRS. congruence. }
  rewrite Erows.
  assert (Hvol64 : volume [1; 1; rows; cols] = rows * cols).
  { unfold volume. cbn [product fold_right]. rewrite u64_small by lia. ring. }
  rewrite Hvol64.
  set (out0 := owned_buffer_create (rows * cols)).
  assert (Hout0 : Z.of_nat (length out0) = rows * cols).
  { subst out0. apply owned_buffer_create_length. lia. }
  set (src := fun ic r s c oc k =>
                get data ((((oc * kw + k) * C + (ic * cw + c)) * R + r) * S + s)).
  set (F := fun ic => level R (S * (cw * cols)) (fun r =>
                      level S (cw * cols) (fun s =>
                      level cw cols (fun c =>
                      level n kw_padded (fun oc =>
                      level kw 1 (fun k _ => Some (src ic r s c oc k))))))).
  assert (Hcwc : 0 < cw * cols) by (apply Z.mul_pos_pos; lia).
  assert (HScwc : 0 < S * (cw * cols)) by (apply Z.mul_pos_pos; lia).
  assert (Hbpc : 0 < bh_padded * cols) by (apply Z.mul_pos_pos; lia).
  assert (Hblock : R * (S * (cw * cols)) <= bh_padded * cols).
  { replace (R * (S * (cw * cols))) with (bh * cols) by (subst bh; ring).
    apply Z.mul_le_mono_nonneg_r; lia. }
  assert (Htotal : n * (bh_padded * cols) <= rows * cols) by (subst rows; lia).
  match goal with
  | |- context [for_loop n ?body out0] =>
      destruct (for_loop_level n (bh_padded * cols) (rows * cols) 0 F
                  body out0 Hbpc ltac:(lia) Htotal) as (out & Hrun & Hfill)
  end.
  { intros ic a Hic Ha. subst F. cbv beta.
    apply (for_loop_level R (S * (cw * cols)) (bh_padded * cols)
             (0 + ic * (bh_padded * cols))); [exact HScwc | lia | exact Hblock |].
    intros r b Hr Hb.
    apply (for_loop_level S (cw * cols) (S * (cw * cols))); [exact Hcwc | lia | lia |].
    intros s c0 Hs Hc0.
    apply (for_loop_level cw cols (cw * cols)); [exact Hcp | lia | lia |].
    intros c d Hc Hd.
    apply (for_loop_level n kw_padded cols); [lia | lia | subst cols; lia |].
    intros oc e Hoc He.
    apply (for_loop_level kw 1 kw_padded); [lia | lia | lia |].
    intros k f Hk Hf.
    subst src. cbv beta.
    assert (B0 : 0 <= oc * kw + k < K)
      by (pose proof (flat_bound oc k n kw Hoc Hk); lia).
    assert (B0' : 0 <= ic * cw + c < C)
      by (pose proof (flat_bound ic c n cw Hic Hc); lia).
    pose proof (flat_bound (oc * kw + k) (ic * cw + c) K C B0 B0') as B1.
    pose proof (flat_bound ((oc * kw + k) * C + (ic * cw + c)) r (K * C) R B1 Hr) as B2.
    pose proof (flat_bound (((oc * kw + k) * C + (ic * cw + c)) * R + r) s
                  (K * C * R) S B2 Hs) as B3.
    pose proof (flat_bound oc k n kw_padded Hoc ltac:(lia)) as D0.
    pose proof (flat_bound r s R S Hr Hs) as D1.
    pose proof (flat_bound (r * S + s) c (R * S) cw D1 Hc) as D2.
    assert (D2' : (r * S + s) * cw + c < bh_padded) by (subst bh; lia).
    pose proof (flat_bound ic ((r * S + s) * cw + c) n bh_padded Hic ltac:(lia)) as D3.
    pose proof (flat_bound (ic * bh_padded + ((r * S + s) * cw + c)) (oc * kw_padded + k)
                  (n * bh_padded) cols D3 ltac:(subst cols; lia)) as D4.
    assert (Hsrc : (oc * kw + k) * C * R * S + (ic * cw + c) * R * S + r * S + s
                   = (((oc * kw + k) * C + (ic * cw + c)) * R + r) * S + s) by ring.
    assert (Hdst : oc * kw_padded + k + c * cols + s * cw * cols + r * S * cw * cols
                   + ic * bh_padded * cols
                   = (ic * bh_padded + ((r * S + s) * cw + c)) * cols
                     + (oc * kw_padded + k)) by ring.
    rewrite Hsrc, Hdst.
    assert (Hin : K * C * R * S <= rows * cols).
    { replace (K * C * R * S) with (K * (C * R * S)) by ring.
      rewrite (Z.mul_comm rows cols). apply Z.mul_le_mono_nonneg; lia. }
    assert (Hnb : n * bh_padded * cols = rows * cols) by (subst rows; ring).
    rewrite !u32_small by lia.
    apply copy_element_at; [ring | lia | lia]. }
  rewrite Hrun. cbn [bind].
  destruct (create_tensor_from_owned_buffer_spec Q T out
              (default (get_dtype tensor) output_dtype) [1; 1; rows; cols]
              (tile_output_ok_dispatched tensor output_dtype T Hdtype Hfloat Hconv))
    as (result & Hres & Hsh & _ & Hlay & _).
  pose proof (is_fill_zeros _ _ _ _ Hfill) as Hget.
  exists T, out, result. rewrite Hres.
  split; [reflexivity|]. split; [reflexivity|].
  split; [exact Hsh|]. split; [exact Hlay|].
  split; [destruct Hfill; lia|].
  split; [repeat split; lia|].
  assert (Hinside : forall ic row col,
            0 <= ic < n -> 0 <= row < bh_padded -> 0 <= col < cols ->
            (ic * bh_padded + row) * cols + col
            = ic * (bh_padded * cols) + (row * cols + col) /\
            0 <= row * cols + col < bh_padded * cols /\
            0 <= ic * (bh_padded * cols) + (row * cols + col) < rows * cols).
  { intros ic row col Hic Hrow Hcol.
    pose proof (flat_bound row col bh_padded cols Hrow Hcol) as D1.
    pose proof (flat_bound ic (row * cols + col) n (bh_padded * cols) Hic D1) as D2.
    split; [ring|]. split; [exact D1 | lia]. }
  assert (Heval : forall ic r s c oc k,
            0 <= ic < n -> 0 <= r < R -> 0 <= s < S -> 0 <= c < cw ->
            0 <= oc < n -> 0 <= k < kw_padded ->
            get out ((ic * bh_padded + ((r * S + s) * cw + c)) * cols + (oc * kw_padded + k))
            = if k <? kw then src ic r s c oc k else 0).
  { intros ic r s c oc k Hic Hr Hs Hc Hoc Hk.
    pose proof (flat_bound oc k n kw_padded Hoc Hk) as D0.
    pose proof (flat_bound r s R S Hr Hs) as D1.
    pose proof (flat_bound (r * S + s) c (R * S) cw D1 Hc) as D2.
    assert (D2' : (r * S + s) * cw + c < bh_padded) by (subst bh; lia).
    destruct (Hinside ic ((r * S + s) * cw + c) (oc * kw_padded + k) Hic ltac:(lia)
                ltac:(subst cols; lia)) as (-> & Hq & Hp).
    rewrite Hget by lia.
    destruct (Z.ltb_spec (ic * (bh_padded * cols)
                          + (((r * S + s) * cw + c) * cols + (oc * kw_padded + k)))
                (rows * cols)); [|lia].
    rewrite level_at by lia. subst F. cbv beta.
    pose proof (flat_bound c (oc * kw_padded + k) cw cols Hc ltac:(subst cols; lia)) as E1.
    pose proof (flat_bound s (c * cols + (oc * kw_padded + k)) S (cw * cols) Hs E1) as E2.
    replace (((r * S + s) * cw + c) * cols + (oc * kw_padded + k))
      with (r * (S * (cw * cols)) + (s * (cw * cols) + (c * cols + (oc * kw_padded + k))))
      by ring.
    rewrite level_at by lia.
    rewrite level_at by lia.
    rewrite level_at by (subst cols; lia).
    rewrite level_at by lia.
    destruct (Z.ltb_spec k kw).
    - replace k with (k * 1 + 0) at 1 by ring. rewrite level_at by lia. reflexivity.
    - rewrite level_beyond by lia. reflexivity. }
  split; [|split].
  - intros ic r s c oc k Hic Hr Hs Hc Hoc Hk. rewrite Heval by lia.
    destruct (Z.ltb_spec k kw); [reflexivity | lia].
  - intros ic r s c oc k Hic Hr Hs Hc Hoc Hk. rewrite Heval by lia.
    destruct (Z.ltb_spec k kw); [lia | reflexivity].
  - intros ic row col Hic Hrow Hcol.
    destruct (Hinside ic row col Hic ltac:(lia) Hcol) as (-> & Hq & Hp).
    rewrite Hget by lia.
    destruct (Z.ltb_spec (ic * (bh_padded * cols) + (row * cols + col)) (rows * cols));
      [|lia].
    rewrite level_at by lia. subst F. cbv beta.
    rewrite level_beyond; [reflexivity|].
    replace (R * (S * (cw * cols))) with (bh * cols) by (subst bh; ring).
    assert (bh * cols <= row * cols) by (apply Z.mul_le_mono_nonneg_r; lia).
    lia.
Qed.

Lemma convert_conv_weight_block_sharded_matrix_witness :
  let Q := mkQuantizer (fun b => b) (fun b => b) in
  let mem : Memory := fun _ => [] in
  let weight := Tensor_of (OwnedStorage [11; 12; 21; 22]) [2; 2; 1; 1] UINT32 ROW_MAJOR in
  exists out result,
    convert_conv_weight_tensor_to_tiled_layout_block_sharded Q true mem weight 2 None
      = Ok result /\
    get_shape result = [1; 1; 64; 64] /\
    get out 0 = 11 /\ get out 32 = 21 /\ get out 2048 = 12 /\ get out 1 = 0.
Proof.
  intros Q mem weight.
  destruct (convert_conv_weight_block_sharded_matrix
              Q true mem weight 2 None 2 2 1 1 [11; 12; 21; 22])
    as (T & out & result & Hrun & _ & Hshape & _ & _ & _ & Hcopy & Hpad & _);
    try reflexivity; try lia.
  - right. right. reflexivity.
  - right. split; [reflexivity | intros d Hd; discriminate].
  - left. reflexivity.
  - exists out, result. split; [exact Hrun|]. split; [exact Hshape|].
    split; [exact (Hcopy 0 0 0 0 0 0 ltac:(lia) ltac:(lia) ltac:(lia)
                     ltac:(vm_compute; split; congruence) ltac:(lia)
                     ltac:(vm_compute; split; congruence))|].
    split; [exact (Hcopy 0 0 0 0 1 0 ltac:(lia) ltac:(lia) ltac:(lia)
                     ltac:(vm_compute; split; congruence) ltac:(lia)
                     ltac:(vm_compute; split; congruence))|].
    split; [exact (Hcopy 1 0 0 0 0 0 ltac:(lia) ltac:(lia) ltac:(lia)
                     ltac:(vm_compute; split; congruence) ltac:(lia)
                     ltac:(vm_compute; split; congruence))|].
    exact (Hpad 0 0 0 0 0 1 ltac:(lia) ltac:(lia) ltac:(lia)
             ltac:(vm_compute; split; congruence) ltac:(lia)
             ltac:(vm_compute; split; congruence)).
Defined.

(** X5.  [convert_conv_weight_tensor_to_depthwise_layout] on a weight
    [O, I, H, W] with positive dimensions and a positive
    [act_block_h_ntiles], of any of the seven dispatched data types, in
    row-major layout or with assertions not compiled in: whenever the view
    of the weight as a borrowed buffer ([borrowed_buffer::get_as], defined
    outside the sources and taken as given) yields its [O * I * H * W]
    elements, and the output has fewer than 2^31 elements, the result is a
    row-major (not tiled) host tensor [O, 32 * act_block_h_ntiles, H, W] in
    which every input channel [j] repeats input channel 0 of the original;
    a packed output data type (BFLOAT8_B, BFLOAT4_B) is replaced by FLOAT32
    before the common checks, so the only assertion left is the one on the
    layout. *)
Theorem convert_conv_weight_tensor_to_depthwise_layout_broadcast
    (assertions : bool) (borrowed_get_as : Tensor -> Result Buffer) (tensor : Tensor)
    (act_block_h_ntiles : Z) (output_dtype : DataType)
    (O I H W : Z) (data : Buffer) :
  get_shape tensor = [O; I; H; W] ->
  borrowed_get_as tensor = Ok data ->
  Z.of_nat (length data) = O * I * H * W ->
  0 < O -> 0 < I -> 0 < H -> 0 < W -> 0 < act_block_h_ntiles ->
  get_dtype tensor <> UINT8 -> get_dtype tensor <> INVALID ->
  assertions = false \/ get_layout tensor = ROW_MAJOR ->
  let J := act_block_h_ntiles * 32 in
  O * J * H * W < 2 ^ 31 ->
  exists out,
    convert_conv_weight_tensor_to_depthwise_layout assertions borrowed_get_as
      tensor act_block_h_ntiles output_dtype
    = Ok (Tensor_of (OwnedStorage out) [O; J; H; W]
            (if is_packed output_dtype then FLOAT32 else output_dtype) ROW_MAJOR) /\
    Z.of_nat (length out) = O * J * H * W /\
    (forall i j k l,
       0 <= i < O -> 0 <= j < J -> 0 <= k < H -> 0 <= l < W ->
       get out (((i * J + j) * H + k) * W + l) = get data (((i * I + 0) * H + k) * W + l)).
Proof.
  intros Hshape Hdata Hlen HO HI HH HW Hact Hd1 Hd2 Hassert J Hvol.
  assert (HJ : 0 < J) by (subst J; lia).
  assert (HHW : 0 < H * W) by (apply Z.mul_pos_pos; lia).
  assert (HJHW : 0 < J * (H * W)) by (apply Z.mul_pos_pos; lia).
  assert (HOJ : J * (H * W) <= O * (J * (H * W)))
    by (replace (J * (H * W)) with (1 * (J * (H * W))) at 1 by ring;
        apply Z.mul_le_mono_nonneg_r; lia).
  assert (HJlt : J < 2 ^ 31).
  { assert (J * 1 <= J * (H * W)) by (apply Z.mul_le_mono_nonneg_l; lia). lia. }
  unfold convert_conv_weight_tensor_to_depthwise_layout,
    convert_tensor_to_tiled_layout_common.
  set (od := if is_packed output_dtype then FLOAT32 else output_dtype).
  assert (Hod : is_packed od = false) by (subst od; destruct output_dtype; reflexivity).
  rewrite (common_assertions_pass assertions tensor (Some od)).
  2:{ destruct Hassert as [Hoff | Hlayout]; [left; exact Hoff | right].
      split; [exact Hlayout|]. intros d [= <-] Hp. congruence. }
  cbn [default option_map from_option]. rewrite Hshape. cbn [dim nth].
  change TILE_HEIGHT with 32. fold J. rewrite (u32_small J) by lia.
  assert (Hfind : exists T,
            map_find (get_dtype tensor)
              (to_depthwise_layout_map borrowed_get_as)
            = Some (conv_depthwise_weight_bcast_helper borrowed_get_as T)).
  { exists T_float. destruct (get_dtype tensor); try congruence; reflexivity. }
  destruct Hfind as (T & ->).
  unfold conv_depthwise_weight_bcast_helper. cbn [dim nth].
  rewrite Hdata. cbn [bind].
  assert (Hvol64 : volume [O; J; H; W] = O * (J * (H * W))).
  { unfold volume. cbn [product fold_right].
    rewrite u64_small by lia. ring. }
  rewrite Hvol64.
  set (out0 := owned_buffer_create (O * (J * (H * W)))).
  assert (Hout0 : Z.of_nat (length out0) = O * (J * (H * W))).
  { subst out0. apply owned_buffer_create_length. lia. }
  set (src := fun i k l => get data (((i * I + 0) * H + k) * W + l)).
  set (F := fun i => level J (H * W) (fun j =>
                     level H W (fun k =>
                     level W 1 (fun l _ => Some (src i k l))))).
  match goal with
  | |- context [for_loop O ?body out0] =>
      destruct (for_loop_level O (J * (H * W)) (O * (J * (H * W))) 0 F
                  body out0 HJHW ltac:(lia) ltac:(lia)) as (out & Hrun & Hfill)
  end.
  { intros i a Hi Ha. subst F. cbv beta.
    apply (for_loop_level J (H * W) (J * (H * W))); [exact HHW | lia | lia |].
    intros j b Hj Hb.
    apply (for_loop_level H W (H * W)); [lia | lia | lia |].
    intros k c Hk Hc.
    apply (for_loop_level W 1 W); [lia | lia | lia |].
    intros l d Hl Hd'.
    rewrite !flat_index_4. subst src. cbv beta.
    pose proof (flat_bound i 0 O I Hi ltac:(lia)) as B1.
    pose proof (flat_bound (i * I + 0) k (O * I) H B1 Hk) as B2.
    pose proof (flat_bound ((i * I + 0) * H + k) l (O * I * H) W B2 Hl) as B3.
    pose proof (flat_bound i j O J Hi Hj) as D1.
    pose proof (flat_bound (i * J + j) k (O * J) H D1 Hk) as D2.
    pose proof (flat_bound ((i * J + j) * H + k) l (O * J * H) W D2 Hl) as D3.
    replace (i * (I * (H * W)) + (0 * (H * W) + (k * W + l * 1)))
      with (((i * I + 0) * H + k) * W + l) by ring.
    apply (copy_element_at data d _ _ (0 + i * (J * (H * W)) + j * (H * W) + k * W) l);
      [ring | lia | lia]. }
  rewrite Hrun. cbn [bind].
  pose proof (is_fill_zeros _ _ _ _ Hfill) as Hget.
  exists out. split; [reflexivity|].
  split; [destruct Hfill; lia|].
  intros i j k l Hi Hj Hk Hl.
  pose proof (flat_bound k l H W Hk Hl) as E1.
  pose proof (flat_bound j (k * W + l) J (H * W) Hj E1) as E2.
  pose proof (flat_bound i (j * (H * W) + (k * W + l)) O (J * (H * W)) Hi E2) as E3.
  replace (((i * J + j) * H + k) * W + l)
    with (i * (J * (H * W)) + (j * (H * W) + (k * W + l))) by ring.
  rewrite Hget by lia.
  destruct (Z.ltb_spec (i * (J * (H * W)) + (j * (H * W) + (k * W + l)))
              (O * (J * (H * W)))); [|lia].
  rewrite level_at by lia. subst F. cbv beta.
  rewrite level_at by lia.
  rewrite level_at by lia.
  replace l with (l * 1 + 0) at 1 by ring. rewrite level_at by lia.
  reflexivity.
Qed.

Lemma convert_conv_weight_tensor_to_depthwise_layout_broadcast_witness :
  let mem : Memory := fun a => if Nat.eqb a 7 then [5; 6] else [] in
  let borrowed_get_as := fun t =>
    match get_storage t with
    | BorrowedStorage a => Ok (mem a)
    | _ => Fail (Thrown "the tensor is not in borrowed storage")
    end in
  let weight := Tensor_of (BorrowedStorage 7%nat) [2; 1; 1; 1] INT32 ROW_MAJOR in
  exists out,
    convert_conv_weight_tensor_to_depthwise_layout true borrowed_get_as weight 1 BFLOAT8_B
    = Ok (Tensor_of (OwnedStorage out) [2; 32; 1; 1] FLOAT32 ROW_MAJOR) /\
    get out 0 = 5 /\ get out 31 = 5 /\ get out 32 = 6.
Proof.
  intros mem borrowed_get_as weight.
  destruct (convert_conv_weight_tensor_to_depthwise_layout_broadcast
              true borrowed_get_as weight 1 BFLOAT8_B 2 1 1 1 [5; 6]
              eq_refl eq_refl eq_refl ltac:(lia) ltac:(lia) ltac:(lia) ltac:(lia) ltac:(lia)
              ltac:(discriminate) ltac:(discriminate) (or_intror eq_refl) ltac:(lia))
    as (out & Hrun & _ & Hcopy).
  exists out. split; [exact Hrun|].
  split; [exact (Hcopy 0 0 0 0 ltac:(lia) ltac:(lia) ltac:(lia) ltac:(lia))|].
  split; [exact (Hcopy 0 31 0 0 ltac:(lia) ltac:(lia) ltac:(lia) ltac:(lia))|].
  exact (Hcopy 1 0 0 0 ltac:(lia) ltac:(lia) ltac:(lia) ltac:(lia)).
Defined.

Lemma product_app (a b : list Z) : product (a ++ b) = product a * product b.
Proof.
  unfold product. induction a as [|x a IH]; simpl.
  - destruct (fold_right Z.mul 1 b); reflexivity.
  - rewrite IH. ring.
Qed.

Lemma product_pos (dims : list Z) :
  Forall (fun d => 0 < d) dims -> 0 < product dims.
Proof.
  induction 1 as [|d dims Hd _ IH]; simpl; [lia|].
  apply Z.mul_pos_pos; assumption.
Qed.

Lemma contains_zero_positive (dims : list Z) :
  Forall (fun d => 0 < d) dims -> contains_zero dims = false.
Proof.
  induction 1 as [|d dims Hd _ IH]; [reflexivity|].
  unfold contains_zero in *. cbn [existsb]. rewrite IH.
  destruct (Z.eqb_spec d 0); [lia | reflexivity].
Qed.

Lemma insert_middle (pre post : list Z) (x y : Z) :
  <[length pre := y]> (pre ++ x :: post) = pre ++ y :: post.
Proof.
  induction pre as [|d pre IH]; simpl; [reflexivity|].
  f_equal. exact IH.
Qed.

(** The scan up to and beyond the only wildcard: its position is recorded
    and the other dimensions are multiplied. *)
Lemma scan_dims_around_wildcard (shape : list Z) (post : list Z) :
  forall pre index st,
    ~ In (-1) pre -> ~ In (-1) post ->
    index_of_negative_1 st = -1 ->
    scan_dims shape (pre ++ -1 :: post) index st =
      Ok (mkScanState (scanned_volume (new_volume st) (pre ++ post))
                      (index + Z.of_nat (length pre))
                      (contains_zero (pre ++ post) || has_zero st)).
Proof.
  induction pre as [|d pre IH]; intros index st Hpre Hpost Hidx.
  - cbn [app scan_dims]. rewrite Hidx. cbn [Z.eqb Pos.eqb negb].
    rewrite (scan_dims_without_wildcard shape post _ _ Hpost).
    cbn [new_volume index_of_negative_1 has_zero length Z.of_nat].
    rewrite Z.add_0_r. reflexivity.
  - cbn [app scan_dims].
    destruct (d =? -1) eqn:Hd.
    + apply Z.eqb_eq in Hd. exfalso. apply Hpre. left. auto.
    + rewrite IH; [| intros Hin; apply Hpre; right; exact Hin | exact Hpost | exact Hidx].
      cbn [new_volume index_of_negative_1 has_zero].
      f_equal. f_equal.
      * cbn [length]. lia.
      * unfold contains_zero. cbn [existsb].
        destruct (d =? 0); simpl; [rewrite orb_true_r|]; reflexivity.
Qed.

(** Once a wildcard has been seen, a further one stops the scan. *)
Lemma scan_dims_second_wildcard (shape : list Z) :
  forall rest index st,
    index_of_negative_1 st <> -1 -> In (-1) rest ->
    scan_dims shape rest index st = Fail (Thrown (more_than_one_wildcard_msg shape)).
Proof.
  induction rest as [|d rest IH]; intros index st Hidx Hin; [destruct Hin|].
  cbn [scan_dims].
  destruct (Z.eqb_spec d (-1)) as [->|Hne].
  - destruct (Z.eqb_spec (index_of_negative_1 st) (-1)); [contradiction | reflexivity].
  - apply IH; [exact Hidx|]. destruct Hin as [Hin|Hin]; [congruence | exact Hin].
Qed.

Lemma scan_dims_two_wildcards (shape : list Z) :
  forall rest index st,
    (2 <= count_occ Z.eq_dec rest (-1)%Z)%nat ->
    index_of_negative_1 st = -1 -> 0 <= index ->
    scan_dims shape rest index st = Fail (Thrown (more_than_one_wildcard_msg shape)).
Proof.
  induction rest as [|d rest IH]; intros index st Hcount Hidx Hindex;
    [simpl in Hcount; lia|].
  cbn [scan_dims]. cbn [count_occ] in Hcount.
  destruct (Z.eq_dec d (-1)) as [->|Hne].
  - cbn [Z.eqb Pos.eqb]. rewrite Hidx. cbn [Z.eqb Pos.eqb negb].
    apply scan_dims_second_wildcard; [cbn [index_of_negative_1]; lia|].
    apply (count_occ_In Z.eq_dec). lia.
  - destruct (Z.eqb_spec d (-1)); [contradiction|].
    apply IH; [exact Hcount | exact Hidx | lia].
Qed.

(** X6.  [infer_dims_for_reshape] on a target shape with one -1 among
    positive dimensions below 2^31, when the product of those dimensions and
    the logical volume of the tensor are below 2^63 (so that the signed
    64-bit accumulator holds them exactly): when the product of the other
    dimensions divides the logical volume of the tensor, the wildcard is
    replaced by the quotient (converted to [uint32_t]) and the other
    dimensions are kept, so that the volume is preserved whenever the
    quotient fits 32 bits; when it does not divide, the call fails with
    "Invalid arguments to reshape". *)
Theorem infer_dims_for_reshape_wildcard_resolved
    (tensor : Tensor) (pre post : list Z) :
  Forall (fun d => 0 < d < 2 ^ 31) pre ->
  Forall (fun d => 0 < d < 2 ^ 31) post ->
  let others := product (pre ++ post) in
  let old_volume := get_logical_volume tensor in
  others < 2 ^ 63 -> old_volume < 2 ^ 63 ->
  (old_volume mod others = 0 ->
     infer_dims_for_reshape tensor (pre ++ -1 :: post)
       = Ok (pre ++ u32 (old_volume / others) :: post) /\
     (old_volume / others < 2 ^ 32 ->
        product (pre ++ u32 (old_volume / others) :: post) = old_volume)) /\
  (old_volume mod others <> 0 ->
     infer_dims_for_reshape tensor (pre ++ -1 :: post)
       = Fail (Fatal "Invalid arguments to reshape")).
Proof.
  intros Hpre Hpost others old_volume Hothers Hold.
  assert (Hall : Forall (fun d => 0 < d < 2 ^ 31) (pre ++ post))
    by (apply Forall_app; split; assumption).
  assert (Hpos : 0 < others).
  { apply product_pos. eapply List.Forall_impl; [|exact Hall]. simpl. intros; lia. }
  assert (Hnopre : ~ In (-1) pre).
  { intros Hin. rewrite List.Forall_forall in Hpre. apply Hpre in Hin. lia. }
  assert (Hnopost : ~ In (-1) post).
  { intros Hin. rewrite List.Forall_forall in Hpost. apply Hpost in Hin. lia. }
  assert (Hvol : 0 <= old_volume < 2 ^ 64).
  { unfold old_volume, get_logical_volume, volume, u64. apply Z.mod_pos_bound. lia. }
  assert (Hscan : scanned_volume 1 (pre ++ post) = others).
  { change 1 with (i64 1) at 1. rewrite scanned_volume_product.
    rewrite Z.mul_1_l. apply i64_small. fold others. lia. }
  assert (Hzero : contains_zero (pre ++ post) = false).
  { apply contains_zero_positive. eapply List.Forall_impl; [|exact Hall].
    simpl. intros; lia. }
  assert (Hrun : infer_dims_for_reshape tensor (pre ++ -1 :: post)
                 = let* _ := TT_FATAL (old_volume mod others =? 0)
                               "Invalid arguments to reshape" in
                   Ok (pre ++ u32 (old_volume / others) :: post)).
  { unfold infer_dims_for_reshape.
    rewrite (scan_dims_around_wildcard _ post pre 0 (mkScanState 1 (-1) false)
               Hnopre Hnopost eq_refl).
    cbn [bind new_volume index_of_negative_1 has_zero].
    rewrite Hscan, Hzero. cbn [orb andb].
    fold old_volume. rewrite (i64_small old_volume) by lia.
    destruct (Z.eqb_spec (0 + Z.of_nat (length pre)) (-1)); [lia|].
    destruct (Z.eqb_spec others 0); [lia|].
    destruct (Z.eqb_spec others (-1)); [lia|]. rewrite andb_false_r.
    rewrite Z.rem_mod_nonneg, Z.quot_div_nonneg by lia.
    replace (Z.to_nat (0 + Z.of_nat (length pre))) with (length pre) by lia.
    rewrite map_app. cbn [map].
    rewrite (map_u32_id pre), (map_u32_id post)
      by (eapply List.Forall_impl; [|eassumption]; simpl; intros; lia).
    rewrite insert_middle. reflexivity. }
  rewrite Hrun. split.
  - intros Hdiv. rewrite Hdiv. cbn [Z.eqb TT_FATAL bind]. split; [reflexivity|].
    intros Hq.
    assert (0 <= old_volume / others) by (apply Z.div_pos; lia).
    rewrite u32_small by lia.
    rewrite product_app. cbn [product fold_right].
    fold (product post). 
    replace (product pre * (old_volume / others * product post))
      with (others * (old_volume / others))
      by (unfold others; rewrite product_app; ring).
    pose proof (Z.div_mod old_volume others ltac:(lia)). lia.
  - intros Hdiv. apply Z.eqb_neq in Hdiv. rewrite Hdiv. reflexivity.
Qed.

Lemma infer_dims_for_reshape_wildcard_resolved_witness :
  let t := Tensor_of (OwnedStorage []) [2; 3; 4] FLOAT32 ROW_MAJOR in
  infer_dims_for_reshape t [4; -1; 2] = Ok [4; 3; 2] /\
  infer_dims_for_reshape t [5; -1] = Fail (Fatal "Invalid arguments to reshape").
Proof.
  intros t. split.
  - refine (proj1 (proj1 (infer_dims_for_reshape_wildcard_resolved t [4] [2] _ _ _ _) _));
      try (repeat constructor; lia); reflexivity.
  - refine (proj2 (infer_dims_for_reshape_wildcard_resolved t [5] [] _ _ _ _) _);
      try (repeat constructor; lia); try reflexivity.
    vm_compute. discriminate.
Defined.

(** X7.  [infer_dims_for_reshape] on a target shape with more than one
    -1: whatever the tensor and the other dimensions, the call throws the
    message that prints the requested shape; nothing is resolved. *)
Theorem infer_dims_for_reshape_several_wildcards (tensor : Tensor) (shape : list Z) :
  (2 <= count_occ Z.eq_dec shape (-1)%Z)%nat ->
  infer_dims_for_reshape tensor shape
  = Fail (Thrown (more_than_one_wildcard_msg shape)).
Proof.
  intros Hcount. unfold infer_dims_for_reshape.
  rewrite (scan_dims_two_wildcards shape shape 0 (mkScanState 1 (-1) false)
             Hcount eq_refl ltac:(lia)).
  reflexivity.
Qed.

Lemma infer_dims_for_reshape_several_wildcards_witness :
  infer_dims_for_reshape (Tensor_of (OwnedStorage []) [2; 3] FLOAT32 ROW_MAJOR) [-1; 2; -1]
  = Fail (Thrown
      "Shape cannot have more than 1 elements that is set to -1! Shape used: (-1,2,-1,)").
Proof.
  exact (infer_dims_for_reshape_several_wildcards
           (Tensor_of (OwnedStorage []) [2; 3] FLOAT32 ROW_MAJOR) [-1; 2; -1]
           ltac:(vm_compute; lia)).
Defined.

(** X8.  [get_2d_shape] folds every dimension but the last into the
    height: on a shape whose last dimension is positive and whose volume fits
    64 bits, the width is the last dimension, the height is the product of
    the dimensions before it, and height times width is the volume.  On a
    shape whose last dimension is 0 the division is by zero. *)
Theorem get_2d_shape_folds_leading_dimensions (front : list Z) (w : Z) :
  Forall (fun d => 0 <= d) front ->
  0 <= w -> product front * w < 2 ^ 64 ->
  (0 < w ->
     get_2d_shape (front ++ [w]) = Ok (mkSize (product front) w) /\
     product front * w = volume (front ++ [w])) /\
  (w = 0 ->
     get_2d_shape (front ++ [w]) = Fail (Undefined "integer division by zero")).
Proof.
  intros Hfront Hw Hfit.
  pose proof (product_nonneg front Hfront) as Hnn.
  assert (Hvol : volume (front ++ [w]) = product front * w).
  { unfold volume. rewrite product_app. cbn [product fold_right].
    rewrite Z.mul_1_r. apply u64_small.
    split; [apply Z.mul_nonneg_nonneg; lia | exact Hfit]. }
  assert (Hlast : last_dim (front ++ [w]) = Ok w).
  { unfold last_dim. rewrite List.last_last.
    destruct front; reflexivity. }
  unfold get_2d_shape. rewrite Hlast, Hvol. cbn [bind]. unfold c_div.
  split.
  - intros Hpos. destruct (Z.eqb_spec w 0); [lia|]. cbn [bind].
    rewrite Z.div_mul by lia. split; reflexivity.
  - intros ->. reflexivity.
Qed.

Lemma get_2d_shape_folds_leading_dimensions_witness :
  get_2d_shape [2; 3; 4; 5] = Ok (mkSize 24 5) /\
  get_2d_shape [2; 3; 0] = Fail (Undefined "integer division by zero").
Proof.
  split.
  - refine (proj1 (proj1 (get_2d_shape_folds_leading_dimensions [2; 3; 4] 5 _ _ _) _));
      try (repeat constructor; lia); reflexivity.
  - refine (proj2 (get_2d_shape_folds_leading_dimensions [2; 3] 0 _ _ _) _);
      try (repeat constructor; lia); reflexivity.
Defined.

(** On the shards of a multi-device host tensor, the lambda of
    [convert_tensor] is the computation on each shard's buffer, in the order
    of the buffers. *)
Lemma std_transform_host_shards (mem : Memory) (compute : Buffer -> Result Tensor)
    (dtype : DataType) (layout : Layout) :
  forall buffers shapes,
    length buffers = length shapes ->
    std_transform (pure_callable (convert_tensor_on_storage mem compute))
      (map (fun bs : Buffer * Shape =>
              Tensor_of (OwnedStorage (fst bs)) (snd bs) dtype layout)
           (combine buffers shapes)) tt
    = let* outs := collect compute buffers in Ok (outs, tt).
Proof.
  induction buffers as [|b buffers IH]; intros [|sh shapes] Hlen;
    try discriminate; [reflexivity|].
  cbn [combine map std_transform collect].
  unfold pure_callable at 1, convert_tensor_on_storage at 1.
  cbn [get_storage Tensor_of Tensor_with_spec fst snd].
  destruct (compute b) as [o|f]; [|reflexivity].
  cbn [bind]. rewrite IH by (simpl in Hlen; lia).
  destruct (collect compute buffers); reflexivity.
Qed.

(** X9.  [convert_tensor] on a multi-device host tensor (one host buffer
    and one shape per shard, at least one shard): the computation is applied to the buffer of
    every shard, in shard order; if it fails on a shard, that failure is the
    result and no tensor is produced; if it yields a host tensor in owned
    storage for every shard, the result is again a multi-device host tensor
    with the same distribution configuration, holding the buffers and the
    shapes of the per-shard results in shard order. *)
Theorem convert_tensor_multi_device_host
    (mem : Memory) (input_tensor : Tensor) (compute : Buffer -> Result Tensor)
    (cfg : DistributedTensorConfig) (buffers : list Buffer) (shapes : list Shape) :
  get_storage input_tensor = MultiDeviceHostStorage cfg buffers shapes ->
  length buffers = length shapes ->
  buffers <> [] ->
  (forall f, collect compute buffers = Fail f ->
     convert_tensor mem input_tensor compute = Fail f) /\
  (forall outs,
     collect compute buffers = Ok outs ->
     (forall o, In o outs -> storage_type o = OWNED) ->
     exists result out_buffers,
       convert_tensor mem input_tensor compute = Ok result /\
       collect owned_buffer_of outs = Ok out_buffers /\
       length outs = length buffers /\
       get_storage result
         = MultiDeviceHostStorage cfg out_buffers (map get_shape outs)).
Proof.
  intros Hst Hlen Hne.
  assert (Hmulti : is_multi_device_tensor input_tensor = true)
    by (unfold is_multi_device_tensor, storage_type; rewrite Hst; reflexivity).
  assert (Hrun : convert_tensor mem input_tensor compute
                 = let* outs := collect compute buffers in
                   create_multi_device_tensor outs MULTI_DEVICE_HOST (Some cfg)).
  { unfold convert_tensor. rewrite Hmulti. unfold transform.
    unfold get_tensors_from_multi_device_storage, storage_type,
      get_distributed_tensor_config_from_tensor.
    rewrite Hst. cbn [storage_type_of].
    rewrite bool_decide_eq_true_2 by exact Hlen. cbn [bind].
    rewrite (std_transform_host_shards mem compute _ _ buffers shapes Hlen).
    destruct (collect compute buffers) as [outs|f]; [|reflexivity].
    cbn [bind].
    destruct (create_multi_device_tensor outs MULTI_DEVICE_HOST (Some cfg));
      reflexivity. }
  rewrite Hrun. split.
  - intros f ->. reflexivity.
  - intros outs Houts Hkind. rewrite Houts. cbn [bind].
    assert (Hcount : forall (l : list Buffer) os,
              collect compute l = Ok os -> length os = length l).
    { induction l as [|b l IH]; intros os H; simpl in H.
      - injection H as <-. reflexivity.
      - destruct (compute b); [|discriminate]. simpl in H.
        destruct (collect compute l) eqn:E; [|discriminate].
        simpl in H. injection H as <-. simpl. f_equal. apply IH. reflexivity. }
    pose proof (Hcount buffers outs Houts) as Hn.
    destruct (collect_owned_buffers outs Hkind) as (bufs & Hbufs).
    destruct outs as [|first others].
    { destruct buffers; [contradiction | discriminate]. }
    unfold create_multi_device_tensor. rewrite Hbufs. cbn [bind].
    eexists. exists bufs.
    split; [reflexivity|]. split; [reflexivity|]. split; [exact Hn|]. reflexivity.
Qed.

Lemma convert_tensor_multi_device_host_witness :
  let mem : Memory := fun _ => [] in
  let t := Tensor_of (MultiDeviceHostStorage (ShardTensor 0) [[1; 2]; [3; 4]] [[1; 2]; [1; 2]])
             [1; 2] UINT32 ROW_MAJOR in
  let compute := fun b : Buffer =>
    Ok (Tensor_of (OwnedStorage (rev b)) [1; 2] UINT32 ROW_MAJOR) in
  exists result,
    convert_tensor mem t compute = Ok result /\
    get_storage result
      = MultiDeviceHostStorage (ShardTensor 0) [[2; 1]; [4; 3]] [[1; 2]; [1; 2]].
Proof.
  intros mem t compute.
  destruct (convert_tensor_multi_device_host mem t compute (ShardTensor 0)
              [[1; 2]; [3; 4]] [[1; 2]; [1; 2]] eq_refl eq_refl ltac:(discriminate))
    as [_ Hok].
  destruct (Hok _ eq_refl) as (result & out_buffers & Hrun & Hbufs & _ & Hst).
  - intros o [<- | [<- | []]]; reflexivity.
  - exists result. split; [exact Hrun|].
    rewrite Hst. injection Hbufs as <-. reflexivity.
Defined.

(** X10.  [convert_tensor] on a multi-device tensor in device storage:
    whenever the shards can be enumerated and there is at least one, the
    lambda meets device storage on the first shard and the conversion throws
    "Unsupported storage type"; the weight conversions that end in
    [convert_tensor] fail in the same way, whatever the computation. *)
Theorem convert_tensor_multi_device_unsupported
    (mem : Memory) (input_tensor : Tensor) (compute : Buffer -> Result Tensor)
    (shards : list Tensor) :
  storage_type input_tensor = MULTI_DEVICE ->
  get_tensors_from_multi_device_storage input_tensor = Ok shards ->
  shards <> [] ->
  convert_tensor mem input_tensor compute = Fail (Thrown "Unsupported storage type") /\
  (forall Q assertions T in1_block num_channel_shards output_dtype,
     to_weight_tile_layout Q mem T input_tensor in1_block output_dtype
       = Fail (Thrown "Unsupported storage type") /\
     to_weight_tile_layout_block_sharded Q assertions mem T input_tensor
         num_channel_shards output_dtype
       = Fail (Thrown "Unsupported storage type")).
Proof.
  intros Hkind Hshards Hne.
  assert (Hany : forall c, convert_tensor mem input_tensor c
                           = Fail (Thrown "Unsupported storage type")).
  { intros c. unfold convert_tensor, is_multi_device_tensor. rewrite Hkind.
    cbn [bool_decide decide_rel orb]. simpl. unfold transform. rewrite Hshards.
    cbn [bind].
    pose proof (shards_have_shard_kind input_tensor shards Hshards) as Hdev.
    rewrite Hkind in Hdev. cbn [shard_kind] in Hdev.
    destruct shards as [|first others]; [contradiction|].
    pose proof (Hdev first (or_introl eq_refl)) as Hfirst.
    cbn [std_transform]. unfold pure_callable at 1, convert_tensor_on_storage at 1.
    unfold storage_type in Hfirst.
    destruct (get_storage first); try discriminate. reflexivity. }
  split; [apply Hany|].
  intros Q assertions T [bh bw] n od. split.
  - unfold to_weight_tile_layout. apply Hany.
  - unfold to_weight_tile_layout_block_sharded. apply Hany.
Qed.

Lemma convert_tensor_multi_device_unsupported_witness :
  let t := Tensor_of (MultiDeviceStorage (ShardTensor 0) [0]
                        [(0, mkDeviceBuffer 0 4096)] [(0, [1; 2])])
             [1; 2] UINT32 ROW_MAJOR in
  convert_tensor (fun _ => []) t (fun b => Ok (Tensor_of (OwnedStorage b) [1; 2] UINT32 TILE))
  = Fail (Thrown "Unsupported storage type").
Proof.
  intros t.
  exact (proj1 (convert_tensor_multi_device_unsupported (fun _ => []) t _ _
                  eq_refl eq_refl ltac:(discriminate))).
Defined.

Lemma for_loop_one {A : Type} (body : Z -> A -> Result A) (acc : A) :
  for_loop 1 body acc = body 0 acc.
Proof.
  unfold for_loop. change (Z.to_nat 1) with 1%nat. cbn [for_range].
  destruct (body 0 acc); reflexivity.
Qed.

Lemma for_range_ext {A : Type} (body body' : Z -> A -> Result A) :
  (forall i a, body i a = body' i a) ->
  forall count start acc,
    for_range count start body acc = for_range count start body' acc.
Proof.
  intros Hbody. induction count as [|count IH]; intros start acc; simpl.
  - reflexivity.
  - rewrite Hbody. destruct (body' start acc); simpl; [apply IH | reflexivity].
Qed.

Lemma for_loop_ext {A : Type} (body body' : Z -> A -> Result A) (bound : Z) (acc : A) :
  (forall i a, body i a = body' i a) ->
  for_loop bound body acc = for_loop bound body' acc.
Proof.
  intros Hbody. unfold for_loop. apply for_range_ext. exact Hbody.
Qed.

Lemma std_transform_ext {S : Type} (f g : Tensor -> S -> Result (Tensor * S)) :
  (forall t s, f t s = g t s) ->
  forall inputs s, std_transform f inputs s = std_transform g inputs s.
Proof.
  intros Hfg. induction inputs as [|t inputs IH]; intros s; simpl.
  - reflexivity.
  - rewrite Hfg. destruct (g t s) as [[o s1]|]; simpl; [|reflexivity].
    rewrite IH. reflexivity.
Qed.

(** [convert_tensor] depends on the computation only through its results. *)
Lemma convert_tensor_ext (mem : Memory) (t : Tensor)
    (compute compute' : Buffer -> Result Tensor) :
  (forall b, compute b = compute' b) ->
  convert_tensor mem t compute = convert_tensor mem t compute'.
Proof.
  intros Hc.
  assert (Hon : forall x, convert_tensor_on_storage mem compute x
                          = convert_tensor_on_storage mem compute' x).
  { intros x. unfold convert_tensor_on_storage.
    destruct (get_storage x); try reflexivity; apply Hc. }
  unfold convert_tensor. destruct (is_multi_device_tensor t); [|apply Hon].
  unfold transform.
  destruct (get_tensors_from_multi_device_storage t) as [shards|]; [|reflexivity].
  cbn [bind].
  rewrite (std_transform_ext
             (pure_callable (convert_tensor_on_storage mem compute))
             (pure_callable (convert_tensor_on_storage mem compute')));
    [reflexivity|].
  intros x s. unfold pure_callable. rewrite Hon. reflexivity.
Qed.

(** The padded width of a single shard is the width rounded up to the tile
    size. *)
Lemma shard_padded_dimension (x : Z) :
  0 <= x -> x + 32 <= 2 ^ 32 ->
  (if x <? u32 (ceil_div x 32 * 32) then u32 (u32 (ceil_div x 32 * 32) * 1) else x)
  = round_up x 32.
Proof.
  intros Hx Hfit.
  pose proof (ceil_div_tile x Hx) as Hp.
  rewrite Z.mul_1_r.
  rewrite !(u32_small (ceil_div x 32 * 32)) by lia.
  unfold round_up.
  assert (Hmod : (ceil_div x 32 * 32) mod 32 = 0) by (apply Z.mod_mul; lia).
  destruct (Z.eqb_spec (x mod 32) 0) as [E|E].
  - assert (Heq : ceil_div x 32 * 32 = x).
    { pose proof (Z.div_mod x 32 ltac:(lia)) as Hdx.
      pose proof (Z.div_mod (ceil_div x 32 * 32) 32 ltac:(lia)) as Hdp.
      rewrite Hmod in Hdp. rewrite E in Hdx.
      assert (x / 32 <= (ceil_div x 32 * 32) / 32 < x / 32 + 1) by lia.
      lia. }
    rewrite Heq. rewrite Z.ltb_irrefl. reflexivity.
  - destruct (Z.ltb_spec x (ceil_div x 32 * 32)); [reflexivity|].
    assert (ceil_div x 32 * 32 = x) by lia. congruence.
Qed.

(** X11.  With a single channel shard the block-sharded conversion of a
    convolution weight is the plain tiled conversion with blocks of one tile:
    on every weight tensor [K, C, R, S] whose padded dimensions fit
    [uint32_t], whatever its storage, data type and layout and whether or
    not assertions are compiled in, the two calls have the same outcome (the
    same tensor or the same failure). *)
Theorem block_sharded_single_shard_is_tiled_layout
    (Q : Quantizer) (assertions : bool) (mem : Memory) (tensor : Tensor)
    (output_dtype : option DataType) (K C R S : Z) :
  get_shape tensor = [K; C; R; S] ->
  0 <= K -> 0 <= C -> 0 <= R -> 0 <= S ->
  K + 32 <= 2 ^ 32 -> C * R * S + 32 <= 2 ^ 32 ->
  convert_conv_weight_tensor_to_tiled_layout_block_sharded Q assertions mem tensor 1
    output_dtype
  = convert_conv_weight_tensor_to_tiled_layout Q assertions mem tensor 1 1 output_dtype.
Proof.
  intros Hshape HK HC HR HS HfitK HfitR.
  assert (HCRS : 0 <= C * R * S) by (repeat apply Z.mul_nonneg_nonneg; lia).
  assert (Hsame : forall T od,
            to_weight_tile_layout_block_sharded Q assertions mem T tensor 1 od
            = to_weight_tile_layout Q mem T tensor (1, 1) od).
  { intros T od.
    unfold to_weight_tile_layout_block_sharded, to_weight_tile_layout, get_legacy_shape.
    rewrite Hshape. cbn [dim nth].
    apply convert_tensor_ext. intros input_buffer.
    unfold c_mod, c_div. change TILE_WIDTH with 32. change TILE_HEIGHT with 32.
    change (1 * 32) with 32. change (u32 32) with 32.
    change (1 =? 0) with false. change (32 =? 0) with false.
    rewrite !Z.mod_1_r, !Z.div_1_r.
    assert (Hasserts_pass : forall text,
              (if assertions
               then let* r := Ok 0 in TT_ASSERT assertions (r =? 0) text
               else Ok tt) = Ok tt)
      by (intros text; destruct assertions; reflexivity).
    rewrite !Hasserts_pass. cbn [bind].
    rewrite (u32_small (C * R * S)) by lia.
    rewrite (shard_padded_dimension K HK HfitK).
    rewrite (shard_padded_dimension (C * R * S) HCRS HfitR).
    rewrite (padded_dimension K 32), (padded_dimension (C * R * S) 32) by lia.
    f_equal.
    rewrite for_loop_one.
    apply for_loop_ext. intros r a.
    apply for_loop_ext. intros s b.
    apply for_loop_ext. intros c d.
    rewrite for_loop_one.
    apply for_loop_ext. intros k e.
    f_equal; f_equal; ring. }
  unfold convert_conv_weight_tensor_to_tiled_layout_block_sharded,
    convert_conv_weight_tensor_to_tiled_layout, convert_tensor_to_tiled_layout_common.
  destruct (TT_ASSERT assertions _ _); [|reflexivity]. cbn [bind].
  match goal with |- bind ?c _ = _ => destruct c; [|reflexivity] end.
  cbn [bind].
  destruct (get_dtype tensor);
    cbn [to_w_tile_layout_block_sharded_map to_w_tile_layout_map map_find
         bool_decide decide_rel];
    try reflexivity; apply Hsame.
Qed.

Lemma block_sharded_single_shard_is_tiled_layout_witness :
  let Q := mkQuantizer (fun b => b) (fun b => b) in
  let mem : Memory := fun _ => [] in
  let weight := Tensor_of (OwnedStorage [11; 12; 21; 22]) [2; 2; 1; 1] UINT32 ROW_MAJOR in
  convert_conv_weight_tensor_to_tiled_layout_block_sharded Q true mem weight 1 None
  = convert_conv_weight_tensor_to_tiled_layout Q true mem weight 1 1 None.
Proof.
  intros Q mem weight.
  apply (block_sharded_single_shard_is_tiled_layout Q true mem weight None 2 2 1 1);
    try reflexivity; lia.
Defined.

(** X12.  A block size or shard count of zero is not rejected: on a host
    weight of a dispatched data type that passes the common assertions, the
    tiled conversion with a block width whose size in datums is 0 modulo
    2^32 (in particular [in1_block_w = 0]), or with such a block height (and
    a block width whose size in datums is not 0 modulo 2^32), the
    special-padding conversion with such a block width, and the block-sharded
    conversion with [num_channel_shards = 0] all reach an integer division by
    zero, whether the assertions are compiled in (and pass) or not. *)
Theorem conversions_divide_by_zero_block
    (Q : Quantizer) (assertions c_asserts : bool) (mem : Memory) (tensor : Tensor)
    (output_dtype : option DataType) (data : Buffer) :
  host_elements mem tensor = Some data ->
  dispatched_dtype (get_dtype tensor) ->
  assertions = false \/ common_assertions_hold tensor output_dtype ->
  (forall in1_block_h in1_block_w,
     u32 (in1_block_w * 32) = 0 ->
     convert_conv_weight_tensor_to_tiled_layout Q assertions mem tensor
       in1_block_h in1_block_w output_dtype
       = Fail (Undefined "integer division by zero") /\
     convert_conv_weight_tensor_to_special_padding_tiled_layout Q assertions c_asserts mem
       tensor in1_block_h in1_block_w output_dtype
       = Fail (Undefined "integer division by zero")) /\
  (forall in1_block_h in1_block_w,
     u32 (in1_block_w * 32) <> 0 -> u32 (in1_block_h * 32) = 0 ->
     convert_conv_weight_tensor_to_tiled_layout Q assertions mem tensor
       in1_block_h in1_block_w output_dtype
       = Fail (Undefined "integer division by zero")) /\
  convert_conv_weight_tensor_to_tiled_layout_block_sharded Q assertions mem tensor 0
    output_dtype
  = Fail (Undefined "integer division by zero").
Proof.
  intros Hdata Hdtype Hassert.
  split; [|split].
  - intros bh bw Hbw. split.
    + unfold convert_conv_weight_tensor_to_tiled_layout,
        convert_tensor_to_tiled_layout_common.
      rewrite (common_assertions_pass assertions tensor output_dtype _ Hassert).
      assert (Hfind : exists T,
                map_find (get_dtype tensor) (to_w_tile_layout_map Q mem)
                = Some (to_weight_tile_layout Q mem T)).
      { destruct Hdtype as [-> | [-> | ->]]; eexists; reflexivity. }
      destruct Hfind as (T & ->).
      unfold to_weight_tile_layout.
      rewrite (host_elements_convert mem tensor data _ Hdata).
      change TILE_WIDTH with 32. rewrite Hbw. reflexivity.
    + unfold convert_conv_weight_tensor_to_special_padding_tiled_layout,
        convert_tensor_to_tiled_layout_common.
      rewrite (common_assertions_pass assertions tensor output_dtype _ Hassert).
      assert (Hfind : exists T,
                map_find (get_dtype tensor)
                  (to_w_special_padding_tile_layout_map Q c_asserts mem)
                = Some (to_weight_special_padding_tile_layout Q c_asserts mem T)).
      { destruct Hdtype as [-> | [-> | ->]]; eexists; reflexivity. }
      destruct Hfind as (T & ->).
      unfold to_weight_special_padding_tile_layout.
      rewrite (host_elements_convert mem tensor data _ Hdata).
      change TILE_WIDTH with 32. rewrite Hbw. reflexivity.
  - intros bh bw Hbw Hbh.
    unfold convert_conv_weight_tensor_to_tiled_layout,
      convert_tensor_to_tiled_layout_common.
    rewrite (common_assertions_pass assertions tensor output_dtype _ Hassert).
    assert (Hfind : exists T,
              map_find (get_dtype tensor) (to_w_tile_layout_map Q mem)
              = Some (to_weight_tile_layout Q mem T)).
    { destruct Hdtype as [-> | [-> | ->]]; eexists; reflexivity. }
    destruct Hfind as (T & ->).
    unfold to_weight_tile_layout.
    rewrite (host_elements_convert mem tensor data _ Hdata).
    change TILE_WIDTH with 32. change TILE_HEIGHT with 32.
    unfold c_mod. apply Z.eqb_neq in Hbw. rewrite Hbw, Hbh. reflexivity.
  - unfold convert_conv_weight_tensor_to_tiled_layout_block_sharded,
      convert_tensor_to_tiled_layout_common.
    rewrite (common_assertions_pass assertions tensor output_dtype _ Hassert).
    assert (Hfind : exists T,
              map_find (get_dtype tensor) (to_w_tile_layout_block_sharded_map Q assertions mem)
              = Some (to_weight_tile_layout_block_sharded Q assertions mem T)).
    { destruct Hdtype as [-> | [-> | ->]]; eexists; reflexivity. }
    destruct Hfind as (T & ->).
    unfold to_weight_tile_layout_block_sharded.
    rewrite (host_elements_convert mem tensor data _ Hdata).
    destruct assertions; reflexivity.
Qed.

Lemma conversions_divide_by_zero_block_witness :
  let Q := mkQuantizer (fun b => b) (fun b => b) in
  let mem : Memory := fun _ => [] in
  let weight := Tensor_of (OwnedStorage [11; 12; 21; 22]) [2; 2; 1; 1] UINT32 ROW_MAJOR in
  convert_conv_weight_tensor_to_tiled_layout Q true mem weight 1 0 None
    = Fail (Undefined "integer division by zero") /\
  convert_conv_weight_tensor_to_tiled_layout Q true mem weight 1 134217728 None
    = Fail (Undefined "integer division by zero") /\
  convert_conv_weight_tensor_to_tiled_layout_block_sharded Q true mem weight 0 None
    = Fail (Undefined "integer division by zero").
Proof.
  intros Q mem weight.
  destruct (conversions_divide_by_zero_block Q true true mem weight None
              [11; 12; 21; 22] eq_refl)
    as (Hw & _ & Hn).
  - right. right. reflexivity.
  - right. split; [reflexivity | intros d Hd; discriminate].
  - split; [exact (proj1 (Hw 1 0 eq_refl))|].
    split; [exact (proj1 (Hw 1 134217728 eq_refl)) | exact Hn].
Defined.

(** A loop whose iterations keep [P] or fail in [E] ends in [P] or fails in
    [E]; if some iteration fails whenever it is reached, the loop fails. *)
Lemma for_range_outcome {A : Type} (P : A -> Prop) (E : Failure -> Prop)
    (body : Z -> A -> Result A) :
  forall count start acc,
    (forall i a, start <= i < start + Z.of_nat count -> P a -> outcome P E (body i a)) ->
    P acc ->
    outcome P E (for_range count start body acc) /\
    (forall j, start <= j < start + Z.of_nat count ->
       (forall a, P a -> exists f, body j a = Fail f) ->
       exists f, for_range count start body acc = Fail f /\ E f).
Proof.
  induction count as [|count IH]; intros start acc Hbody Hacc.
  - split; [exact Hacc|]. intros j Hj. simpl in Hj. lia.
  - cbn [for_range].
    pose proof (Hbody start acc ltac:(lia) Hacc) as Hfirst.
    destruct (body start acc) as [acc1|f] eqn:Estart; cbn [bind outcome] in *.
    + destruct (IH (start + 1) acc1) as [Hout Hfail];
        [intros i a Hi Ha; apply Hbody; [lia | exact Ha] | exact Hfirst |].
      split; [exact Hout|].
      intros j Hj Hj'.
      destruct (Z.eq_dec j start) as [->|Hne].
      * destruct (Hj' acc Hacc) as (f & Hf). congruence.
      * apply (Hfail j); [lia | exact Hj'].
    + split; [exact Hfirst|]. intros j Hj Hj'. exists f. split; [reflexivity | exact Hfirst].
Qed.

Lemma for_loop_outcome {A : Type} (P : A -> Prop) (E : Failure -> Prop)
    (body : Z -> A -> Result A) (bound : Z) (acc : A) :
  0 <= bound ->
  (forall i a, 0 <= i < bound -> P a -> outcome P E (body i a)) ->
  P acc ->
  outcome P E (for_loop bound body acc) /\
  (forall j, 0 <= j < bound ->
     (forall a, P a -> exists f, body j a = Fail f) ->
     exists f, for_loop bound body acc = Fail f /\ E f).
Proof.
  intros Hbound Hbody Hacc. unfold for_loop.
  destruct (for_range_outcome P E body (Z.to_nat bound) 0 acc) as [Hout Hfail];
    [intros i a Hi Ha; apply Hbody; [lia | exact Ha] | exact Hacc |].
  split; [exact Hout|].
  intros j Hj Hj'. apply (Hfail j); [lia | exact Hj'].
Qed.

Lemma u32_negative (z : Z) : - 2 ^ 32 <= z < 0 -> u32 z = z + 2 ^ 32.
Proof.
  intros Hz. unfold u32.
  rewrite <- (Z.mod_add z 1 (2 ^ 32)) by lia.
  apply Z.mod_small. lia.
Qed.

Lemma u32_drop_multiple (z m : Z) : u32 (z + m * 2 ^ 32) = u32 z.
Proof. unfold u32. apply Z.mod_add. lia. Qed.

(** X13.  [convert_conv_weight_tensor_to_special_padding_tiled_layout]
    when [assert] is not checked and [C * S] exceeds the block of
    [32 * in1_block_h] rows: the padding [in1_block_h_datums - C * S] wraps
    around, the matrix is still allocated with [32 * in1_block_h * R] rows,
    and the rows of the last kernel row run past its end: the conversion
    writes outside the output buffer.  The weight is a host weight
    [K, C, R, S] with positive dimensions that holds its elements, of a
    dispatched data type, on which the common assertions pass or are not
    compiled in; the block sizes are positive, and [K + 32 * in1_block_w],
    the element count of the weight and [(32 * in1_block_h * R + C * S)]
    times the padded column count fit [uint32_t]. *)
Theorem special_padding_without_assert_writes_outside
    (Q : Quantizer) (assertions : bool) (mem : Memory) (tensor : Tensor)
    (in1_block_h in1_block_w : Z) (output_dtype : option DataType)
    (K C R S : Z) (data : Buffer) :
  get_shape tensor = [K; C; R; S] ->
  host_elements mem tensor = Some data ->
  Z.of_nat (length data) = K * C * R * S ->
  0 < K -> 0 < C -> 0 < R -> 0 < S -> 0 < in1_block_h -> 0 < in1_block_w ->
  dispatched_dtype (get_dtype tensor) ->
  assertions = false \/ common_assertions_hold tensor output_dtype ->
  let block := in1_block_h * 32 in
  let cols := round_up K (in1_block_w * 32) in
  K + in1_block_w * 32 <= 2 ^ 32 ->
  K * C * R * S < 2 ^ 32 ->
  (block * R + C * S) * cols < 2 ^ 32 ->
  block < C * S ->
  convert_conv_weight_tensor_to_special_padding_tiled_layout Q assertions false mem
    tensor in1_block_h in1_block_w output_dtype
  = Fail (Undefined "write outside the buffer").
Proof.
  intros Hshape Hdata Hlen HK HC HR HS Hbh Hbw Hdtype Hassert block cols
    HfitK Hin Hfit Hover.
  assert (HCSp : 0 < C * S) by (apply Z.mul_pos_pos; lia).
  assert (Hbp : 0 < block) by (subst block; lia).
  pose proof (round_up_spec K (in1_block_w * 32) ltac:(lia) ltac:(lia)) as [Hcols _].
  fold cols in Hcols.
  assert (Hcp : 0 < cols) by lia.
  assert (HbR : 0 < block * R) by (apply Z.mul_pos_pos; lia).
  assert (Hsum : (block * R + C * S) * 1 <= (block * R + C * S) * cols)
    by (apply Z.mul_le_mono_nonneg_l; lia).
  assert (Hrc : block * R * cols <= (block * R + C * S) * cols)
    by (apply Z.mul_le_mono_nonneg_r; lia).
  assert (Hrcp : 0 < block * R * cols) by (apply Z.mul_pos_pos; lia).
  unfold convert_conv_weight_tensor_to_special_padding_tiled_layout,
    convert_tensor_to_tiled_layout_common.
  rewrite (common_assertions_pass assertions tensor output_dtype _ Hassert).
  assert (Hfind : exists T,
            map_find (get_dtype tensor) (to_w_special_padding_tile_layout_map Q false mem)
            = Some (to_weight_special_padding_tile_layout Q false mem T)).
  { destruct Hdtype as [-> | [-> | ->]]; eexists; reflexivity. }
  destruct Hfind as (T & ->).
  unfold to_weight_special_padding_tile_layout, get_legacy_shape.
  rewrite Hshape. cbn [dim nth].
  rewrite (host_elements_convert mem tensor data _ Hdata).
  change TILE_WIDTH with 32. change TILE_HEIGHT with 32.
  fold block.
  rewrite (u32_small (in1_block_w * 32)), (u32_small block), (u32_small (C * S)) by lia.
  unfold c_mod.
  destruct (in1_block_w * 32 =? 0) eqn:E1; [apply Z.eqb_eq in E1; lia|]. cbn [bind].
  rewrite (padded_dimension K (in1_block_w * 32)) by lia.
  fold cols.
  unfold C_assert. cbn [andb bind].
  rewrite (u32_negative (block - C * S)) by lia.
  replace ((C * S + (block - C * S + 2 ^ 32)) * R) with (block * R + R * 2 ^ 32) by ring.
  rewrite u32_drop_multiple, (u32_small (block * R)) by lia.
  assert (Hvol64 : volume [1; 1; block * R; cols] = block * R * cols).
  { unfold volume. cbn [product fold_right]. rewrite u64_small by lia. ring. }
  rewrite Hvol64.
  set (out0 := owned_buffer_create (block * R * cols)).
  assert (Hout0 : Z.of_nat (length out0) = block * R * cols).
  { subst out0. apply owned_buffer_create_length. lia. }
  set (P := fun a : Buffer => Z.of_nat (length a) = block * R * cols).
  set (E := fun f : Failure => f = Undefined "write outside the buffer").
  assert (Hidx : forall r s c k,
            0 <= r < R -> 0 <= s < S -> 0 <= c < C -> 0 <= k < K ->
            u32 (k + c * cols + s * C * cols
                 + r * (S * C + (block - C * S + 2 ^ 32)) * cols)
            = (r * block + (s * C + c)) * cols + k /\
            0 <= (r * block + (s * C + c)) * cols + k).
  { intros r s c k Hr Hs Hc Hk.
    replace (k + c * cols + s * C * cols + r * (S * C + (block - C * S + 2 ^ 32)) * cols)
      with ((r * block + (s * C + c)) * cols + k + (r * cols) * 2 ^ 32) by ring.
    rewrite u32_drop_multiple.
    pose proof (flat_bound s c S C Hs Hc) as D1.
    assert (D2 : 0 <= r * block <= (R - 1) * block)
      by (split; [apply Z.mul_nonneg_nonneg; lia | apply Z.mul_le_mono_nonneg_r; lia]).
    pose proof (flat_bound (r * block + (s * C + c)) k (block * R + C * S) cols
                  ltac:(lia) ltac:(lia)) as D3.
    split; [apply u32_small; lia | lia]. }
  assert (Hbody : forall r s c k a,
            0 <= r < R -> 0 <= s < S -> 0 <= c < C -> 0 <= k < K -> P a ->
            outcome P E
              (copy_element data
                 (u32 (k * C * R * S + c * R * S + r * S + s))
                 (u32 (k + c * cols + s * C * cols
                       + r * (S * C + (block - C * S + 2 ^ 32)) * cols)) a)).
  { intros r s c k a Hr Hs Hc Hk Ha.
    destruct (Hidx r s c k Hr Hs Hc Hk) as [-> Hnn].
    pose proof (flat_bound k c K C Hk Hc) as B1.
    pose proof (flat_bound (k * C + c) r (K * C) R B1 Hr) as B2.
    pose proof (flat_bound ((k * C + c) * R + r) s (K * C * R) S B2 Hs) as B3.
    replace (k * C * R * S + c * R * S + r * S + s)
      with (((k * C + c) * R + r) * S + s) by ring.
    rewrite u32_small by lia.
    unfold copy_element, buffer_read.
    rewrite in_bounds_true by lia. cbn [bind].
    unfold buffer_write.
    destruct (in_bounds a _) eqn:Eb; cbn [outcome].
    - unfold P in *. unfold Buffer in *. rewrite length_insert. exact Ha.
    - reflexivity. }
  assert (Hlast : forall a, P a ->
            exists f,
              copy_element data
                (u32 ((K - 1) * C * R * S + (C - 1) * R * S + (R - 1) * S + (S - 1)))
                (u32 ((K - 1) + (C - 1) * cols + (S - 1) * C * cols
                      + (R - 1) * (S * C + (block - C * S + 2 ^ 32)) * cols)) a
              = Fail f).
  { intros a Ha.
    destruct (Hidx (R - 1) (S - 1) (C - 1) (K - 1)) as [-> Hnn]; try lia.
    pose proof (flat_bound (K - 1) (C - 1) K C ltac:(lia) ltac:(lia)) as B1.
    pose proof (flat_bound ((K - 1) * C + (C - 1)) (R - 1) (K * C) R B1 ltac:(lia)) as B2.
    pose proof (flat_bound (((K - 1) * C + (C - 1)) * R + (R - 1)) (S - 1) (K * C * R) S
                  B2 ltac:(lia)) as B3.
    replace ((K - 1) * C * R * S + (C - 1) * R * S + (R - 1) * S + (S - 1))
      with ((((K - 1) * C + (C - 1)) * R + (R - 1)) * S + (S - 1)) by ring.
    rewrite u32_small by lia.
    unfold copy_element, buffer_read.
    rewrite in_bounds_true by lia. cbn [bind].
    unfold buffer_write, in_bounds.
    assert (Hout : block * R * cols
                   <= ((R - 1) * block + ((S - 1) * C + (C - 1))) * cols + (K - 1)).
    { assert (block * R * cols
              <= ((R - 1) * block + ((S - 1) * C + (C - 1))) * cols)
        by (apply Z.mul_le_mono_nonneg_r; lia).
      lia. }
    unfold P in Ha.
    destruct (Z.ltb_spec (((R - 1) * block + ((S - 1) * C + (C - 1))) * cols + (K - 1))
                (Z.of_nat (length a))); [lia|].
    rewrite andb_false_r. eexists. reflexivity. }
  match goal with
  | |- context [for_loop R ?body out0] =>
      destruct (for_loop_outcome P E body R out0 ltac:(lia)) as [_ Hfail]
  end.
  { intros r a Hr Ha.
    apply for_loop_outcome; [lia | | exact Ha]. intros s b Hs Hb.
    apply for_loop_outcome; [lia | | exact Hb]. intros c d Hc Hd.
    apply for_loop_outcome; [lia | | exact Hd]. intros k e Hk He.
    apply Hbody; assumption. }
  { exact Hout0. }
  destruct (Hfail (R - 1) ltac:(lia)) as (f & Hrun & Hf).
  { intros a Ha.
    match goal with
    | |- context [for_loop S ?body a] =>
        destruct (for_loop_outcome P E body S a ltac:(lia)) as [_ Hfail1]
    end.
    { intros s b Hs Hb.
      apply for_loop_outcome; [lia | | exact Hb]. intros c d Hc Hd.
      apply for_loop_outcome; [lia | | exact Hd]. intros k e Hk He.
      apply Hbody; try assumption; lia. }
    { exact Ha. }
    destruct (Hfail1 (S - 1) ltac:(lia)) as (f & Hrun & _); [|exists f; exact Hrun].
    intros b Hb.
    match goal with
    | |- context [for_loop C ?body b] =>
        destruct (for_loop_outcome P E body C b ltac:(lia)) as [_ Hfail2]
    end.
    { intros c d Hc Hd.
      apply for_loop_outcome; [lia | | exact Hd]. intros k e Hk He.
      apply Hbody; try assumption; lia. }
    { exact Hb. }
    destruct (Hfail2 (C - 1) ltac:(lia)) as (f & Hrun & _); [|exists f; exact Hrun].
    intros d Hd.
    match goal with
    | |- context [for_loop K ?body d] =>
        destruct (for_loop_outcome P E body K d ltac:(lia)) as [_ Hfail3]
    end.
    { intros k e Hk He. apply Hbody; try assumption; lia. }
    { exact Hd. }
    destruct (Hfail3 (K - 1) ltac:(lia)) as (f & Hrun & _); [|exists f; exact Hrun].
    intros e He. apply Hlast. exact He. }
  rewrite Hrun. cbn [bind]. rewrite Hf. reflexivity.
Qed.

Lemma special_padding_without_assert_writes_outside_witness :
  let Q := mkQuantizer (fun b => b) (fun b => b) in
  let mem : Memory := fun _ => [] in
  let weight := Tensor_of (OwnedStorage (repeat 7 33)) [1; 33; 1; 1] UINT32 ROW_MAJOR in
  convert_conv_weight_tensor_to_special_padding_tiled_layout Q true false mem weight 1 1 None
  = Fail (Undefined "write outside the buffer").
Proof.
  intros Q mem weight.
  apply (special_padding_without_assert_writes_outside Q true mem weight 1 1 None
           1 33 1 1 (repeat 7 33));
    try reflexivity; try lia.
  - right. right. reflexivity.
  - right. split; [reflexivity | intros d Hd; discriminate].
Defined.

(** X14.  The second assertion of [convert_tensor_to_tiled_layout_common]
    compares the data type of the input with itself, so a requested output
    data type that differs from the input's is never rejected by it.  On a
    host weight, [convert_conv_weight_tensor_to_tiled_layout] with a
    requested data type that is not a packed one either fails exactly as
    without a requested data type, or hands the very same matrix, with the
    same shape, to the conversion to tile layout, labelled with the requested
    data type instead of the input's: nothing else depends on the request. *)
Theorem requested_dtype_only_labels_the_result
    (Q : Quantizer) (assertions : bool) (mem : Memory) (tensor : Tensor)
    (in1_block_h in1_block_w : Z) (d : DataType) (data : Buffer) :
  host_elements mem tensor = Some data ->
  is_packed d = false ->
  let without :=
    convert_conv_weight_tensor_to_tiled_layout Q assertions mem tensor
      in1_block_h in1_block_w None in
  let requested :=
    convert_conv_weight_tensor_to_tiled_layout Q assertions mem tensor
      in1_block_h in1_block_w (Some d) in
  (exists f, without = Fail f /\ requested = Fail f) \/
  (exists out shape,
     without = to_layout_TILE
                 (Tensor_of (OwnedStorage out) shape (get_dtype tensor) ROW_MAJOR) /\
     requested = to_layout_TILE (Tensor_of (OwnedStorage out) shape d ROW_MAJOR)).
Proof.
  intros Hdata Hd without requested. subst without requested.
  unfold convert_conv_weight_tensor_to_tiled_layout,
    convert_tensor_to_tiled_layout_common.
  destruct (TT_ASSERT assertions (bool_decide (get_layout tensor = ROW_MAJOR)) _)
    as [[]|f]; [|left; exists f; split; reflexivity].
  cbn [bind]. rewrite Hd.
  assert (Hself : TT_ASSERT assertions
                    (bool_decide (get_dtype tensor = get_dtype tensor))
                    "input_tensor.get_dtype() == input_tensor.get_dtype()" = Ok tt).
  { unfold TT_ASSERT. rewrite bool_decide_eq_true_2 by reflexivity.
    rewrite andb_false_r. reflexivity. }
  rewrite Hself. cbn [bind default].
  assert (Hcreate : forall T out od shape,
            is_packed od = false ->
            create_tensor_from_owned_buffer Q T out od shape
            = to_layout_TILE (Tensor_of (OwnedStorage out) shape od ROW_MAJOR)).
  { intros T out od shape Hod. unfold create_tensor_from_owned_buffer.
    rewrite Hod.
    assert (Hguard : output_dtype_guard od = true) by (destruct od; reflexivity).
    rewrite Hguard. destruct (is_float T); reflexivity. }
  assert (Hsame : forall T,
            is_packed (get_dtype tensor) = false ->
            let without :=
              to_weight_tile_layout Q mem T tensor (in1_block_h, in1_block_w)
                (get_dtype tensor) in
            let requested :=
              to_weight_tile_layout Q mem T tensor (in1_block_h, in1_block_w) d in
            (exists f, without = Fail f /\ requested = Fail f) \/
            (exists out shape,
               without = to_layout_TILE
                           (Tensor_of (OwnedStorage out) shape (get_dtype tensor)
                              ROW_MAJOR) /\
               requested = to_layout_TILE
                             (Tensor_of (OwnedStorage out) shape d ROW_MAJOR))).
  { intros T Hin. cbv zeta. unfold to_weight_tile_layout.
    rewrite !(host_elements_convert mem tensor data _ Hdata).
    destruct (c_mod _ _) as [cols_rem|f]; [|left; exists f; split; reflexivity].
    cbn [bind].
    destruct (c_mod _ _) as [rows_rem|f]; [|left; exists f; split; reflexivity].
    cbn [bind].
    destruct (for_loop _ _ _) as [out|f]; [|left; exists f; split; reflexivity].
    cbn [bind].
    rewrite !Hcreate by assumption.
    right. eexists _, _. split; reflexivity. }
  destruct (get_dtype tensor) eqn:Edt;
    cbn [to_w_tile_layout_map map_find bool_decide decide_rel];
    try (left; eexists; split; reflexivity);
    apply Hsame; reflexivity.
Qed.

Lemma requested_dtype_only_labels_the_result_witness :
  let Q := mkQuantizer (fun b => b) (fun b => b) in
  let mem : Memory := fun _ => [] in
  let weight := Tensor_of (OwnedStorage [11; 12; 21; 22]) [2; 2; 1; 1] UINT32 ROW_MAJOR in
  exists out shape,
    convert_conv_weight_tensor_to_tiled_layout Q true mem weight 1 1 None
      = to_layout_TILE (Tensor_of (OwnedStorage out) shape UINT32 ROW_MAJOR) /\
    convert_conv_weight_tensor_to_tiled_layout Q true mem weight 1 1 (Some BFLOAT16)
      = to_layout_TILE (Tensor_of (OwnedStorage out) shape BFLOAT16 ROW_MAJOR).
Proof.
  intros Q mem weight.
  destruct (requested_dtype_only_labels_the_result Q true mem weight 1 1 BFLOAT16
              [11; 12; 21; 22] eq_refl eq_refl)
    as [(f & Hfail & _) | (out & shape & Hwithout & Hrequested)].
  - exfalso. vm_compute in Hfail. discriminate.
  - exists out, shape. split; [exact Hwithout | exact Hrequested].
Defined.

Lemma for_each_fold {S : Type} (step : S -> Tensor -> S) :
  forall inputs s,
    for_each (fun t s => Ok (step s t)) inputs s = Ok (fold_left step inputs s).
Proof.
  induction inputs as [|t inputs IH]; intros s; simpl; [reflexivity|].
  apply IH.
Qed.

Lemma for_each_app {S : Type} (f : Tensor -> S -> Result S) :
  forall before rest s,
    for_each f (before ++ rest) s = let* s1 := for_each f before s in for_each f rest s1.
Proof.
  induction before as [|t before IH]; intros rest s; simpl.
  - reflexivity.
  - destruct (f t s); simpl; [apply IH | reflexivity].
Qed.

(** X15.  [apply] calls the callable once on every shard, in the order in
    which the shards are enumerated, and reassembles nothing: with a callable
    that cannot fail the effect is the left fold of its effect over the
    shards (so a recording callable records exactly the shards, in order,
    the same calls as [transform] makes), on a tensor that is not distributed
    it is the single call on the tensor itself, and a failure of the callable
    on a shard ends the loop with that failure, the later shards not being
    visited. *)
Theorem apply_visits_shards_in_order
    {S : Type} (tensor : Tensor) (shards : list Tensor) (step : S -> Tensor -> S) (s : S) :
  get_tensors_from_multi_device_storage tensor = Ok shards ->
  apply tensor (fun t s => Ok (step s t)) s = Ok (fold_left step shards s) /\
  apply tensor (fun t (calls : list Tensor) => Ok (calls ++ [t])) [] = Ok shards /\
  (forall g, exists outputs,
     std_transform (recording g) shards [] = Ok (outputs, shards)) /\
  (is_multi_device_tensor tensor = false ->
     forall callable : Tensor -> S -> Result S,
       apply tensor callable s = callable tensor s) /\
  (forall (callable : Tensor -> S -> Result S) before shard rest s1 f,
     shards = before ++ shard :: rest ->
     for_each callable before s = Ok s1 ->
     callable shard s1 = Fail f ->
     apply tensor callable s = Fail f).
Proof.
  intros Hshards. unfold apply. rewrite Hshards. cbn [bind].
  split; [apply for_each_fold|].
  split.
  { rewrite (for_each_fold (fun (calls : list Tensor) t => calls ++ [t])).
    f_equal. clear Hshards.
    assert (H : forall (l acc : list Tensor),
              fold_left (fun calls t => calls ++ [t]) l acc = acc ++ l).
    { induction l as [|x l IH]; intros acc; simpl.
      - rewrite app_nil_r. reflexivity.
      - rewrite IH, <- app_assoc. reflexivity. }
    apply (H shards []). }
  split.
  { intros g. exists (map g shards). apply (std_transform_recording g shards []). }
  split.
  - intros Hsingle callable.
    rewrite (single_shard_is_tensor tensor shards Hsingle Hshards).
    cbn [for_each]. destruct (callable tensor s); reflexivity.
  - intros callable before shard rest s1 f -> Hbefore Hfail.
    rewrite for_each_app, Hbefore. cbn [bind for_each]. rewrite Hfail. reflexivity.
Qed.

Lemma apply_visits_shards_in_order_witness :
  let t := Tensor_of (MultiDeviceHostStorage (ShardTensor 0) [[1; 2]; [3; 4]] [[1; 2]; [1; 2]])
             [1; 2] UINT32 ROW_MAJOR in
  apply t (fun shard n => Ok (n + volume (get_shape shard))) 0 = Ok 4.
Proof.
  intros t.
  exact (proj1 (apply_visits_shards_in_order t _ (fun n shard => n + volume (get_shape shard))
                  0 eq_refl)).
Defined.

Lemma collect_devices (buffers : list (Z * DeviceBuffer)) :
  forall ids,
    (forall id, In id ids -> exists b, assoc_find id buffers = Some b) ->
    exists devices,
      collect (device_of_buffer_for_device_id buffers) ids = Ok devices /\
      length devices = length ids /\
      (forall i id, nth_error ids i = Some id ->
         exists b, assoc_find id buffers = Some b /\
                   nth_error devices i = Some (buffer_device_id b)).
Proof.
  induction ids as [|id ids IH]; intros Hall.
  - exists []. split; [reflexivity|]. split; [reflexivity|].
    intros [|i] id' H; discriminate.
  - destruct (Hall id (or_introl eq_refl)) as (b & Hb).
    destruct IH as (devices & Hrun & Hlen & Hnth);
      [intros id' Hin; apply Hall; right; exact Hin|].
    exists (buffer_device_id b :: devices).
    cbn [collect]. unfold device_of_buffer_for_device_id at 1. rewrite Hb.
    cbn [bind]. rewrite Hrun. cbn [bind].
    split; [reflexivity|]. split; [simpl; f_equal; exact Hlen|].
    intros [|i] id' H; simpl in H.
    + injection H as <-. exists b. split; [exact Hb | reflexivity].
    + apply Hnth. exact H.
Qed.

(** X16.  [get_devices] throws "Tensor is not a multi-device tensor" on
    every tensor whose storage type is not MULTI_DEVICE: on a single-device
    tensor, and also on a multi-device host tensor.  On a multi-device tensor
    in which every ordered device id has a buffer it returns one device per
    ordered device id, in that order: the device of the buffer stored for the
    id. *)
Theorem get_devices_follows_ordered_device_ids (tensor : Tensor) :
  (storage_type tensor <> MULTI_DEVICE ->
     get_devices tensor = Fail (Thrown "Tensor is not a multi-device tensor")) /\
  (forall cfg ids buffers shapes,
     get_storage tensor = MultiDeviceStorage cfg ids buffers shapes ->
     (forall id, In id ids -> exists b, assoc_find id buffers = Some b) ->
     exists devices,
       get_devices tensor = Ok devices /\
       length devices = length ids /\
       (forall i id, nth_error ids i = Some id ->
          exists b, assoc_find id buffers = Some b /\
                    nth_error devices i = Some (buffer_device_id b))).
Proof.
  split.
  - intros Hkind. unfold get_devices.
    rewrite bool_decide_eq_false_2 by exact Hkind. reflexivity.
  - intros cfg ids buffers shapes Hst Hall.
    unfold get_devices, storage_type. rewrite Hst. cbn [storage_type_of].
    rewrite bool_decide_eq_true_2 by reflexivity.
    apply collect_devices. exact Hall.
Qed.

(** X17.  The storage type decides what [convert_tensor] does with a tensor
    that is not distributed: on a cpu tensor ([is_cpu_tensor]) the
    computation is called, once, on the host elements of the tensor (the
    owned buffer, or what the borrowed buffer holds at the time of the call);
    every other such tensor is a device tensor ([is_device_tensor]) and the
    conversion throws without calling the computation. *)
Theorem convert_tensor_computes_on_cpu_tensors
    (mem : Memory) (input_tensor : Tensor) (compute : Buffer -> Result Tensor) :
  is_multi_device_tensor input_tensor = false ->
  is_cpu_tensor input_tensor = negb (is_device_tensor input_tensor) /\
  (is_cpu_tensor input_tensor = true ->
     exists data,
       host_elements mem input_tensor = Some data /\
       convert_tensor mem input_tensor compute = compute data) /\
  (is_cpu_tensor input_tensor = false ->
     host_elements mem input_tensor = None /\
     convert_tensor mem input_tensor compute = Fail (Thrown "Unsupported storage type")).
Proof.
  intros Hsingle.
  unfold convert_tensor. rewrite Hsingle.
  unfold is_multi_device_tensor, is_cpu_tensor, is_device_tensor, storage_type,
    host_elements, convert_tensor_on_storage in *.
  destruct (get_storage input_tensor); cbn in *; try discriminate;
    (split; [reflexivity|]); split; intros H; try discriminate;
    try (eexists; split; reflexivity); split; reflexivity.
Qed.

Lemma convert_tensor_computes_on_cpu_tensors_witness :
  let mem : Memory := fun a => if Nat.eqb a 7 then [1; 2; 3] else [] in
  let t := Tensor_of (BorrowedStorage 7%nat) [1; 3] UINT32 ROW_MAJOR in
  let compute := fun b : Buffer => Ok (Tensor_of (OwnedStorage (rev b)) [1; 3] UINT32 TILE) in
  is_cpu_tensor t = true /\
  convert_tensor mem t compute = Ok (Tensor_of (OwnedStorage [3; 2; 1]) [1; 3] UINT32 TILE).
Proof.
  intros mem t compute. split; [reflexivity|].
  destruct (convert_tensor_computes_on_cpu_tensors mem t compute eq_refl)
    as (_ & Hcpu & _).
  destruct (Hcpu eq_refl) as (data & Hdata & Hrun).
  rewrite Hrun. injection Hdata as <-. reflexivity.
Defined.

Lemma get_devices_follows_ordered_device_ids_witness :
  let t := Tensor_of (MultiDeviceStorage (ShardTensor 0) [1; 0]
                        [(0, mkDeviceBuffer 0 4096); (1, mkDeviceBuffer 1 8192)]
                        [(0, [1; 2]); (1, [1; 2])])
             [1; 2] UINT32 ROW_MAJOR in
  let host := Tensor_of (MultiDeviceHostStorage (ShardTensor 0) [[1; 2]] [[1; 2]])
                [1; 2] UINT32 ROW_MAJOR in
  (exists devices, get_devices t = Ok devices /\ length devices = 2%nat) /\
  get_devices host = Fail (Thrown "Tensor is not a multi-device tensor").
Proof.
  intros t host. split.
  - destruct (proj2 (get_devices_follows_ordered_device_ids t) _ _ _ _ eq_refl)
      as (devices & Hrun & Hlen & _).
    + intros id [<- | [<- | []]]; eexists; reflexivity.
    + exists devices. split; [exact Hrun | exact Hlen].
  - apply (proj1 (get_devices_follows_ordered_device_ids host)). discriminate.
Defined.

Lemma for_loop_first_fails {A : Type} (body : Z -> A -> Result A) (bound : Z) (acc : A)
    (f : Failure) :
  0 < bound -> body 0 acc = Fail f -> for_loop bound body acc = Fail f.
Proof.
  intros Hbound Hfail. unfold for_loop.
  destruct (Z.to_nat bound) as [|count] eqn:E; [lia|].
  cbn [for_range]. rewrite Hfail. reflexivity.
Qed.

(** X18.  [convert_conv_weight_tensor_to_grouped_layout] with more groups
    than output channels, or with no group at all: on a host weight with at
    least one output channel and a data type of the dispatch table, the
    group size [out_channels / num_groups] is 0 (or the division itself is
    by 0), and the conversion reaches an integer division by zero on the
    first output channel, whether the assertions made before the dispatch
    are compiled in (and pass) or not. *)
Theorem convert_conv_weight_tensor_to_grouped_layout_divides_by_zero
    (assertions : bool) (mem : Memory) (tensor : Tensor) (num_groups : Z)
    (output_dtype : DataType) (O I H W : Z) (data : Buffer) :
  get_shape tensor = [O; I; H; W] ->
  host_elements mem tensor = Some data ->
  0 < O ->
  num_groups = 0 \/ O < num_groups ->
  get_dtype tensor <> UINT8 -> get_dtype tensor <> INVALID ->
  let dtype := if bool_decide (output_dtype = BFLOAT8_B) then FLOAT32 else output_dtype in
  assertions = false \/ common_assertions_hold tensor (Some dtype) ->
  convert_conv_weight_tensor_to_grouped_layout assertions mem tensor num_groups output_dtype
  = Fail (Undefined "integer division by zero").
Proof.
  intros Hshape Hdata HO HG Hd1 Hd2 dtype Hassert.
  unfold convert_conv_weight_tensor_to_grouped_layout.
  rewrite Hshape. cbn [dim nth]. fold dtype.
  unfold convert_tensor_to_tiled_layout_common.
  rewrite (common_assertions_pass assertions tensor (Some dtype) _ Hassert).
  assert (Hfind : exists T,
            map_find (get_dtype tensor) (to_grouped_layout_map mem)
            = Some (conv_group_weight_zero_pad_helper mem T)).
  { exists T_float. destruct (get_dtype tensor); try congruence; reflexivity. }
  destruct Hfind as (T & ->).
  unfold conv_group_weight_zero_pad_helper. cbn [dim nth].
  rewrite (host_elements_convert mem tensor data _ Hdata).
  rewrite (for_loop_first_fails _ O _ (Undefined "integer division by zero") HO);
    [reflexivity|].
  unfold c_div.
  destruct HG as [-> | HG]; [reflexivity|].
  destruct (Z.eqb_spec num_groups 0); [reflexivity|].
  cbn [bind]. rewrite Z.div_small by lia. reflexivity.
Qed.

Lemma convert_conv_weight_tensor_to_grouped_layout_divides_by_zero_witness :
  let mem : Memory := fun _ => [] in
  let weight := Tensor_of (OwnedStorage [5; 6; 7; 8]) [2; 2; 1; 1] BFLOAT16 ROW_MAJOR in
  convert_conv_weight_tensor_to_grouped_layout true mem weight 3 BFLOAT16
  = Fail (Undefined "integer division by zero").
Proof.
  intros mem weight.
  apply (convert_conv_weight_tensor_to_grouped_layout_divides_by_zero
           true mem weight 3 BFLOAT16 2 2 1 1 [5; 6; 7; 8]);
    try reflexivity; try lia; try discriminate.
  right. split; [reflexivity | intros d [= <-] Hd; discriminate].
Defined.

(** X19.  [copy_borrowed_tensor_in_async_mode] is idempotent: called on its
    own result, with the same worker, it returns that result as it is, and
    copies nothing; whenever the worker is asynchronous and at most one shard
    is to be populated, the result is not in borrowed storage, so that
    nothing handed to the worker refers to the caller's buffer. *)
Theorem copy_borrowed_tensor_in_async_mode_idempotent
    (worker : Device) (tensor : Tensor) (mem : Memory) :
  let result := fst (copy_borrowed_tensor_in_async_mode worker tensor mem) in
  let mem_after := snd (copy_borrowed_tensor_in_async_mode worker tensor mem) in
  copy_borrowed_tensor_in_async_mode worker result mem_after = (result, mem_after) /\
  (get_worker_mode worker = ASYNCHRONOUS ->
   num_shards_to_be_populated tensor <= 1 ->
   storage_type result <> BORROWED /\
   forall later_data address,
     host_elements (overwrite mem address later_data) result = host_elements mem result).
Proof.
  intros result mem_after. subst result mem_after.
  destruct (get_worker_mode worker) eqn:Hmode.
  - assert (Hsync : forall t m, copy_borrowed_tensor_in_async_mode worker t m = (t, m)).
    { intros t m. unfold copy_borrowed_tensor_in_async_mode. rewrite Hmode. reflexivity. }
    rewrite !Hsync. cbn [fst snd].
    split; [reflexivity | intros; discriminate].
  - destruct (num_shards_to_be_populated tensor >? 1) eqn:Hn.
    + assert (Hsame : copy_borrowed_tensor_in_async_mode worker tensor mem = (tensor, mem)).
      { unfold copy_borrowed_tensor_in_async_mode. rewrite Hmode, Hn. reflexivity. }
      rewrite !Hsame. cbn [fst snd]. rewrite Hsame.
      split; [reflexivity|]. intros _ Hle. apply Z.gtb_lt in Hn. lia.
    + destruct (get_storage tensor) as [b|b|a|cfg ids bufs shs|cfg bufs shs] eqn:Hst.
      5:{ assert (Hsame : copy_borrowed_tensor_in_async_mode worker tensor mem
                          = (tensor, mem)).
          { unfold copy_borrowed_tensor_in_async_mode. rewrite Hmode, Hn, Hst. reflexivity. }
          rewrite !Hsame. cbn [fst snd]. rewrite Hsame.
          split; [reflexivity|]. intros _ _.
          unfold storage_type, host_elements. rewrite Hst.
          split; [discriminate | reflexivity]. }
      4:{ assert (Hsame : copy_borrowed_tensor_in_async_mode worker tensor mem
                          = (tensor, mem)).
          { unfold copy_borrowed_tensor_in_async_mode. rewrite Hmode, Hn, Hst. reflexivity. }
          rewrite !Hsame. cbn [fst snd]. rewrite Hsame.
          split; [reflexivity|]. intros _ _.
          unfold storage_type, host_elements. rewrite Hst.
          split; [discriminate | reflexivity]. }
      3:{ assert (Hcopy : copy_borrowed_tensor_in_async_mode worker tensor mem
                          = (Tensor_with_spec (OwnedStorage (mem a)) (get_tensor_spec tensor),
                             mem)).
          { unfold copy_borrowed_tensor_in_async_mode. rewrite Hmode, Hn, Hst. reflexivity. }
          rewrite !Hcopy. cbn [fst snd].
          split.
          - unfold copy_borrowed_tensor_in_async_mode. rewrite Hmode. reflexivity.
          - intros _ _. split; [discriminate | reflexivity]. }
      2:{ assert (Hsame : copy_borrowed_tensor_in_async_mode worker tensor mem
                          = (tensor, mem)).
          { unfold copy_borrowed_tensor_in_async_mode. rewrite Hmode, Hn, Hst. reflexivity. }
          rewrite !Hsame. cbn [fst snd]. rewrite Hsame.
          split; [reflexivity|]. intros _ _.
          unfold storage_type, host_elements. rewrite Hst.
          split; [discriminate | reflexivity]. }
      assert (Hsame : copy_borrowed_tensor_in_async_mode worker tensor mem
                      = (tensor, mem)).
      { unfold copy_borrowed_tensor_in_async_mode. rewrite Hmode, Hn, Hst. reflexivity. }
      rewrite !Hsame. cbn [fst snd]. rewrite Hsame.
      split; [reflexivity|]. intros _ _.
      unfold storage_type, host_elements. rewrite Hst.
      split; [discriminate | reflexivity].
Qed.
